(** * Browser-side search glue of the regulatory-documents landing page

    A shallow embedding of the page scripts of the repository:

    - [static/js/main.js]: the footer-year handler run on [DOMContentLoaded];
    - the landing-page helper [initSearchForm] (form [formBusqueda]);
    - the search page script posting to [/buscar-elastic], with its helpers
      [mostrarAlerta], [ocultarAlerta], [limpiarResultados], [extraerHits],
      [extraerTotal] and [renderResultados];
    - the search page script posting to [/buscar], with the top-level
      [mostrarAlerta].

    JavaScript strings are sequences of UTF-16 code units, values received
    from [JSON.parse] are a tagged union, the document is a finite map from
    element ids to element states, and an [async] handler is a tree of
    synchronous segments separated by its [await] points. *)

From Stdlib Require Import ZArith NArith String Ascii List PrimFloat Uint63 Lia.
From Stdlib Require DecimalN DecimalPos.
From stdpp Require Import gmap list.

Set Warnings "-register-all".

(** ** JavaScript strings *)

(** A JavaScript string is a sequence of UTF-16 code units; [length] counts
    code units, as [String.prototype.length] does. *)
Definition jstring : Type := list N.

(** Literals are written as in the source and decoded from the UTF-8 bytes of
    the Rocq literal (one, two and three byte sequences, which cover every
    literal of the scripts). *)
Fixpoint utf16_of_bytes (bs : list N) : jstring :=
  match bs with
  | [] => []
  | b :: r =>
      if (b <? 128)%N then b :: utf16_of_bytes r
      else match r with
           | [] => []
           | c :: r' =>
               if (b <? 224)%N
               then ((b mod 32) * 64 + c mod 64)%N :: utf16_of_bytes r'
               else match r' with
                    | [] => []
                    | d :: r'' =>
                        ((b mod 16) * 4096 + (c mod 64) * 64 + d mod 64)%N
                          :: utf16_of_bytes r''
                    end
           end
  end.

Definition js (s : string) : jstring :=
  utf16_of_bytes (List.map (fun b => N_of_ascii b) (list_ascii_of_string s)).

Arguments js : simpl never.

(** The double quote, for the HTML literals of the scripts. *)
Definition dq : jstring := [34%N].

(** [WhiteSpace] and [LineTerminator] code points of ECMAScript, the
    characters [String.prototype.trim] strips. *)
Definition is_js_space (c : N) : bool :=
  ((9 <=? c) && (c <=? 13) || (c =? 32) || (c =? 160) || (c =? 5760)
   || (8192 <=? c) && (c <=? 8202) || (c =? 8232) || (c =? 8233)
   || (c =? 8239) || (c =? 8287) || (c =? 12288) || (c =? 65279))%N.

Fixpoint trim_start (s : jstring) : jstring :=
  match s with
  | c :: r => if is_js_space c then trim_start r else s
  | [] => []
  end.

Definition trim_end (s : jstring) : jstring := rev (trim_start (rev s)).

(** [s.trim()] *)
Definition trim (s : jstring) : jstring := trim_end (trim_start s).

(** Truthiness of a string: [!s] holds exactly for the empty string. *)
Definition str_truthy (s : jstring) : bool :=
  match s with [] => false | _ :: _ => true end.

(** [s || d] on strings. *)
Definition str_or (s d : jstring) : jstring := if str_truthy s then s else d.

(** Decimal rendering of an integral number, as [String(n)] and string
    concatenation give it for integers of this size. *)
Fixpoint uint_chars (d : Decimal.uint) : jstring :=
  match d with
  | Decimal.Nil => []
  | Decimal.D0 r => 48%N :: uint_chars r
  | Decimal.D1 r => 49%N :: uint_chars r
  | Decimal.D2 r => 50%N :: uint_chars r
  | Decimal.D3 r => 51%N :: uint_chars r
  | Decimal.D4 r => 52%N :: uint_chars r
  | Decimal.D5 r => 53%N :: uint_chars r
  | Decimal.D6 r => 54%N :: uint_chars r
  | Decimal.D7 r => 55%N :: uint_chars r
  | Decimal.D8 r => 56%N :: uint_chars r
  | Decimal.D9 r => 57%N :: uint_chars r
  end.

Definition decimal (n : N) : jstring := uint_chars (N.to_uint n).

Definition decimalZ (z : Z) : jstring :=
  match z with
  | Z0 => js "0"
  | Zpos p => decimal (Npos p)
  | Zneg p => js "-" ++ decimal (Npos p)
  end.

(** [hay.includes(needle)] *)
Fixpoint starts_with (needle hay : jstring) : bool :=
  match needle, hay with
  | [], _ => true
  | _ :: _, [] => false
  | a :: n', b :: h' => (a =? b)%N && starts_with n' h'
  end.

Fixpoint includes (needle hay : jstring) : bool :=
  starts_with needle hay
  || match hay with
     | [] => false
     | _ :: h' => includes needle h'
     end.

(** The conversion of the [href] setter, whose argument is a [USVString]:
    a surrogate without its pair becomes U+FFFD. *)
Definition is_high_surrogate (c : N) : bool := ((55296 <=? c) && (c <=? 56319))%N.
Definition is_low_surrogate (c : N) : bool := ((56320 <=? c) && (c <=? 57343))%N.

Fixpoint usv (s : jstring) : jstring :=
  match s with
  | [] => []
  | c :: r =>
      if is_high_surrogate c then
        match r with
        | d :: r' =>
            if is_low_surrogate d then c :: d :: usv r' else 65533%N :: usv r
        | [] => [65533%N]
        end
      else if is_low_surrogate c then 65533%N :: usv r
      else c :: usv r
  end.

(** Tokens of a [class] attribute value (split on ASCII whitespace). *)
Definition is_ascii_space (c : N) : bool :=
  ((c =? 9) || (c =? 10) || (c =? 12) || (c =? 13) || (c =? 32))%N.

Fixpoint tokens_aux (cur : jstring) (s : jstring) : list jstring :=
  match s with
  | [] => match cur with [] => [] | _ => [rev cur] end
  | c :: r =>
      if is_ascii_space c
      then match cur with [] => tokens_aux [] r | _ => rev cur :: tokens_aux [] r end
      else tokens_aux (c :: cur) r
  end.

Definition tokens (s : jstring) : list jstring := tokens_aux [] s.

(** ** Exceptions and results *)

Inductive Exn : Type :=
| TypeError
| SyntaxError
| Error (message : jstring)
| NetworkFailure.

Inductive Result (A : Type) : Type :=
| Ok (a : A)
| Throw (e : Exn).
Arguments Ok {A} a.
Arguments Throw {A} e.

Definition rbind {A B} (r : Result A) (f : A -> Result B) : Result B :=
  match r with
  | Ok a => f a
  | Throw e => Throw e
  end.

#[global] Instance Result_ret : MRet Result := fun A a => Ok a.
#[global] Instance Result_bind : MBind Result := fun A B f r => rbind r f.

(** ** Values produced by [JSON.parse] (and [undefined], which property
    reads produce) *)

Inductive JsVal : Type :=
| JUndefined
| JNull
| JBool (b : bool)
| JNum (x : float)
| JStr (s : jstring)
| JArr (l : list JsVal)
| JObj (m : gmap jstring JsVal).

(** ToBoolean *)
Definition truthy (v : JsVal) : bool :=
  match v with
  | JUndefined | JNull => false
  | JBool b => b
  | JNum x => negb (PrimFloat.eqb x 0 || PrimFloat.is_nan x)
  | JStr s => str_truthy s
  | JArr _ | JObj _ => true
  end.

(** [a || b] *)
Definition js_or (a b : JsVal) : JsVal := if truthy a then a else b.

(** [v.k] for a key [k] that no built-in prototype defines (every key the
    scripts read except [length] and [slice], which have their own
    definitions below): a [TypeError] on [null] and [undefined], the own
    property of an object, [undefined] otherwise. *)
Definition field (v : JsVal) (k : jstring) : Result JsVal :=
  match v with
  | JUndefined | JNull => Throw TypeError
  | JObj m => Ok (default JUndefined (m !! k))
  | _ => Ok JUndefined
  end.

(** [Array.isArray(v)], returning the elements. *)
Definition as_array (v : JsVal) : option (list JsVal) :=
  match v with
  | JArr l => Some l
  | _ => None
  end.

(** [typeof v === "number"], returning the number. *)
Definition as_number (v : JsVal) : option float :=
  match v with
  | JNum x => Some x
  | _ => None
  end.

(** [join(sep)] on already converted elements. *)
Fixpoint join (sep : jstring) (l : list jstring) : jstring :=
  match l with
  | [] => []
  | [s] => s
  | s :: r => s ++ sep ++ join sep r
  end.

(** ** What the page shows of a result *)

(** One rendered hit of the [/buscar-elastic] page: the strings interpolated
    into the item's template. [hit_detalle] is the value handed to
    [JSON.stringify] for the detail pane. *)
Record HitItem : Type := {
  hit_titulo : jstring;             (* ${titulo} *)
  hit_anio : option jstring;        (* Año, when truthy *)
  hit_tipo : option jstring;        (* Tipo, when truthy *)
  hit_entidad : option jstring;     (* Entidad, when truthy *)
  hit_score : option jstring;       (* the score badge, when _score is a number *)
  hit_position : nat;               (* #${index + 1} *)
  hit_snippet : jstring;            (* ${snippet} *)
  hit_detalle : JsVal
}.

(** One rendered document of the [/buscar] page, an [<a>] element. *)
Record DocLink : Type := {
  doc_href : jstring;       (* the value the href attribute is set to *)
  doc_target : jstring;
  doc_titulo : jstring;
  doc_fecha : jstring;
  doc_resumen : jstring;
  doc_fuente : jstring
}.

Inductive Child : Type :=
| ChildHit (h : HitItem)
| ChildDoc (d : DocLink).

(** ** The browser *)

(** What the scripts call of the browser but do not define: the number
    conversions, and the HTML parser behind [innerHTML] as far as the
    scripts look at what it built. The texts of a hit are interpolated into
    the template as they are, so they can close or swallow the markup that
    follows them. *)
Record Host : Type := {
  Number_toString : float -> jstring;          (* String(x), template literals *)
  Number_toFixed : float -> nat -> jstring;    (* x.toFixed(d) *)
  StringToNumber : jstring -> float;           (* ToNumber on a string *)
  has_btn_detalle : HitItem -> bool
    (* item.querySelector(".btn-detalle") !== null, once item.innerHTML is
       the template filled with the strings of the item *)
}.

(** [l.map(f)] where [f] may throw: the first exception stops it. *)
Definition traverse {A B : Type} (f : A -> Result B) : list A -> Result (list B) :=
  fix go (l : list A) : Result (list B) :=
    match l with
    | [] => Ok []
    | a :: r => b ← f a; bs ← go r; Ok (b :: bs)
    end.

Section Conversions.
Variable host : Host.

(** ToString, as template literals, [String(v)], [+] with a string, and the
    [textContent] and [href] setters apply it. An array is joined; an object
    goes through its [toString], which is [Object.prototype.toString] unless
    the object has a property of that name of its own. Such a property of a
    parsed value is never a function, and [valueOf] never gives a primitive,
    so the conversion ends in a [TypeError]. *)
Fixpoint ToString (v : JsVal) : Result jstring :=
  match v with
  | JUndefined => Ok (js "undefined")
  | JNull => Ok (js "null")
  | JBool true => Ok (js "true")
  | JBool false => Ok (js "false")
  | JNum x => Ok (Number_toString host x)
  | JStr s => Ok s
  | JArr l =>
      parts ← traverse (fun e => match e with
                                 | JUndefined | JNull => Ok []
                                 | _ => ToString e
                                 end) l;
      Ok (join (js ",") parts)
  | JObj m =>
      match m !! js "toString" with
      | Some _ => Throw TypeError
      | None => Ok (js "[object Object]")
      end
  end.

(** ToNumber; arrays and objects are converted to a string first. *)
Definition ToNumber (v : JsVal) : Result float :=
  match v with
  | JUndefined => Ok PrimFloat.nan
  | JNull => Ok 0%float
  | JBool true => Ok 1%float
  | JBool false => Ok 0%float
  | JNum x => Ok x
  | JStr s => Ok (StringToNumber host s)
  | JArr _ | JObj _ => s ← ToString v; Ok (StringToNumber host s)
  end.
End Conversions.

(** Whether ToString returns: no object with a [toString] of its own, in
    the value or in an array of it. *)
Fixpoint stringable (v : JsVal) : bool :=
  match v with
  | JArr l => forallb stringable l
  | JObj m => bool_decide (m !! js "toString" = None)
  | _ => true
  end.

(** Neither an array nor an object. *)
Definition scalar (v : JsVal) : bool :=
  match v with
  | JArr _ | JObj _ => false
  | _ => true
  end.

(** ** Elements of the document *)

(** What an element holds: the text or markup last assigned to it. *)
Inductive Markup : Type :=
| Text (s : jstring)     (* assigned through textContent *)
| Html (s : jstring).    (* assigned through innerHTML, or the page's own *)

Record Element : Type := {
  value : jstring;             (* of an input *)
  markup : Markup;
  appended : list Child;       (* children added by appendChild since *)
  classes : list jstring;      (* tokens of the class attribute *)
  maxWidth : jstring           (* style.maxWidth *)
}.

Definition set_textContent (s : jstring) (e : Element) : Element :=
  {| value := value e; markup := Text s; appended := [];
     classes := classes e; maxWidth := maxWidth e |}.

Definition set_innerHTML (s : jstring) (e : Element) : Element :=
  {| value := value e; markup := Html s; appended := [];
     classes := classes e; maxWidth := maxWidth e |}.

Definition appendChild (c : Child) (e : Element) : Element :=
  {| value := value e; markup := markup e; appended := appended e ++ [c];
     classes := classes e; maxWidth := maxWidth e |}.

Definition set_className (s : jstring) (e : Element) : Element :=
  {| value := value e; markup := markup e; appended := appended e;
     classes := tokens s; maxWidth := maxWidth e |}.

Definition set_maxWidth (s : jstring) (e : Element) : Element :=
  {| value := value e; markup := markup e; appended := appended e;
     classes := classes e; maxWidth := s |}.

(** The ordered token set of a class attribute: a repeated token counts
    once, at its first place. *)
Fixpoint token_set (l : list jstring) : list jstring :=
  match l with
  | [] => []
  | t :: r => t :: filter (λ c, c ≠ t) (token_set r)
  end.

(** [classList.add] and [classList.remove] work on the ordered token set
    and write it back. *)
Definition classList_add (t : jstring) (e : Element) : Element :=
  let set := token_set (classes e) in
  {| value := value e; markup := markup e; appended := appended e;
     classes := if bool_decide (t ∈ set) then set else set ++ [t];
     maxWidth := maxWidth e |}.

Definition classList_remove (t : jstring) (e : Element) : Element :=
  {| value := value e; markup := markup e; appended := appended e;
     classes := filter (λ c, c ≠ t) (token_set (classes e));
     maxWidth := maxWidth e |}.

Definition has_class (t : jstring) (e : Element) : bool :=
  bool_decide (t ∈ classes e).

(** Bootstrap's [d-none] hides an element. *)
Definition hidden (e : Element) : bool := has_class (js "d-none") e.

(** An element showing nothing: no text, no markup, no children. *)
Definition shows_nothing (e : Element) : Prop :=
  (markup e = Html [] ∨ markup e = Text []) ∧ appended e = [].

(** The document: elements by id, as [getElementById] finds them. *)
Abbreviation Document := (gmap jstring Element).

(** ** The network *)

Record Request : Type := {
  url : jstring;
  method : jstring;
  headers : list (jstring * jstring);
  body : JsVal      (* the value serialised by JSON.stringify *)
}.

Record Response : Type := {
  status : N;
  payload : Result JsVal   (* what resp.json() settles to *)
}.

(** [resp.ok] *)
Definition ok (r : Response) : bool := ((200 <=? status r) && (status r <=? 299))%N.

Inductive FetchResult : Type :=
| Resolves (r : Response)
| Rejects (e : Exn).

(** The network call or the JSON parsing of its response throws [e]. *)
Definition falla (out : FetchResult) (e : Exn) : Prop :=
  out = Rejects e
  ∨ ∃ resp, out = Resolves resp ∧ ok resp = true ∧ payload resp = Throw e.

(** ** Asynchronous handlers

    An [async] function runs synchronously up to an [await], is suspended,
    and is resumed with the outcome on the page as it is by then. *)
Inductive Task (S : Type) : Type :=
| Done (s : S)                       (* the handler returned *)
| Failed (s : S) (e : Exn)           (* an exception left the handler *)
| AwaitFetch (s : S) (rq : Request) (k : FetchResult -> S -> Task S)
| AwaitJson (s : S) (rs : Response) (k : Result JsVal -> S -> Task S).
Arguments Done {S} s.
Arguments Failed {S} s e.
Arguments AwaitFetch {S} s rq k.
Arguments AwaitJson {S} s rs k.

(** What one submit event does: whether it called [preventDefault], and the
    rest of the handler. *)
Record Submission (S : Type) : Type := {
  prevented : bool;
  task : Task S
}.
Arguments prevented {S} _.
Arguments task {S} _.

(** The world a suspended handler waits on: the server, and what other
    events do to the page before the [n]-th resumption. *)
Record World (S : Type) : Type := {
  net : Request -> FetchResult;
  meanwhile : nat -> S -> S
}.
Arguments net {S} _ _.
Arguments meanwhile {S} _ _ _.

(** Nothing else happens while the handler waits. *)
Definition undisturbed {S} (server : Request -> FetchResult) : World S :=
  {| net := server; meanwhile := λ _ s, s |}.

(** The requests a task issues, in order. *)
Fixpoint requests {S} (w : World S) (n : nat) (t : Task S) : list Request :=
  match t with
  | Done _ | Failed _ _ => []
  | AwaitFetch s rq k => rq :: requests w (Datatypes.S n) (k (net w rq) (meanwhile w n s))
  | AwaitJson s rs k => requests w (Datatypes.S n) (k (payload rs) (meanwhile w n s))
  end.

(** The page when the task has finished, and the exception that left the
    handler, if any. *)
Fixpoint outcome {S} (w : World S) (n : nat) (t : Task S) : S * option Exn :=
  match t with
  | Done s => (s, None)
  | Failed s e => (s, Some e)
  | AwaitFetch s rq k => outcome w (Datatypes.S n) (k (net w rq) (meanwhile w n s))
  | AwaitJson s rs k => outcome w (Datatypes.S n) (k (payload rs) (meanwhile w n s))
  end.

(** ** [static/js/main.js]: the footer year *)

Module Footer.

(** The [DOMContentLoaded] listener. [fullYear] is what
    [new Date().getFullYear()] returns when it runs. *)
Definition DOMContentLoaded (fullYear : Z) (d : Document) : Document :=
  match d !! js "current-year" with
  | Some yearSpan =>
      <[js "current-year" := set_textContent (decimalZ fullYear) yearSpan]> d
  | None => d
  end.

End Footer.

(** ** The search page posting to [/buscar-elastic] *)

Module Elastic.

(** What the submit handler closes over: the elements found on page load
    and the page-local variable [ultimaBusqueda]; [console] collects what
    [console.error] is given. *)
Record Buscador : Type := {
  input : Element;
  alerta : Element;
  resultadosSection : Element;
  resultadosContainer : Element;
  totalResultadosSpan : Element;
  ultimaBusqueda : list JsVal;
  console : list Exn
}.

Definition with_alerta (f : Element -> Element) (b : Buscador) : Buscador :=
  {| input := input b; alerta := f (alerta b);
     resultadosSection := resultadosSection b;
     resultadosContainer := resultadosContainer b;
     totalResultadosSpan := totalResultadosSpan b;
     ultimaBusqueda := ultimaBusqueda b; console := console b |}.

Definition with_section (f : Element -> Element) (b : Buscador) : Buscador :=
  {| input := input b; alerta := alerta b;
     resultadosSection := f (resultadosSection b);
     resultadosContainer := resultadosContainer b;
     totalResultadosSpan := totalResultadosSpan b;
     ultimaBusqueda := ultimaBusqueda b; console := console b |}.

Definition with_container (f : Element -> Element) (b : Buscador) : Buscador :=
  {| input := input b; alerta := alerta b;
     resultadosSection := resultadosSection b;
     resultadosContainer := f (resultadosContainer b);
     totalResultadosSpan := totalResultadosSpan b;
     ultimaBusqueda := ultimaBusqueda b; console := console b |}.

Definition with_total (f : Element -> Element) (b : Buscador) : Buscador :=
  {| input := input b; alerta := alerta b;
     resultadosSection := resultadosSection b;
     resultadosContainer := resultadosContainer b;
     totalResultadosSpan := f (totalResultadosSpan b);
     ultimaBusqueda := ultimaBusqueda b; console := console b |}.

Definition set_ultimaBusqueda (hits : list JsVal) (b : Buscador) : Buscador :=
  {| input := input b; alerta := alerta b;
     resultadosSection := resultadosSection b;
     resultadosContainer := resultadosContainer b;
     totalResultadosSpan := totalResultadosSpan b;
     ultimaBusqueda := hits; console := console b |}.

Definition console_error (e : Exn) (b : Buscador) : Buscador :=
  {| input := input b; alerta := alerta b;
     resultadosSection := resultadosSection b;
     resultadosContainer := resultadosContainer b;
     totalResultadosSpan := totalResultadosSpan b;
     ultimaBusqueda := ultimaBusqueda b; console := console b ++ [e] |}.

(** The search part of the [DOMContentLoaded] listener: the handler is
    installed only when the form and all five elements exist. *)
Definition buscador (d : Document) : option Buscador :=
  _ ← d !! js "form-busqueda";
  i ← d !! js "texto_busqueda";
  a ← d !! js "alerta-busqueda";
  s ← d !! js "resultados-section";
  c ← d !! js "resultados-container";
  t ← d !! js "total-resultados";
  Some {| input := i; alerta := a; resultadosSection := s;
          resultadosContainer := c; totalResultadosSpan := t;
          ultimaBusqueda := []; console := [] |}.

(** The [DOMContentLoaded] listener: the footer year, then the search
    form. *)
Definition DOMContentLoaded (fullYear : Z) (d : Document)
  : Document * option Buscador :=
  let d := Footer.DOMContentLoaded fullYear d in
  (d, buscador d).

Definition mostrarAlerta (mensaje tipo : jstring) (b : Buscador) : Buscador :=
  with_alerta (λ a,
    set_maxWidth (js "980px")
      (set_className (js "alert alert-" ++ tipo ++ js " mx-auto")
         (set_textContent mensaje a))) b.

Definition ocultarAlerta (b : Buscador) : Buscador :=
  with_alerta (λ a,
    set_className (js "alert d-none mx-auto") (set_textContent [] a)) b.

Definition limpiarResultados (b : Buscador) : Buscador :=
  with_total (set_textContent (js "0"))
    (with_section (classList_add (js "d-none"))
       (with_container (set_innerHTML []) b)).

Definition extraerHits (data : JsVal) : Result (list JsVal) :=
  h ← field data (js "hits");
  match as_array h with
  | Some l => Ok l
  | None =>
      inner ← (if truthy h
               then hh ← field h (js "hits"); Ok (as_array hh)
               else Ok None);
      match inner with
      | Some l => Ok l
      | None =>
          r ← field data (js "resultados");
          match as_array r with
          | Some l => Ok l
          | None => Ok []
          end
      end
  end.

(** [hits.length] as a number *)
Definition length_number (hits : list JsVal) : float :=
  PrimFloat.of_uint63 (Uint63.of_Z (Z.of_nat (length hits))).

Definition extraerTotal (data : JsVal) (hits : list JsVal) : Result float :=
  t ← field data (js "total");
  match as_number t with
  | Some x => Ok x
  | None =>
      h ← field data (js "hits");
      if truthy h then
        ht ← field h (js "total");
        match as_number ht with
        | Some x => Ok x
        | None =>
            if truthy ht then
              v ← field ht (js "value");
              match as_number v with
              | Some x => Ok x
              | None => Ok (length_number hits)
              end
            else Ok (length_number hits)
        end
      else Ok (length_number hits)
  end.

(** [a || b] where evaluating either side may throw. *)
Definition orElse (a b : Result JsVal) : Result JsVal :=
  v ← a; if truthy v then Ok v else b.
Infix "<||>" := orElse (at level 51, right associativity).

Section Rendering.
Variable host : Host.

(** [v.length > 260] *)
Definition length_exceeds_260 (v : JsVal) : Result bool :=
  match v with
  | JUndefined | JNull => Throw TypeError
  | JStr s => Ok (bool_decide (260 < length s))
  | JArr l => Ok (bool_decide (260 < length l))
  | JObj m =>
      n ← ToNumber host (default JUndefined (m !! js "length"));
      Ok (PrimFloat.ltb 260 n)
  | JBool _ | JNum _ => Ok false
  end.

(** [v.slice(0, 260)]: defined on strings and arrays; on anything else
    [slice] is not a function. *)
Definition slice_260 (v : JsVal) : Result JsVal :=
  match v with
  | JStr s => Ok (JStr (take 260 s))
  | JArr l => Ok (JArr (take 260 l))
  | _ => Throw TypeError
  end.

Definition truncar (snippet : JsVal) : Result JsVal :=
  long ← length_exceeds_260 snippet;
  if long : bool then
    cut ← slice_260 snippet;
    s ← ToString host cut;
    Ok (JStr (s ++ js "…"))
  else Ok snippet.

(** [${v ? `...${v}...` : ""}] *)
Definition shown_if_truthy (v : JsVal) : Result (option jstring) :=
  if truthy v then s ← ToString host v; Ok (Some s) else Ok None.

(** The body of the [forEach] callback up to [appendChild]: the values
    read from the hit, the template filled with them, and the look-up of the
    detail button in the parsed markup, on which [addEventListener] is
    called without a check. *)
Definition render_hit (hit : JsVal) (index : nat) : Result HitItem :=
  source ← field hit (js "_source") <||> field hit (js "source") <||> Ok hit;
  anio ← field source (js "anio") <||> field source (js "año")
         <||> field source (js "anio_publicacion") <||> field source (js "fecha")
         <||> Ok (JStr []);
  tipo ← field source (js "tipo_norma") <||> field source (js "tipo_documento")
         <||> field source (js "tipo") <||> Ok (JStr []);
  entidad ← field source (js "entidad") <||> field source (js "emisor")
            <||> field source (js "organismo") <||> Ok (JStr []);
  titulo ← field source (js "titulo") <||> field source (js "nombre_archivo")
           <||> Ok (JStr (js "Documento sin título"));
  textoLargo ← field source (js "resumen") <||> field source (js "extracto")
               <||> field source (js "texto") <||> field source (js "contenido")
               <||> Ok (JStr []);
  snippet ← truncar (js_or textoLargo titulo);
  sc ← field hit (js "_score");
  titulo' ← ToString host titulo;
  anio' ← shown_if_truthy anio;
  tipo' ← shown_if_truthy tipo;
  entidad' ← shown_if_truthy entidad;
  snippet' ← ToString host snippet;
  let item := {| hit_titulo := titulo';
                 hit_anio := anio';
                 hit_tipo := tipo';
                 hit_entidad := entidad';
                 hit_score := (λ x, Number_toFixed host x 4) <$> as_number sc;
                 hit_position := index + 1;
                 hit_snippet := snippet';
                 hit_detalle := source |} in
  if has_btn_detalle host item then Ok item else Throw TypeError.

(** [hits.forEach(...)]: the items already appended stay when a later
    hit throws. *)
Fixpoint forEach_hit (hits : list JsVal) (index : nat) (b : Buscador)
  : Buscador * Result unit :=
  match hits with
  | [] => (b, Ok ())
  | hit :: rest =>
      match render_hit hit index with
      | Throw e => (b, Throw e)
      | Ok item =>
          forEach_hit rest (Datatypes.S index)
            (with_container (appendChild (ChildHit item)) b)
      end
  end.

Definition sin_resultados : jstring :=
  js "<div class=" ++ dq ++ js "list-group-item text-center text-muted" ++ dq
  ++ js ">" ++ js "No se encontraron resultados." ++ js "</div>".

Definition renderResultados (data : JsVal) (b : Buscador) : Buscador * Result unit :=
  match extraerHits data with
  | Throw e => (b, Throw e)
  | Ok hits =>
      match extraerTotal data hits with
      | Throw e => (b, Throw e)
      | Ok total =>
          let b := set_ultimaBusqueda hits b in
          let b := with_container (set_innerHTML []) b in
          let b := with_total (set_textContent (Number_toString host total)) b in
          match hits with
          | [] =>
              let b := with_container (set_innerHTML sin_resultados) b in
              (with_section (classList_remove (js "d-none")) b, Ok ())
          | _ :: _ =>
              match forEach_hit hits 0 b with
              | (b, Throw e) => (b, Throw e)
              | (b, Ok _) =>
                  (with_section (classList_remove (js "d-none")) b, Ok ())
              end
          end
      end
  end.

(** The [catch] block. *)
Definition on_catch (e : Exn) (b : Buscador) : Buscador :=
  mostrarAlerta (js "Error de comunicación con el servidor.") (js "danger")
    (console_error e b).

(** The request of one search. *)
Definition peticion (texto : jstring) : Request :=
  {| url := js "/buscar-elastic";
     method := js "POST";
     headers := [(js "Content-Type", js "application/json")];
     body := JObj (<[js "texto" := JStr texto]>
                     (<[js "size" := JNum 20]> ∅)) |}.

(** After [await resp.json()]. [mostrarAlerta] starts by assigning its
    message to [textContent], which converts it to a string; what the
    conversion throws is caught like everything else in the [try]. *)
Definition con_datos (data : JsVal) (b : Buscador) : Buscador :=
  match field data (js "success") with
  | Throw e => on_catch e b
  | Ok (JBool false) =>
      match field data (js "error") with
      | Throw e => on_catch e b
      | Ok err =>
          match ToString host (js_or err (JStr (js "Error en la búsqueda."))) with
          | Throw e => on_catch e b
          | Ok mensaje => mostrarAlerta mensaje (js "danger") b
          end
      end
  | Ok _ =>
      match renderResultados data (ocultarAlerta b) with
      | (b, Throw e) => on_catch e b
      | (b, Ok _) => b
      end
  end.

(** After [await fetch(...)]. *)
Definition con_respuesta (r : FetchResult) (b : Buscador) : Task Buscador :=
  match r with
  | Rejects e => Done (on_catch e b)
  | Resolves resp =>
      if negb (ok resp) then
        Done (mostrarAlerta
                (js "Error al comunicarse con el servidor (HTTP "
                 ++ decimal (status resp) ++ js ").")
                (js "danger") b)
      else
        AwaitJson b resp (λ parsed b,
          match parsed with
          | Throw e => Done (on_catch e b)
          | Ok data => Done (con_datos data b)
          end)
  end.

(** The submit listener of [form-busqueda]. *)
Definition submit (b : Buscador) : Submission Buscador :=
  let texto := trim (str_or (value (input b)) []) in
  if negb (str_truthy texto) then
    {| prevented := true;
       task := Done (mostrarAlerta (js "Por favor ingresa un texto para buscar.")
                       (js "warning") b) |}
  else
    let b := limpiarResultados b in
    let b := mostrarAlerta (js "Buscando documentos... por favor espera.")
               (js "info") b in
    {| prevented := true;
       task := AwaitFetch b (peticion texto) con_respuesta |}.
End Rendering.

(** The page while the request of a search is outstanding. *)
Definition en_espera (b : Buscador) : Buscador :=
  mostrarAlerta (js "Buscando documentos... por favor espera.") (js "info")
    (limpiarResultados b).

(** *** The fallback chains, as the specification words them *)

(** [v.k], [undefined] when [v] has no such property. *)
Definition get (v : JsVal) (k : jstring) : JsVal :=
  match v with
  | JObj m => default JUndefined (m !! k)
  | _ => JUndefined
  end.

(** The hit list: [data.hits] when it is an array; otherwise
    [data.hits.hits] when that is an array; otherwise [data.resultados]
    when that is an array; otherwise the empty array. *)
Definition hits_spec (data : JsVal) : list JsVal :=
  match as_array (get data (js "hits")) with
  | Some l => l
  | None =>
      match as_array (get (get data (js "hits")) (js "hits")) with
      | Some l => l
      | None =>
          match as_array (get data (js "resultados")) with
          | Some l => l
          | None => []
          end
      end
  end.

(** A text field: a string, or absent. *)
Definition is_text (v : JsVal) : bool :=
  match v with
  | JStr _ | JUndefined | JNull => true
  | _ => false
  end.

Definition text_of (v : JsVal) : jstring :=
  match v with
  | JStr s => s
  | _ => []
  end.

(** The first non-empty text among the named fields of [source], [d] when
    all are empty. *)
Fixpoint first_text (source : JsVal) (keys : list jstring) (d : jstring) : jstring :=
  match keys with
  | [] => d
  | k :: rest => str_or (text_of (get source k)) (first_text source rest d)
  end.

Definition long_text_fields : list jstring :=
  [js "resumen"; js "extracto"; js "texto"; js "contenido"].

Definition title_fields : list jstring := [js "titulo"; js "nombre_archivo"].

Definition title_spec (source : JsVal) : jstring :=
  first_text source title_fields (js "Documento sin título").

(** The snippet: the long text, the title when there is none, cut to its
    first 260 characters followed by an ellipsis when longer. *)
Definition snippet_spec (source : JsVal) : jstring :=
  let t := first_text source long_text_fields (title_spec source) in
  if bool_decide (260 < length t) then take 260 t ++ js "…" else t.

End Elastic.

(** ** The search page posting to [/buscar] *)

Module Buscar.

(** The page: its document and what [console.error] was given. *)
Record Page : Type := {
  document : Document;
  console : list Exn
}.

Definition with_document (f : Document -> Document) (p : Page) : Page :=
  {| document := f (document p); console := console p |}.

Definition console_error (e : Exn) (p : Page) : Page :=
  {| document := document p; console := console p ++ [e] |}.

(** [document.getElementById(id)]: a reference to the element (its id),
    or [null]. *)
Definition getElementById (id : jstring) (p : Page) : option jstring :=
  _ ← document p !! id; Some id.

(** The top-level [mostrarAlerta(elemento, mensaje, tipo)]. *)
Definition mostrarAlerta (elemento : option jstring) (mensaje tipo : jstring)
    (p : Page) : Page :=
  match elemento with
  | None => p
  | Some id =>
      with_document
        (alter (λ e,
           classList_remove (js "d-none")
             (set_textContent mensaje
                (set_className (js "alert alert-" ++ tipo)
                   (set_textContent [] e)))) id) p
  end.

Definition peticion (query : jstring) : Request :=
  {| url := js "/buscar";
     method := js "POST";
     headers := [(js "Content-Type", js "application/json")];
     body := JObj (<[js "q" := JStr query]> ∅) |}.

Section Rendering.
Variable host : Host.

(** The body of the [forEach] callback up to [appendChild]: the [href]
    setter and the template convert what they are given to strings, in the
    order of the source. *)
Definition render_doc (doc : JsVal) : Result DocLink :=
  u ← field doc (js "url");
  href ← ToString host (js_or u (JStr (js "#")));
  titulo ← field doc (js "titulo");
  titulo' ← ToString host (js_or titulo (JStr (js "Documento sin título")));
  fecha ← field doc (js "fecha");
  fecha' ← ToString host (js_or fecha (JStr []));
  resumen ← field doc (js "resumen");
  resumen' ← ToString host (js_or resumen (JStr []));
  fuente ← field doc (js "fuente");
  fuente' ← ToString host (js_or fuente (JStr []));
  Ok {| doc_href := usv href;
        doc_target := if truthy u then js "_blank" else js "_self";
        doc_titulo := titulo';
        doc_fecha := fecha';
        doc_resumen := resumen';
        doc_fuente := fuente' |}.

Fixpoint forEach_doc (docs : list JsVal) (container : jstring) (p : Page)
  : Page * Result unit :=
  match docs with
  | [] => (p, Ok ())
  | doc :: rest =>
      match render_doc doc with
      | Throw e => (p, Throw e)
      | Ok item =>
          forEach_doc rest container
            (with_document (alter (appendChild (ChildDoc item)) container) p)
      end
  end.

(** The [catch] block. *)
Definition on_catch (alerta : option jstring) (e : Exn) (p : Page) : Page :=
  mostrarAlerta alerta (js "Error de comunicación con el servidor.") (js "danger")
    (console_error e p).

(** After [await resp.json()]. *)
Definition con_datos (alerta : option jstring) (section container : jstring)
    (data : JsVal) (p : Page) : Page :=
  match field data (js "resultados") with
  | Throw e => on_catch alerta e p
  | Ok r =>
      match as_array r with
      | None | Some [] =>
          mostrarAlerta alerta
            (js "No se encontraron documentos para esa búsqueda.") (js "warning") p
      | Some docs =>
          let p := with_document (alter (set_innerHTML []) container) p in
          match forEach_doc docs container p with
          | (p, Throw e) => on_catch alerta e p
          | (p, Ok _) =>
              let p := with_document
                         (alter (classList_remove (js "d-none")) section) p in
              mostrarAlerta alerta
                (js "Se encontraron " ++ decimal (N.of_nat (length docs))
                 ++ js " documentos.")
                (js "success") p
          end
      end
  end.

(** After [await fetch(...)]. *)
Definition con_respuesta (alerta : option jstring) (section container : jstring)
    (r : FetchResult) (p : Page) : Task Page :=
  match r with
  | Rejects e => Done (on_catch alerta e p)
  | Resolves resp =>
      if negb (ok resp) then
        Done (on_catch alerta (Error (js "Respuesta no válida del servidor")) p)
      else
        AwaitJson p resp (λ parsed p,
          match parsed with
          | Throw e => Done (on_catch alerta e p)
          | Ok data => Done (con_datos alerta section container data p)
          end)
  end.

(** The submit listener of [form-busqueda]. *)
Definition submit (p : Page) : Submission Page :=
  let alerta := getElementById (js "alerta-busqueda") p in
  let resultadosSection := getElementById (js "resultados-section") p in
  let resultadosContainer := getElementById (js "resultados-container") p in
  {| prevented := true;
     task :=
       match document p !! js "texto_busqueda" with
       | None => Done p
       | Some inputTexto =>
           let query := trim (value inputTexto) in
           if negb (str_truthy query) then
             Done (mostrarAlerta alerta (js "Debes escribir un texto de búsqueda.")
                     (js "warning") p)
           else
             let p := mostrarAlerta alerta (js "Buscando…") (js "info") p in
             match resultadosSection with
             | None => Failed p TypeError
             | Some section =>
                 let p := with_document
                            (alter (classList_add (js "d-none")) section) p in
                 match resultadosContainer with
                 | None => Failed p TypeError
                 | Some container =>
                     let p := with_document
                                (alter (set_innerHTML []) container) p in
                     AwaitFetch p (peticion query)
                       (con_respuesta alerta section container)
                 end
             end
       end |}.
End Rendering.

(** The page while the request of a search is outstanding. *)
Definition en_espera (alerta : option jstring) (section container : jstring)
    (p : Page) : Page :=
  with_document (alter (set_innerHTML []) container)
    (with_document (alter (classList_add (js "d-none")) section)
       (mostrarAlerta alerta (js "Buscando…") (js "info") p)).

(** The [DOMContentLoaded] listener: the footer year, and whether the
    submit listener was installed. *)
Definition DOMContentLoaded (fullYear : Z) (d : Document) : Document * bool :=
  let d := Footer.DOMContentLoaded fullYear d in
  (d, bool_decide (is_Some (d !! js "form-busqueda"))).

End Buscar.

(** ** The landing page helper [initSearchForm] *)

Module Landing.

Record Boton : Type := {
  disabled : bool;
  originalText : option jstring;    (* dataset.originalText *)
  textContent : jstring;
  innerHTML : jstring
}.

(** What the listener sees of the page ([initSearchForm] installs it only
    when form, input and button exist): the input, the button, the first
    descendant of the form with class [invalid-feedback], whether the
    input is inside the form, and the elements that follow the input. *)
Record Formulario : Type := {
  input : Element;
  btn : Boton;
  feedback : option Element;
  input_in_form : bool;
  after_input : list Element
}.

Definition nuevo_feedback : Element :=
  set_textContent (js "Por favor ingresa un término de búsqueda.")
    (set_className (js "invalid-feedback")
       {| value := []; markup := Html []; appended := [];
          classes := []; maxWidth := [] |}).

Definition spinner : jstring :=
  js "<span class=" ++ dq ++ js "spinner-border spinner-border-sm me-1" ++ dq
  ++ js " role=" ++ dq ++ js "status" ++ dq
  ++ js " aria-hidden=" ++ dq ++ js "true" ++ dq ++ js "></span>Buscando...".

(** The submit listener of [formBusqueda]. It is not [async] and calls
    nothing on the network. *)
Definition submit (f : Formulario) : Submission Formulario :=
  let query := trim (value (input f)) in
  if negb (str_truthy query) then
    let input' := classList_add (js "is-invalid") (input f) in
    {| prevented := true;
       task := Done
         match feedback f with
         | Some _ =>
             {| input := input'; btn := btn f; feedback := feedback f;
                input_in_form := input_in_form f; after_input := after_input f |}
         | None =>
             {| input := input'; btn := btn f;
                feedback := if input_in_form f then Some nuevo_feedback else None;
                input_in_form := input_in_form f;
                after_input := nuevo_feedback :: after_input f |}
         end |}
  else
    let original :=
      match originalText (btn f) with
      | Some t => str_or t (textContent (btn f))
      | None => textContent (btn f)
      end in
    {| prevented := false;
       task := Done
         {| input := classList_remove (js "is-invalid") (input f);
            btn := {| disabled := true; originalText := Some original;
                      textContent := js "Buscando..."; innerHTML := spinner |};
            feedback := feedback f; input_in_form := input_in_form f;
            after_input := after_input f |} |}.

End Landing.

(** ** Sample pages and servers, for the closed examples *)

Module Samples.

(** A text without [<] opens no tag and no comment. *)
Definition sin_marcado (s : jstring) : bool := negb (bool_decide (60%N ∈ s)).

(** None of the examples converts a number; the number conversions of this
    host are placeholders. Its parser finds the detail button of an item
    when none of the texts interpolated before the button holds a [<],
    which is as far as the examples go. *)
Definition host : Host :=
  {| Number_toString := λ _, js "0";
     Number_toFixed := λ _ _, js "0.0000";
     StringToNumber := λ _, 0%float;
     has_btn_detalle := λ it,
       sin_marcado (hit_titulo it)
       && sin_marcado (default [] (hit_anio it))
       && sin_marcado (default [] (hit_tipo it))
       && sin_marcado (default [] (hit_entidad it))
       && sin_marcado (hit_snippet it) |}.

Definition elemento (v cls : jstring) : Element :=
  {| value := v; markup := Html []; appended := [];
     classes := tokens cls; maxWidth := [] |}.

(** The search page of [/buscar-elastic] with [v] typed into the input. *)
Definition buscador (v : jstring) : Elastic.Buscador :=
  {| Elastic.input := elemento v (js "form-control");
     Elastic.alerta := elemento [] (js "alert d-none");
     Elastic.resultadosSection := elemento [] (js "d-none");
     Elastic.resultadosContainer := elemento [] (js "list-group");
     Elastic.totalResultadosSpan := elemento [] [];
     Elastic.ultimaBusqueda := [];
     Elastic.console := [] |}.

(** The search page of [/buscar] with [v] typed into the input. *)
Definition pagina (v : jstring) : Buscar.Page :=
  {| Buscar.document :=
       <[js "form-busqueda" := elemento [] []]>
       (<[js "texto_busqueda" := elemento v (js "form-control")]>
       (<[js "alerta-busqueda" := elemento [] (js "alert d-none")]>
       (<[js "resultados-section" := elemento [] (js "d-none")]>
       (<[js "resultados-container" := elemento [] (js "list-group")]> ∅))));
     Buscar.console := [] |}.

(** The same page without its results section. *)
Definition pagina_sin_seccion (v : jstring) : Buscar.Page :=
  Buscar.with_document (delete (js "resultados-section")) (pagina v).

(** The same page without its alert element. *)
Definition pagina_sin_alerta (v : jstring) : Buscar.Page :=
  Buscar.with_document (delete (js "alerta-busqueda")) (pagina v).

Definition responde (st : N) (data : JsVal) : Request -> FetchResult :=
  λ _, Resolves {| status := st; payload := Ok data |}.

Definition no_responde : Request -> FetchResult := λ _, Rejects NetworkFailure.

Definition objeto (l : list (jstring * JsVal)) : JsVal := JObj (list_to_map l).

Definition formulario (v : jstring) : Landing.Formulario :=
  {| Landing.input := elemento v (js "form-control");
     Landing.btn := {| Landing.disabled := false; Landing.originalText := None;
                       Landing.textContent := js "Buscar";
                       Landing.innerHTML := js "Buscar" |};
     Landing.feedback := None;
     Landing.input_in_form := true;
     Landing.after_input := [] |}.

End Samples.

(** ** More of the search page of [/buscar-elastic] *)

Module Resultados.

(** The total, as [extraerTotal] looks for it: [data.total] when it is a
    number; otherwise [data.hits.total] when that is a number; otherwise
    [data.hits.total.value] when that is a number; otherwise the number of
    hits. *)
Definition total_spec (data : JsVal) (hits : list JsVal) : float :=
  let total := Elastic.get (Elastic.get data (js "hits")) (js "total") in
  match as_number (Elastic.get data (js "total")) with
  | Some x => x
  | None =>
      match as_number total with
      | Some x => x
      | None =>
          match as_number (Elastic.get total (js "value")) with
          | Some x => x
          | None => Elastic.length_number hits
          end
      end
  end.

(** [hit._source || hit.source || hit] *)
Definition source_of (hit : JsVal) : JsVal :=
  js_or (Elastic.get hit (js "_source")) (js_or (Elastic.get hit (js "source")) hit).

(** [source.titulo || source.nombre_archivo || "Documento sin título"] *)
Definition titulo_of (source : JsVal) : JsVal :=
  js_or (Elastic.get source (js "titulo"))
    (js_or (Elastic.get source (js "nombre_archivo"))
       (JStr (js "Documento sin título"))).

(** [source.anio || source.año || source.anio_publicacion || source.fecha
    || ""] *)
Definition anio_of (source : JsVal) : JsVal :=
  js_or (Elastic.get source (js "anio"))
    (js_or (Elastic.get source (js "año"))
       (js_or (Elastic.get source (js "anio_publicacion"))
          (js_or (Elastic.get source (js "fecha")) (JStr [])))).

(** [source.tipo_norma || source.tipo_documento || source.tipo || ""] *)
Definition tipo_of (source : JsVal) : JsVal :=
  js_or (Elastic.get source (js "tipo_norma"))
    (js_or (Elastic.get source (js "tipo_documento"))
       (js_or (Elastic.get source (js "tipo")) (JStr []))).

(** [source.entidad || source.emisor || source.organismo || ""] *)
Definition entidad_of (source : JsVal) : JsVal :=
  js_or (Elastic.get source (js "entidad"))
    (js_or (Elastic.get source (js "emisor"))
       (js_or (Elastic.get source (js "organismo")) (JStr []))).

(** [textoLargo || titulo], the value the snippet is cut from. *)
Definition snippet_value (source : JsVal) : JsVal :=
  js_or
    (js_or (Elastic.get source (js "resumen"))
       (js_or (Elastic.get source (js "extracto"))
          (js_or (Elastic.get source (js "texto"))
             (js_or (Elastic.get source (js "contenido")) (JStr [])))))
    (titulo_of source).

(** [null] or [undefined] *)
Definition nullish (v : JsVal) : bool :=
  match v with
  | JUndefined | JNull => true
  | _ => false
  end.

(** The fields of the source that [renderResultados] reads. *)
Definition source_fields : list jstring :=
  [js "anio"; js "año"; js "anio_publicacion"; js "fecha";
   js "tipo_norma"; js "tipo_documento"; js "tipo";
   js "entidad"; js "emisor"; js "organismo";
   js "titulo"; js "nombre_archivo";
   js "resumen"; js "extracto"; js "texto"; js "contenido"].

(** The hits of a list, from position [i] on, render as the given items. *)
Inductive rendered (host : Host) : nat -> list JsVal -> list HitItem -> Prop :=
| rendered_nil (i : nat) : rendered host i [] []
| rendered_cons (i : nat) (hit : JsVal) (rest : list JsVal)
    (item : HitItem) (items : list HitItem) :
    Elastic.render_hit host hit i = Ok item ->
    rendered host (S i) rest items ->
    rendered host i (hit :: rest) (item :: items).

(** The submit listener run on the page with [v] typed into the input. *)
Definition with_input_value (v : jstring) (b : Elastic.Buscador) : Elastic.Buscador :=
  {| Elastic.input := {| value := v; markup := markup (Elastic.input b);
                         appended := appended (Elastic.input b);
                         classes := classes (Elastic.input b);
                         maxWidth := maxWidth (Elastic.input b) |};
     Elastic.alerta := Elastic.alerta b;
     Elastic.resultadosSection := Elastic.resultadosSection b;
     Elastic.resultadosContainer := Elastic.resultadosContainer b;
     Elastic.totalResultadosSpan := Elastic.totalResultadosSpan b;
     Elastic.ultimaBusqueda := Elastic.ultimaBusqueda b;
     Elastic.console := Elastic.console b |}.

(** A second search, for [v], started and finished against [server] while
    the first one is waiting for its response. *)
Definition otra_busqueda (host : Host) (server : Request -> FetchResult)
    (v : jstring) (b : Elastic.Buscador) : Elastic.Buscador :=
  (outcome (undisturbed server) 0
     (task (Elastic.submit host (with_input_value v b)))).1.

End Resultados.

(** ** The detail pane of a rendered hit *)

Module Detalle.

(** The two elements the click listener of an item closes over. *)
Record Item : Type := {
  btnDetalle : Element;
  detalleDiv : Element
}.

(** The click listener of [.btn-detalle]. *)
Definition click (it : Item) : Item :=
  let oculto := has_class (js "d-none") (detalleDiv it) in
  if oculto then
    {| detalleDiv := classList_remove (js "d-none") (detalleDiv it);
       btnDetalle := set_textContent (js "Ocultar detalle") (btnDetalle it) |}
  else
    {| detalleDiv := classList_add (js "d-none") (detalleDiv it);
       btnDetalle := set_textContent (js "Ver detalle") (btnDetalle it) |}.

(** [n] clicks in a row. *)
Definition clicks (n : nat) (it : Item) : Item := Nat.iter n click it.

End Detalle.

(** ** More of the search page of [/buscar] *)

Module Enlaces.

(** The fields of a document that [render_doc] shows. *)
Definition doc_fields : list jstring :=
  [js "url"; js "titulo"; js "fecha"; js "resumen"; js "fuente"].

(** The documents of a list render as the given links. *)
Definition enlazados (host : Host) (docs : list JsVal) (links : list DocLink) : Prop :=
  Forall2 (λ d l, Buscar.render_doc host d = Ok l) docs links.

(** The page of [/buscar] has what its handler needs to reach [fetch]: the
    input, with text [q] once trimmed, the results section and the results
    container. *)
Definition lista (p : Buscar.Page) (q : jstring) : Prop :=
  (∃ i, Buscar.document p !! js "texto_busqueda" = Some i
        ∧ trim (value i) = q ∧ str_truthy q = true)
  ∧ is_Some (Buscar.document p !! js "resultados-section")
  ∧ is_Some (Buscar.document p !! js "resultados-container").

End Enlaces.

(** ** The landing page: repeated submits *)

Module Envios.

(** The form after one submit event. *)
Definition enviar (f : Landing.Formulario) : Landing.Formulario :=
  match task (Landing.submit f) with
  | Done f' | Failed f' _ | AwaitFetch f' _ _ | AwaitJson f' _ _ => f'
  end.

(** The text the button shows before the first submit replaces it. *)
Definition texto_original (f : Landing.Formulario) : jstring :=
  match Landing.originalText (Landing.btn f) with
  | Some t => str_or t (Landing.textContent (Landing.btn f))
  | None => Landing.textContent (Landing.btn f)
  end.

End Envios.

(** ** The landing page: alerts that close themselves *)

Module Alertas.

(** What [initAutoHideAlerts] reads of an element of class [alert]: its
    [data-autoclose] and [data-autoclose-delay] attributes, [None] when the
    attribute is absent. *)
Record Alerta : Type := {
  autoclose : option jstring;
  autoclose_delay : option jstring
}.

Definition digit_value (c : N) : option N :=
  if ((48 <=? c) && (c <=? 57))%N then Some (c - 48)%N else None.

(** The value of the longest prefix of decimal digits; [acc] is the value of
    the digits read so far, [None] when there are none. *)
Fixpoint leading_digits (acc : option N) (s : jstring) : option N :=
  match s with
  | [] => acc
  | c :: r =>
      match digit_value c with
      | Some d => leading_digits (Some (10 * default 0%N acc + d)%N) r
      | None => acc
      end
  end.

(** [parseInt(s, 10)]: leading white space is skipped, a sign is read, then
    the longest prefix of digits; [None] is [NaN]. The integer is the one the
    digits denote (the number returned is the double nearest to it). *)
Definition parseInt10 (s : jstring) : option Z :=
  match trim_start s with
  | 45%N :: r => (λ n, (- Z.of_N n)%Z) <$> leading_digits None r
  | 43%N :: r => Z.of_N <$> leading_digits None r
  | r => Z.of_N <$> leading_digits None r
  end.

(** A call of [setTimeout]: the alert it will close (its position among the
    alerts of the page) and the delay it was given, [None] for [NaN]. *)
Record Timer : Type := {
  target : nat;
  delay : option Z
}.

(** The body of the [forEach] callback. *)
Definition programar (i : nat) (a : Alerta) : list Timer :=
  let shouldAutoClose := negb (bool_decide (autoclose a = Some (js "false"))) in
  if negb shouldAutoClose then []
  else
    let delay :=
      match autoclose_delay a with
      | Some delayAttr =>
          if str_truthy delayAttr then parseInt10 delayAttr else Some 5000%Z
      | None => Some 5000%Z
      end in
    [{| target := i; delay := delay |}].

Fixpoint forEach_alert (i : nat) (alerts : list Alerta) : list Timer :=
  match alerts with
  | [] => []
  | a :: rest => programar i a ++ forEach_alert (S i) rest
  end.

(** [initAutoHideAlerts]; [bootstrap] is whether [window.bootstrap] is
    there. The result is the timers it sets. *)
Definition initAutoHideAlerts (bootstrap : bool) (alerts : list Alerta) : list Timer :=
  if negb (bool_decide (alerts ≠ [])) || negb bootstrap then []
  else forEach_alert 0 alerts.

End Alertas.

(** ** The landing page: the back-to-top button *)

Module VolverArriba.

(** The window: the button, if the page has one, the scroll position, the
    calls of [scrollTo] made so far, and whether [initBackToTop] installed
    its listeners. *)
Record Ventana : Type := {
  btn : option Element;
  scrollY : float;
  scrollTo_top : nat;
  listening : bool
}.

Definition toggleVisibility (v : Ventana) : Ventana :=
  {| btn := (if PrimFloat.ltb 200 (scrollY v)
             then classList_add (js "show")
             else classList_remove (js "show")) <$> btn v;
     scrollY := scrollY v; scrollTo_top := scrollTo_top v;
     listening := listening v |}.

Definition initBackToTop (v : Ventana) : Ventana :=
  match btn v with
  | None => v
  | Some _ =>
      toggleVisibility
        {| btn := btn v; scrollY := scrollY v; scrollTo_top := scrollTo_top v;
           listening := true |}
  end.

(** What happens on the page afterwards: the window is scrolled to [y], or
    the button is clicked. *)
Inductive Evento : Type :=
| Scroll (y : float)
| Click.

Definition handle (ev : Evento) (v : Ventana) : Ventana :=
  match ev with
  | Scroll y =>
      let v := {| btn := btn v; scrollY := y; scrollTo_top := scrollTo_top v;
                  listening := listening v |} in
      if listening v then toggleVisibility v else v
  | Click =>
      if listening v then
        {| btn := btn v; scrollY := scrollY v; scrollTo_top := S (scrollTo_top v);
           listening := listening v |}
      else v
  end.

Definition is_click (ev : Evento) : bool :=
  match ev with
  | Click => true
  | Scroll _ => false
  end.

(** The events of a session, in order. *)
Definition session (evs : list Evento) (v : Ventana) : Ventana :=
  foldl (λ v ev, handle ev v) (initBackToTop v) evs.

End VolverArriba.

(** ** More sample data *)

Module Ejemplos.

Definition dos_hits : JsVal :=
  Samples.objeto
    [(js "hits",
      Samples.objeto
        [(js "total", Samples.objeto [(js "value", JNum 2)]);
         (js "hits",
          JArr [Samples.objeto
                  [(js "_source",
                    Samples.objeto [(js "titulo", JStr (js "Decreto 1073"));
                                    (js "resumen", JStr (js "Sector de minas"))])];
                Samples.objeto
                  [(js "_source",
                    Samples.objeto [(js "nombre_archivo", JStr (js "res_40.pdf"))])]])])].

Definition hit_y_null : JsVal :=
  Samples.objeto
    [(js "hits",
      JArr [Samples.objeto [(js "titulo", JStr (js "Decreto 1073"))]; JNull;
            Samples.objeto [(js "titulo", JStr (js "Ley 142"))]])].

Definition dos_docs : JsVal :=
  Samples.objeto
    [(js "resultados",
      JArr [Samples.objeto [(js "titulo", JStr (js "Ley 142"));
                            (js "url", JStr (js "/docs/ley142.pdf"))];
            Samples.objeto [(js "titulo", JStr (js "Decreto 1073"))]])].

Definition doc_y_null : JsVal :=
  Samples.objeto
    [(js "resultados",
      JArr [Samples.objeto [(js "titulo", JStr (js "Ley 142"))]; JNull])].

(** What [JSON.parse] makes of [{"toString": 1}]. *)
Definition sin_texto : JsVal := Samples.objeto [(js "toString", JNum 1)].

Definition hit_sin_texto : JsVal :=
  Samples.objeto
    [(js "hits",
      JArr [Samples.objeto [(js "titulo", JStr (js "Decreto 1073"))];
            Samples.objeto [(js "titulo", sin_texto)];
            Samples.objeto [(js "titulo", JStr (js "Ley 142"))]])].

(** A hit whose title opens a comment that nothing closes. *)
Definition hit_comentario : JsVal :=
  Samples.objeto
    [(js "hits",
      JArr [Samples.objeto [(js "titulo", JStr (js "Decreto 1073"))];
            Samples.objeto [(js "titulo", JStr (js "<!--"))]])].

Definition doc_sin_texto : JsVal :=
  Samples.objeto
    [(js "resultados",
      JArr [Samples.objeto [(js "titulo", JStr (js "Ley 142"))];
            Samples.objeto [(js "titulo", sin_texto)];
            Samples.objeto [(js "titulo", JStr (js "Decreto 1073"))]])].

Definition boton (texto : jstring) : Landing.Boton :=
  {| Landing.disabled := false; Landing.originalText := None;
     Landing.textContent := texto; Landing.innerHTML := texto |}.

Definition detalle : Detalle.Item :=
  {| Detalle.btnDetalle :=
       Samples.elemento [] (js "btn btn-sm btn-outline-secondary mt-2 btn-detalle");
     Detalle.detalleDiv := Samples.elemento [] (js "mt-2 d-none detalle-json") |}.

Definition ventana (y : float) : VolverArriba.Ventana :=
  {| VolverArriba.btn := Some (Samples.elemento [] (js "btn btn-sm"));
     VolverArriba.scrollY := y;
     VolverArriba.scrollTo_top := 0;
     VolverArriba.listening := false |}.

End Ejemplos.

(** * Properties *)

(** ** Strings, class lists, element ids *)

Lemma str_or_nil (s : jstring) : str_or s [] = s.
Proof. by destruct s. Qed.

Lemma elem_of_token_set (t : jstring) (l : list jstring) :
  t ∈ token_set l ↔ t ∈ l.
Proof.
  induction l as [|c l IH]; simpl; [done|].
  rewrite !elem_of_cons, list_elem_of_filter, IH.
  destruct (decide (t = c)); tauto.
Qed.

Lemma has_class_remove (t : jstring) (e : Element) :
  has_class t (classList_remove t e) = false.
Proof.
  unfold has_class, classList_remove; simpl.
  apply bool_decide_eq_false. rewrite list_elem_of_filter. tauto.
Qed.

Lemma has_class_add (t : jstring) (e : Element) :
  has_class t (classList_add t e) = true.
Proof.
  unfold has_class, classList_add; simpl.
  apply bool_decide_eq_true. case_bool_decide as Hin; [done|].
  apply elem_of_app; right. by apply list_elem_of_singleton.
Qed.

Lemma starts_with_app (n rest : jstring) : starts_with n (n ++ rest) = true.
Proof.
  induction n as [|c n IH]; simpl; [done|].
  by rewrite N.eqb_refl, IH.
Qed.

Lemma includes_starts_with (n h : jstring) :
  starts_with n h = true → includes n h = true.
Proof. intros H. destruct h; simpl; by rewrite H. Qed.

Lemma includes_app (n pre post : jstring) : includes n (pre ++ n ++ post) = true.
Proof.
  induction pre as [|c pre IH]; simpl.
  - apply includes_starts_with, starts_with_app.
  - rewrite IH. apply orb_true_r.
Qed.

(** Two different literals name two different elements. *)
Ltac ids_differ := let H := fresh in intros H; vm_compute in H; discriminate H.

(** ** Conversions *)

(** Induction on a value through the elements of its arrays. *)
Lemma JsVal_arrays_ind (P : JsVal → Prop) :
  (∀ v, as_array v = None → P v) →
  (∀ l, Forall P l → P (JArr l)) →
  ∀ v, P v.
Proof.
  intros Hother Harr. fix IH 1. intros v.
  destruct v as [| | b | x | s | l | m]; try (by apply Hother).
  apply Harr. induction l as [|a l IHl]; constructor; [apply IH | exact IHl].
Qed.

Lemma traverse_cons {A B : Type} (f : A → Result B) (a : A) (l : list A) :
  traverse f (a :: l) = (b ← f a; bs ← traverse f l; Ok (b :: bs)).
Proof. reflexivity. Qed.

Lemma ToString_JArr (host : Host) (l : list JsVal) :
  ToString host (JArr l)
  = (parts ← traverse (λ e, match e with
                            | JUndefined | JNull => Ok []
                            | _ => ToString host e
                            end) l;
     Ok (join (js ",") parts)).
Proof. reflexivity. Qed.

(** ToString returns on a stringable value and throws a [TypeError] on any
    other. *)
Lemma ToString_stringable (host : Host) (v : JsVal) :
  if stringable v then ∃ s, ToString host v = Ok s
  else ToString host v = Throw TypeError.
Proof.
  induction v as [v Hv | l IH] using JsVal_arrays_ind.
  - destruct v as [| | [|] | x | s | l | m]; try done;
      try (by eexists).
    cbn [stringable ToString]. destruct (m !! js "toString"); [done|].
    rewrite bool_decide_eq_true_2 by done. by eexists.
  - rewrite ToString_JArr. cbn [stringable].
    set (f := λ e, match e with
                   | JUndefined | JNull => Ok []
                   | _ => ToString host e
                   end).
    assert (Hl : if forallb stringable l then ∃ parts, traverse f l = Ok parts
                 else traverse f l = Throw TypeError).
    { induction IH as [|a l Ha _ IHl]; [by eexists|].
      rewrite traverse_cons. cbn [forallb].
      assert (Hf : if stringable a then ∃ s, f a = Ok s else f a = Throw TypeError).
      { destruct a; try exact Ha; by eexists. }
      destruct (stringable a).
      - destruct Hf as [s ->]. cbn [mbind Result_bind rbind andb].
        destruct (forallb stringable l).
        + destruct IHl as [parts ->]. by eexists.
        + by rewrite IHl.
      - by rewrite Hf. }
    destruct (forallb stringable l).
    + destruct Hl as [parts ->]. by eexists.
    + by rewrite Hl.
Qed.

Lemma ToString_ok (host : Host) (v : JsVal) :
  stringable v = true → ∃ s, ToString host v = Ok s.
Proof. intros H. pose proof (ToString_stringable host v) as Hs. by rewrite H in Hs. Qed.

Lemma ToString_throws (host : Host) (v : JsVal) (e : Exn) :
  ToString host v = Throw e ↔ e = TypeError ∧ stringable v = false.
Proof.
  pose proof (ToString_stringable host v) as Hs.
  destruct (stringable v).
  - destruct Hs as [s ->]. split; [done | by intros [_ ?]].
  - rewrite Hs. split; [by intros [= <-] | by intros [-> _]].
Qed.

Lemma ToString_Ok_stringable (host : Host) (v : JsVal) (s : jstring) :
  ToString host v = Ok s → stringable v = true.
Proof.
  intros H. pose proof (ToString_stringable host v) as Hs.
  destruct (stringable v); [done|]. congruence.
Qed.

Lemma scalar_stringable (v : JsVal) : scalar v = true → stringable v = true.
Proof. by destruct v. Qed.

Lemma js_or_stringable (a b : JsVal) :
  stringable b = true → stringable (js_or a b) = stringable a.
Proof.
  intros Hb. unfold js_or. destruct (truthy a) eqn:Ha; [done|].
  rewrite Hb. by destruct a.
Qed.

(** ** The handler of [/buscar-elastic] *)

Lemma Elastic_submit_empty (host : Host) (b : Elastic.Buscador) :
  trim (value (Elastic.input b)) = [] →
  Elastic.submit host b =
    {| prevented := true;
       task := Done (Elastic.mostrarAlerta
                       (js "Por favor ingresa un texto para buscar.")
                       (js "warning") b) |}.
Proof. intros H. unfold Elastic.submit. by rewrite str_or_nil, H. Qed.

Lemma Elastic_submit_nonempty (host : Host) (b : Elastic.Buscador) :
  str_truthy (trim (value (Elastic.input b))) = true →
  Elastic.submit host b =
    {| prevented := true;
       task := AwaitFetch (Elastic.en_espera b)
                 (Elastic.peticion (trim (value (Elastic.input b))))
                 (Elastic.con_respuesta host) |}.
Proof. intros H. unfold Elastic.submit. by rewrite str_or_nil, H. Qed.

(** Once the response is in, the handler never calls the network again. *)
Lemma Elastic_requests_con_respuesta (host : Host) (w : World Elastic.Buscador)
    (n : nat) (r : FetchResult) (b : Elastic.Buscador) :
  requests w n (Elastic.con_respuesta host r b) = [].
Proof.
  destruct r as [resp|e]; simpl; [|done].
  destruct (ok resp); simpl; [|done].
  by destruct (payload resp).
Qed.

Lemma Elastic_requests_submit (host : Host) (w : World Elastic.Buscador)
    (b : Elastic.Buscador) :
  str_truthy (trim (value (Elastic.input b))) = true →
  requests w 0 (task (Elastic.submit host b))
  = [Elastic.peticion (trim (value (Elastic.input b)))].
Proof.
  intros H. rewrite (Elastic_submit_nonempty host b H). simpl.
  by rewrite Elastic_requests_con_respuesta.
Qed.

(** ** The handler of [/buscar] *)

Lemma Buscar_getElementById_Some (id : jstring) (p : Buscar.Page) :
  is_Some (Buscar.document p !! id) → Buscar.getElementById id p = Some id.
Proof. intros [e He]. unfold Buscar.getElementById. by rewrite He. Qed.

Lemma Buscar_submit_nonempty (host : Host) (p : Buscar.Page) (inputTexto : Element) :
  Buscar.document p !! js "texto_busqueda" = Some inputTexto →
  str_truthy (trim (value inputTexto)) = true →
  is_Some (Buscar.document p !! js "resultados-section") →
  is_Some (Buscar.document p !! js "resultados-container") →
  Buscar.submit host p =
    let alerta := Buscar.getElementById (js "alerta-busqueda") p in
    {| prevented := true;
       task := AwaitFetch
                 (Buscar.en_espera alerta (js "resultados-section")
                    (js "resultados-container") p)
                 (Buscar.peticion (trim (value inputTexto)))
                 (Buscar.con_respuesta host alerta (js "resultados-section")
                    (js "resultados-container")) |}.
Proof.
  intros Hi Hq Hs Hc. unfold Buscar.submit.
  rewrite Hi, Hq, (Buscar_getElementById_Some _ _ Hs),
    (Buscar_getElementById_Some _ _ Hc).
  done.
Qed.

Lemma Buscar_requests_con_respuesta (host : Host) (w : World Buscar.Page) (n : nat)
    (alerta : option jstring) (section container : jstring) (r : FetchResult)
    (p : Buscar.Page) :
  requests w n (Buscar.con_respuesta host alerta section container r p) = [].
Proof.
  destruct r as [resp|e]; simpl; [|done].
  destruct (ok resp); simpl; [|done].
  by destruct (payload resp).
Qed.

Lemma Buscar_requests_submit (host : Host) (w : World Buscar.Page) (p : Buscar.Page)
    (inputTexto : Element) :
  Buscar.document p !! js "texto_busqueda" = Some inputTexto →
  str_truthy (trim (value inputTexto)) = true →
  is_Some (Buscar.document p !! js "resultados-section") →
  is_Some (Buscar.document p !! js "resultados-container") →
  requests w 0 (task (Buscar.submit host p)) = [Buscar.peticion (trim (value inputTexto))].
Proof.
  intros Hi Hq Hs Hc. rewrite (Buscar_submit_nonempty host p _ Hi Hq Hs Hc). simpl.
  by rewrite Buscar_requests_con_respuesta.
Qed.

(** ** One request per search *)

(** X19: a submit event whose trimmed text is not empty issues exactly one
    request, whatever the server answers and whatever else happens on the
    page meanwhile: always for the handler of [/buscar-elastic], which is
    installed only on a page that has all its elements, and for the handler
    of [/buscar] on a page that has its results section and results
    container. *)
Theorem one_request_on_complete_page (host : Host)
    (b : Elastic.Buscador) (w : World Elastic.Buscador)
    (p : Buscar.Page) (inputTexto : Element) (w' : World Buscar.Page) :
  str_truthy (trim (value (Elastic.input b))) = true →
  Buscar.document p !! js "texto_busqueda" = Some inputTexto →
  str_truthy (trim (value inputTexto)) = true →
  is_Some (Buscar.document p !! js "resultados-section") →
  is_Some (Buscar.document p !! js "resultados-container") →
  requests w 0 (task (Elastic.submit host b))
  = [Elastic.peticion (trim (value (Elastic.input b)))]
  ∧ requests w' 0 (task (Buscar.submit host p))
    = [Buscar.peticion (trim (value inputTexto))].
Proof.
  intros Hb Hi Hq Hs Hc. split.
  - by apply Elastic_requests_submit.
  - by apply Buscar_requests_submit.
Qed.

Lemma one_request_on_complete_page_witness :
  requests (undisturbed Samples.no_responde) 0
    (task (Elastic.submit Samples.host (Samples.buscador (js " decreto 1073 "))))
  = [Elastic.peticion (js "decreto 1073")]
  ∧ requests (undisturbed (Samples.responde 200 (Samples.objeto []))) 0
      (task (Buscar.submit Samples.host (Samples.pagina (js "ley 142"))))
    = [Buscar.peticion (js "ley 142")].
Proof.
  apply (one_request_on_complete_page Samples.host
           (Samples.buscador (js " decreto 1073 ")) _
           (Samples.pagina (js "ley 142"))
           (Samples.elemento (js "ley 142") (js "form-control"))).
  - reflexivity.
  - reflexivity.
  - reflexivity.
  - eexists; reflexivity.
  - eexists; reflexivity.
Defined.

(** C1, and where the script of [/buscar] falls short of it. On the page
    that has the form and the input, holding [ley 142], but no element
    [resultados-section], the submit listener is installed and blocks the
    default submission; it shows [Buscando…], then stops with a [TypeError]
    on the missing section before it reaches [fetch]: no request is issued,
    nothing catches the exception, and the page keeps saying [Buscando…].
    The listener does check for a missing input and a missing alert
    element: without the alert element the one request is issued, as it is
    on the page that has the section. The script of [/buscar-elastic]
    installs no listener on a page that lacks one of its elements. *)
Theorem search_without_results_section :
  let p := Samples.pagina_sin_seccion (js "ley 142") in
  let w := undisturbed (Samples.responde 200 (Samples.objeto [])) in
  let fin := outcome w 0 (task (Buscar.submit Samples.host p)) in
  (Buscar.DOMContentLoaded 2025 (Buscar.document p)).2 = true
  ∧ (value <$> Buscar.document p !! js "texto_busqueda") = Some (js "ley 142")
  ∧ trim (js "ley 142") = js "ley 142"
  ∧ Buscar.document p !! js "resultados-section" = None
  ∧ prevented (Buscar.submit Samples.host p) = true
  ∧ requests w 0 (task (Buscar.submit Samples.host p)) = []
  ∧ fin.2 = Some TypeError
  ∧ Buscar.console fin.1 = []
  ∧ (markup <$> Buscar.document fin.1 !! js "alerta-busqueda")
    = Some (Text (js "Buscando…"))
  ∧ requests w 0 (task (Buscar.submit Samples.host (Samples.pagina (js "ley 142"))))
    = [Buscar.peticion (js "ley 142")]
  ∧ requests w 0
      (task (Buscar.submit Samples.host (Samples.pagina_sin_alerta (js "ley 142"))))
    = [Buscar.peticion (js "ley 142")]
  ∧ (Elastic.DOMContentLoaded 2025 (Buscar.document p)).2 = None.
Proof. vm_compute. split_and!; reflexivity. Qed.

(** ** The empty query *)

(** C2: a submit event whose trimmed text is empty issues no request and
    blocks the default submission. The search page shows the warning alert
    [Por favor ingresa un texto para buscar.]. The landing page marks the
    input invalid and leaves its text and the button alone; a form that has
    an [invalid-feedback] element keeps it and gets no other; in a form that
    has none, a new element of class [invalid-feedback] reading [Por favor
    ingresa un término de búsqueda.] is put right after the input. *)
Theorem empty_query_blocked (host : Host)
    (b : Elastic.Buscador) (w : World Elastic.Buscador)
    (f : Landing.Formulario) (w' : World Landing.Formulario) :
  trim (value (Elastic.input b)) = [] →
  trim (value (Landing.input f)) = [] →
  (prevented (Elastic.submit host b) = true
   ∧ requests w 0 (task (Elastic.submit host b)) = []
   ∧ ∃ b', outcome w 0 (task (Elastic.submit host b)) = (b', None)
       ∧ markup (Elastic.alerta b') = Text (js "Por favor ingresa un texto para buscar.")
       ∧ classes (Elastic.alerta b') = [js "alert"; js "alert-warning"; js "mx-auto"]
       ∧ hidden (Elastic.alerta b') = false)
  ∧ (prevented (Landing.submit f) = true
     ∧ requests w' 0 (task (Landing.submit f)) = []
     ∧ ∃ f', outcome w' 0 (task (Landing.submit f)) = (f', None)
         ∧ has_class (js "is-invalid") (Landing.input f') = true
         ∧ value (Landing.input f') = value (Landing.input f)
         ∧ Landing.btn f' = Landing.btn f
         ∧ match Landing.feedback f with
           | Some fb =>
               Landing.feedback f' = Some fb
               ∧ Landing.after_input f' = Landing.after_input f
           | None =>
               ∃ nuevo,
                 Landing.after_input f' = nuevo :: Landing.after_input f
                 ∧ Landing.feedback f'
                   = (if Landing.input_in_form f then Some nuevo else None)
                 ∧ markup nuevo = Text (js "Por favor ingresa un término de búsqueda.")
                 ∧ classes nuevo = [js "invalid-feedback"]
                 ∧ appended nuevo = []
           end).
Proof.
  intros Hb Hf. split.
  - rewrite (Elastic_submit_empty host b Hb). simpl.
    repeat split. eexists. split; [reflexivity|].
    repeat split.
  - unfold Landing.submit. rewrite Hf.
    cbn [str_truthy negb prevented task requests outcome].
    split_and!; [reflexivity | reflexivity |].
    eexists. split; [reflexivity|].
    destruct (Landing.feedback f) as [fb|] eqn:Hfb;
      cbn [Landing.input Landing.btn Landing.feedback Landing.after_input].
    + split_and!; try reflexivity. apply has_class_add.
    + split_and!; try reflexivity; [apply has_class_add|].
      exists Landing.nuevo_feedback. split_and!; reflexivity.
Qed.

Lemma empty_query_blocked_witness :
  let f' := (outcome (undisturbed Samples.no_responde) 0
               (task (Landing.submit (Samples.formulario (js "  "))))).1 in
  prevented (Elastic.submit Samples.host (Samples.buscador (js "   "))) = true
  ∧ requests (undisturbed Samples.no_responde) 0
      (task (Elastic.submit Samples.host (Samples.buscador (js "   ")))) = []
  ∧ prevented (Landing.submit (Samples.formulario (js "  "))) = true
  ∧ has_class (js "is-invalid") (Landing.input f') = true
  ∧ (markup <$> Landing.after_input f')
    = [Text (js "Por favor ingresa un término de búsqueda.")]
  ∧ (classes <$> Landing.after_input f') = [[js "invalid-feedback"]].
Proof.
  intros f'.
  destruct (empty_query_blocked Samples.host
              (Samples.buscador (js "   ")) (undisturbed Samples.no_responde)
              (Samples.formulario (js "  ")) (undisturbed Samples.no_responde)
              eq_refl eq_refl)
    as [(Hp & Hr & _) (Hp' & _ & f0 & Hf0 & Hinv & _ & _ & Hfb)].
  change (Landing.feedback (Samples.formulario (js "  "))) with (@None Element) in Hfb.
  cbv iota in Hfb.
  destruct Hfb as (nuevo & Hafter & _ & Hm & Hc & _).
  subst f'. rewrite Hf0. cbn [fst]. rewrite Hafter.
  change (Landing.after_input (Samples.formulario (js "  "))) with (@nil Element).
  cbn [fmap list_fmap]. rewrite Hm, Hc.
  split_and!; [exact Hp | exact Hr | exact Hp' | exact Hinv | reflexivity | reflexivity].
Defined.

(** ** The request *)

(** C7: for a trimmed query [q] that is not empty, the one request goes to
    [/buscar-elastic] as a POST with content type [application/json], and the
    value serialised as its body is the object with exactly the fields
    [texto], the string [q], and [size], the number 20. *)
Theorem request_shape (host : Host) (b : Elastic.Buscador)
    (w : World Elastic.Buscador) :
  let q := trim (value (Elastic.input b)) in
  str_truthy q = true →
  ∃ rq m,
    requests w 0 (task (Elastic.submit host b)) = [rq]
    ∧ url rq = js "/buscar-elastic"
    ∧ method rq = js "POST"
    ∧ headers rq = [(js "Content-Type", js "application/json")]
    ∧ body rq = JObj m
    ∧ m !! js "texto" = Some (JStr q)
    ∧ m !! js "size" = Some (JNum 20)
    ∧ dom m = {[js "texto"; js "size"]}.
Proof.
  intros q Hq. eexists _, _.
  split; [by apply Elastic_requests_submit|].
  split_and!.
  1-4: reflexivity.
  - apply lookup_insert_eq.
  - rewrite lookup_insert_ne by ids_differ. apply lookup_insert_eq.
  - rewrite !dom_insert_L, dom_empty_L. set_solver.
Qed.

Lemma request_shape_witness :
  ∃ rq m,
    requests (undisturbed Samples.no_responde) 0
      (task (Elastic.submit Samples.host (Samples.buscador (js " gas natural ")))) = [rq]
    ∧ url rq = js "/buscar-elastic"
    ∧ method rq = js "POST"
    ∧ headers rq = [(js "Content-Type", js "application/json")]
    ∧ body rq = JObj m
    ∧ m !! js "texto" = Some (JStr (js "gas natural"))
    ∧ m !! js "size" = Some (JNum 20)
    ∧ dom m = {[js "texto"; js "size"]}.
Proof.
  apply (request_shape Samples.host (Samples.buscador (js " gas natural "))
           (undisturbed Samples.no_responde)).
  reflexivity.
Defined.

(** ** The hit list *)

Lemma field_get (v : JsVal) (k : jstring) :
  v ≠ JUndefined → v ≠ JNull → field v k = Ok (Elastic.get v k).
Proof. by destruct v. Qed.

Lemma truthy_not_nullish (v : JsVal) :
  truthy v = true → v ≠ JUndefined ∧ v ≠ JNull.
Proof. by destruct v. Qed.

Lemma get_falsy (v : JsVal) (k : jstring) :
  truthy v = false → Elastic.get v k = JUndefined.
Proof. by destruct v. Qed.

(** C8: for a response object [data], [extraerHits] returns [data.hits]
    when it is an array; otherwise [data.hits.hits] when that is an array;
    otherwise [data.resultados] when that is an array; otherwise the empty
    array. It returns a list in every case. *)
Theorem extraerHits_fallback (data : JsVal) :
  data ≠ JUndefined → data ≠ JNull →
  Elastic.extraerHits data = Ok (Elastic.hits_spec data).
Proof.
  intros Hu Hn. unfold Elastic.extraerHits, Elastic.hits_spec.
  rewrite !(field_get data) by done. simpl.
  destruct (as_array (Elastic.get data (js "hits"))) as [l|] eqn:Harr; [done|].
  destruct (truthy (Elastic.get data (js "hits"))) eqn:Ht.
  - destruct (truthy_not_nullish _ Ht) as [Hu' Hn'].
    rewrite (field_get _ _ Hu' Hn'). simpl.
    destruct (as_array (Elastic.get (Elastic.get data (js "hits")) (js "hits")));
      [done|].
    by destruct (as_array (Elastic.get data (js "resultados"))).
  - rewrite (get_falsy _ (js "hits") Ht). simpl.
    by destruct (as_array (Elastic.get data (js "resultados"))).
Qed.

Lemma extraerHits_fallback_witness :
  Elastic.extraerHits
    (Samples.objeto
       [(js "hits", Samples.objeto [(js "hits", JArr [JStr (js "a"); JNull]);
                                    (js "total", JNum 2)])])
  = Ok [JStr (js "a"); JNull].
Proof.
  rewrite extraerHits_fallback by discriminate.
  reflexivity.
Defined.

(** ** The footer year *)

(** C9: on page load, an element with id [current-year] has its text set to
    the current year, in decimal, and nothing else changes; without such an
    element the document stays as it is. The search page script starts
    with the same step. *)
Theorem footer_year (fullYear : Z) (d : Document) :
  match d !! js "current-year" with
  | Some yearSpan =>
      Footer.DOMContentLoaded fullYear d !! js "current-year"
      = Some (set_textContent (decimalZ fullYear) yearSpan)
      ∧ (∀ id, id ≠ js "current-year" →
           Footer.DOMContentLoaded fullYear d !! id = d !! id)
  | None => Footer.DOMContentLoaded fullYear d = d
  end
  ∧ (Elastic.DOMContentLoaded fullYear d).1 = Footer.DOMContentLoaded fullYear d
  ∧ (Buscar.DOMContentLoaded fullYear d).1 = Footer.DOMContentLoaded fullYear d.
Proof.
  split; [|done].
  unfold Footer.DOMContentLoaded.
  destruct (d !! js "current-year") as [yearSpan|] eqn:Hy; [|done].
  split; [apply lookup_insert_eq|].
  intros id Hid. by rewrite lookup_insert_ne.
Qed.

Lemma footer_year_witness :
  markup <$> (Footer.DOMContentLoaded 2025
                (<[js "current-year" := Samples.elemento [] []]> ∅)
              !! js "current-year")
  = Some (Text (js "2025")).
Proof.
  pose proof (footer_year 2025 (<[js "current-year" := Samples.elemento [] []]> ∅))
    as [H _].
  rewrite lookup_insert_eq in H. destruct H as [H _].
  rewrite H. reflexivity.
Defined.

(** ** After the response *)

Lemma Elastic_outcome_submit (host : Host) (w : World Elastic.Buscador)
    (b : Elastic.Buscador) :
  str_truthy (trim (value (Elastic.input b))) = true →
  outcome w 0 (task (Elastic.submit host b))
  = outcome w 1
      (Elastic.con_respuesta host
         (net w (Elastic.peticion (trim (value (Elastic.input b)))))
         (meanwhile w 0 (Elastic.en_espera b))).
Proof. intros H. by rewrite (Elastic_submit_nonempty host b H). Qed.

Lemma Elastic_outcome_datos (host : Host) (w : World Elastic.Buscador)
    (b : Elastic.Buscador) (resp : Response) (data : JsVal) :
  str_truthy (trim (value (Elastic.input b))) = true →
  net w (Elastic.peticion (trim (value (Elastic.input b)))) = Resolves resp →
  ok resp = true →
  payload resp = Ok data →
  outcome w 0 (task (Elastic.submit host b))
  = (Elastic.con_datos host data
       (meanwhile w 1 (meanwhile w 0 (Elastic.en_espera b))), None).
Proof.
  intros H Hnet Hok Hdata. rewrite (Elastic_outcome_submit host w b H), Hnet.
  simpl. rewrite Hok. simpl. by rewrite Hdata.
Qed.

Lemma Elastic_outcome_falla (host : Host) (w : World Elastic.Buscador)
    (b : Elastic.Buscador) (e : Exn) :
  str_truthy (trim (value (Elastic.input b))) = true →
  falla (net w (Elastic.peticion (trim (value (Elastic.input b))))) e →
  ∃ b2, outcome w 0 (task (Elastic.submit host b)) = (Elastic.on_catch e b2, None).
Proof.
  intros H Hf. rewrite (Elastic_outcome_submit host w b H).
  destruct Hf as [-> | (resp & -> & Hok & Hp)]; simpl.
  - by eexists.
  - rewrite Hok. simpl. rewrite Hp. by eexists.
Qed.

Lemma extraerHits_not_nullish (data : JsVal) (l : list JsVal) :
  Elastic.extraerHits data = Ok l → data ≠ JUndefined ∧ data ≠ JNull.
Proof. by destruct data. Qed.

(** [extraerTotal] reads through truthy values only, so it throws only on a
    [null] or [undefined] response. *)
Lemma extraerTotal_ok (data : JsVal) (hits : list JsVal) :
  data ≠ JUndefined → data ≠ JNull →
  ∃ total, Elastic.extraerTotal data hits = Ok total.
Proof.
  intros Hu Hn. unfold Elastic.extraerTotal.
  rewrite !(field_get data) by done. simpl.
  destruct (as_number (Elastic.get data (js "total"))); [by eexists|].
  destruct (truthy (Elastic.get data (js "hits"))) eqn:Ht; [|by eexists].
  destruct (truthy_not_nullish _ Ht) as [Hu' Hn'].
  rewrite (field_get _ _ Hu' Hn'). simpl.
  destruct (as_number _); [by eexists|].
  destruct (truthy (Elastic.get (Elastic.get data (js "hits")) (js "total"))) eqn:Ht';
    [|by eexists].
  destruct (truthy_not_nullish _ Ht') as [Hu'' Hn''].
  rewrite (field_get _ _ Hu'' Hn''). simpl.
  destruct (as_number _); by eexists.
Qed.

Lemma con_datos_sin_hits (host : Host) (data : JsVal) (b : Elastic.Buscador) :
  field data (js "success") ≠ Ok (JBool false) →
  Elastic.extraerHits data = Ok [] →
  let b' := Elastic.con_datos host data b in
  markup (Elastic.resultadosContainer b') = Html Elastic.sin_resultados
  ∧ appended (Elastic.resultadosContainer b') = []
  ∧ hidden (Elastic.resultadosSection b') = false.
Proof.
  intros Hs Hh.
  destruct (extraerHits_not_nullish _ _ Hh) as [Hu Hn].
  destruct (extraerTotal_ok data [] Hu Hn) as [total Ht].
  assert (Hr : ∀ b0, Elastic.renderResultados host data b0
    = (Elastic.with_section (classList_remove (js "d-none"))
         (Elastic.with_container (set_innerHTML Elastic.sin_resultados)
            (Elastic.with_total (set_textContent (Number_toString host total))
               (Elastic.with_container (set_innerHTML [])
                  (Elastic.set_ultimaBusqueda [] b0)))), Ok ())).
  { intros b0. unfold Elastic.renderResultados. by rewrite Hh, Ht. }
  unfold Elastic.con_datos. rewrite (field_get data) in * by done.
  destruct (Elastic.get data (js "success")) as [| |[|]| | | |];
    try (rewrite Hr; simpl; split_and!; [done|done|apply has_class_remove]).
  done.
Qed.

(** C3: when the response is successful (2xx, [success] not [false]) and its
    extracted hit list is empty, the results container holds exactly the
    message element [No se encontraron resultados.] and the results section
    is visible. *)
Theorem no_results_message (host : Host) (b : Elastic.Buscador)
    (w : World Elastic.Buscador) (resp : Response) (data : JsVal) :
  str_truthy (trim (value (Elastic.input b))) = true →
  net w (Elastic.peticion (trim (value (Elastic.input b)))) = Resolves resp →
  ok resp = true →
  payload resp = Ok data →
  field data (js "success") ≠ Ok (JBool false) →
  Elastic.extraerHits data = Ok [] →
  ∃ b', outcome w 0 (task (Elastic.submit host b)) = (b', None)
    ∧ markup (Elastic.resultadosContainer b')
      = Html (js "<div class=" ++ dq ++ js "list-group-item text-center text-muted"
              ++ dq ++ js ">" ++ js "No se encontraron resultados." ++ js "</div>")
    ∧ appended (Elastic.resultadosContainer b') = []
    ∧ hidden (Elastic.resultadosSection b') = false.
Proof.
  intros H Hnet Hok Hdata Hs Hh.
  rewrite (Elastic_outcome_datos host w b resp data H Hnet Hok Hdata).
  eexists. split; [reflexivity|].
  by apply con_datos_sin_hits.
Qed.

Lemma no_results_message_witness :
  let fin := (outcome (undisturbed (Samples.responde 200
                                      (Samples.objeto [(js "hits", JArr [])]))) 0
                (task (Elastic.submit Samples.host (Samples.buscador (js "xyz"))))).1 in
  markup (Elastic.resultadosContainer fin) = Html Elastic.sin_resultados
  ∧ hidden (Elastic.resultadosSection fin) = false.
Proof.
  destruct (no_results_message Samples.host (Samples.buscador (js "xyz"))
              (undisturbed (Samples.responde 200 (Samples.objeto [(js "hits", JArr [])])))
              {| status := 200; payload := Ok (Samples.objeto [(js "hits", JArr [])]) |}
              (Samples.objeto [(js "hits", JArr [])])
              eq_refl eq_refl eq_refl eq_refl
              ltac:(vm_compute; discriminate) eq_refl)
    as (b' & Hout & Hm & _ & Hv).
  intros fin. subst fin. rewrite Hout. split; [exact Hm | exact Hv].
Defined.

(** ** Alerts *)

(** While the request is outstanding the results area is empty and
    hidden. *)
Lemma Elastic_en_espera_resultados (b : Elastic.Buscador) :
  shows_nothing (Elastic.resultadosContainer (Elastic.en_espera b))
  ∧ hidden (Elastic.resultadosSection (Elastic.en_espera b)) = true
  ∧ Elastic.ultimaBusqueda (Elastic.en_espera b) = Elastic.ultimaBusqueda b.
Proof.
  split_and!.
  - split; [by left | done].
  - apply has_class_add.
  - done.
Qed.

(** C4, as the script has it: for a 2xx JSON response with [success ===
    false] a danger alert is shown and no results are rendered. The alert
    reads [Error en la búsqueda.] when the [error] field is falsy or
    missing. When the field is truthy the alert reads the field converted to
    a string (a string that is not empty reads as it is), if the conversion
    returns; if it throws (the field is an object with a [toString] of its
    own, or an array holding one), the exception is caught and logged and
    the alert reads [Error de comunicación con el servidor.]. *)
Theorem success_false_alert (host : Host) (b : Elastic.Buscador)
    (server : Request -> FetchResult) (resp : Response) (data err : JsVal) :
  str_truthy (trim (value (Elastic.input b))) = true →
  server (Elastic.peticion (trim (value (Elastic.input b)))) = Resolves resp →
  ok resp = true →
  payload resp = Ok data →
  field data (js "success") = Ok (JBool false) →
  field data (js "error") = Ok err →
  ∃ b', outcome (undisturbed server) 0 (task (Elastic.submit host b)) = (b', None)
    ∧ (truthy err = false →
       markup (Elastic.alerta b') = Text (js "Error en la búsqueda.")
       ∧ Elastic.console b' = Elastic.console b)
    ∧ (∀ s, truthy err = true → ToString host err = Ok s →
            markup (Elastic.alerta b') = Text s
            ∧ Elastic.console b' = Elastic.console b)
    ∧ (∀ s, err = JStr s → s ≠ [] → markup (Elastic.alerta b') = Text s)
    ∧ (stringable err = false →
       ToString host err = Throw TypeError
       ∧ markup (Elastic.alerta b') = Text (js "Error de comunicación con el servidor.")
       ∧ Elastic.console b' = Elastic.console b ++ [TypeError])
    ∧ classes (Elastic.alerta b') = [js "alert"; js "alert-danger"; js "mx-auto"]
    ∧ shows_nothing (Elastic.resultadosContainer b')
    ∧ hidden (Elastic.resultadosSection b') = true
    ∧ Elastic.ultimaBusqueda b' = Elastic.ultimaBusqueda b.
Proof.
  intros H Hnet Hok Hdata Hs He.
  rewrite (Elastic_outcome_datos host (undisturbed server) b resp data H Hnet Hok Hdata).
  eexists. split; [reflexivity|].
  unfold Elastic.con_datos. rewrite Hs, He. cbn [meanwhile undisturbed].
  destruct (Elastic_en_espera_resultados b) as (Hc & Hh & Hu).
  unfold js_or.
  pose proof (ToString_stringable host err) as Hconv.
  destruct (truthy err) eqn:Ht.
  - destruct (stringable err) eqn:Hstr.
    + destruct Hconv as [s0 Hs0]. rewrite Hs0.
      split_and!; [| | | | reflexivity | exact Hc | exact Hh | exact Hu].
      * intros Hf. discriminate Hf.
      * intros s _ [= <-]. split; reflexivity.
      * intros s -> Hne. injection Hs0 as <-. reflexivity.
      * intros Hf. discriminate Hf.
    + rewrite Hconv.
      split_and!; [| | | | reflexivity | exact Hc | exact Hh | exact Hu].
      * intros Hf. discriminate Hf.
      * intros s _ Hf. discriminate Hf.
      * intros s -> _. discriminate Hstr.
      * intros _. split_and!; reflexivity.
  - cbn [ToString].
    split_and!; [| | | | reflexivity | exact Hc | exact Hh | exact Hu].
    + intros _. split; reflexivity.
    + intros s Hf. discriminate Hf.
    + intros s -> Hne. by destruct s.
    + intros Hstr. by destruct err.
Qed.

Lemma success_false_alert_witness :
  let data := Samples.objeto [(js "success", JBool false);
                              (js "error", JStr (js "Indice no disponible"))] in
  markup (Elastic.alerta
            (outcome (undisturbed (Samples.responde 200 data)) 0
               (task (Elastic.submit Samples.host (Samples.buscador (js "gas"))))).1)
  = Text (js "Indice no disponible").
Proof.
  intros data.
  destruct (success_false_alert Samples.host (Samples.buscador (js "gas"))
              (Samples.responde 200 data)
              {| status := 200; payload := Ok data |} data
              (JStr (js "Indice no disponible"))
              eq_refl eq_refl eq_refl eq_refl eq_refl eq_refl)
    as (b' & Hout & _ & _ & Hm & _).
  rewrite Hout. apply (Hm _ eq_refl). discriminate.
Defined.

(** The claim as stated fails for a response whose [error] field is the
    empty string, and for one without the field: the alert shows the
    fallback text, not the field. It fails as well for a response whose
    [error] field is what [JSON.parse] makes of [{"toString": 1}]: the
    alert shows the communication-error text. *)
Lemma success_false_alert_counterexample :
  let data := Samples.objeto [(js "success", JBool false); (js "error", JStr [])] in
  let data' := Samples.objeto [(js "success", JBool false)] in
  let data'' := Samples.objeto [(js "success", JBool false);
                                (js "error", Samples.objeto [(js "toString", JNum 1)])] in
  let shown d :=
    markup (Elastic.alerta
              (outcome (undisturbed (Samples.responde 200 d)) 0
                 (task (Elastic.submit Samples.host (Samples.buscador (js "gas"))))).1) in
  field data (js "success") = Ok (JBool false)
  ∧ field data (js "error") = Ok (JStr [])
  ∧ shown data = Text (js "Error en la búsqueda.")
  ∧ shown data ≠ Text []
  ∧ field data' (js "error") = Ok JUndefined
  ∧ shown data' = Text (js "Error en la búsqueda.")
  ∧ field data'' (js "success") = Ok (JBool false)
  ∧ shown data'' = Text (js "Error de comunicación con el servidor.").
Proof. vm_compute. split_and!; done. Qed.

(** ** Responses that are not 2xx *)

Lemma Buscar_mostrarAlerta_lookup (id mensaje tipo : jstring) (p : Buscar.Page)
    (a : Element) :
  Buscar.document p !! id = Some a →
  ∃ a', Buscar.document (Buscar.mostrarAlerta (Some id) mensaje tipo p) !! id = Some a'
    ∧ markup a' = Text mensaje
    ∧ classes a' = filter (λ c, c ≠ js "d-none")
                     (token_set (tokens (js "alert alert-" ++ tipo))).
Proof.
  intros Ha. eexists. simpl. rewrite lookup_alter_eq, Ha. simpl.
  split; [reflexivity|]. done.
Qed.

Lemma Buscar_mostrarAlerta_other (alerta : option jstring) (id mensaje tipo : jstring)
    (p : Buscar.Page) :
  alerta ≠ Some id →
  Buscar.document (Buscar.mostrarAlerta alerta mensaje tipo p) !! id
  = Buscar.document p !! id.
Proof.
  intros Hne. destruct alerta as [i|]; simpl; [|done].
  rewrite lookup_alter_ne; [done|congruence].
Qed.

(** While the request of [/buscar] is outstanding the results area is empty
    and hidden, and the alert element is still there. *)
Lemma Buscar_en_espera_lookup (alerta : option jstring) (p : Buscar.Page)
    (s c : Element) :
  alerta = Buscar.getElementById (js "alerta-busqueda") p →
  Buscar.document p !! js "resultados-section" = Some s →
  Buscar.document p !! js "resultados-container" = Some c →
  let p' := Buscar.en_espera alerta (js "resultados-section")
              (js "resultados-container") p in
  Buscar.document p' !! js "resultados-section" = Some (classList_add (js "d-none") s)
  ∧ Buscar.document p' !! js "resultados-container" = Some (set_innerHTML [] c)
  ∧ (is_Some (Buscar.document p !! js "alerta-busqueda") →
     is_Some (Buscar.document p' !! js "alerta-busqueda"))
  ∧ Buscar.console p' = Buscar.console p.
Proof.
  intros -> Hs Hc p'. subst p'. unfold Buscar.en_espera. simpl.
  assert (Hne : ∀ id, id ≠ js "alerta-busqueda" →
            Buscar.getElementById (js "alerta-busqueda") p ≠ Some id).
  { intros id Hid. unfold Buscar.getElementById.
    destruct (Buscar.document p !! js "alerta-busqueda"); simpl; congruence. }
  split_and!.
  - rewrite lookup_alter_ne by ids_differ. rewrite lookup_alter_eq.
    rewrite Buscar_mostrarAlerta_other by (apply Hne; ids_differ).
    by rewrite Hs.
  - rewrite lookup_alter_eq, lookup_alter_ne by ids_differ.
    rewrite Buscar_mostrarAlerta_other by (apply Hne; ids_differ).
    by rewrite Hc.
  - intros [a Ha].
    rewrite !lookup_alter_ne by ids_differ.
    rewrite (Buscar_getElementById_Some (js "alerta-busqueda") p) by by eexists.
    destruct (Buscar_mostrarAlerta_lookup (js "alerta-busqueda") (js "Buscando…")
                (js "info") p a Ha) as (a' & Ha' & _).
    by eexists.
  - by destruct (Buscar.getElementById (js "alerta-busqueda") p).
Qed.

Lemma Buscar_outcome_submit (host : Host) (server : Request -> FetchResult)
    (p : Buscar.Page) (inputTexto : Element) :
  Buscar.document p !! js "texto_busqueda" = Some inputTexto →
  str_truthy (trim (value inputTexto)) = true →
  is_Some (Buscar.document p !! js "resultados-section") →
  is_Some (Buscar.document p !! js "resultados-container") →
  let alerta := Buscar.getElementById (js "alerta-busqueda") p in
  outcome (undisturbed server) 0 (task (Buscar.submit host p))
  = outcome (undisturbed server) 1
      (Buscar.con_respuesta host alerta (js "resultados-section")
         (js "resultados-container")
         (server (Buscar.peticion (trim (value inputTexto))))
         (Buscar.en_espera alerta (js "resultados-section")
            (js "resultados-container") p)).
Proof.
  intros Hi Hq Hs Hc. by rewrite (Buscar_submit_nonempty host p _ Hi Hq Hs Hc).
Qed.

(** What the [catch] block of [/buscar] leaves on a page that has its alert
    element. *)
Lemma Buscar_catch_page (e : Exn) (p : Buscar.Page) (a s c : Element) :
  Buscar.document p !! js "alerta-busqueda" = Some a →
  Buscar.document p !! js "resultados-section" = Some s →
  Buscar.document p !! js "resultados-container" = Some c →
  let alerta := Buscar.getElementById (js "alerta-busqueda") p in
  let p' := Buscar.on_catch alerta e
              (Buscar.en_espera alerta (js "resultados-section")
                 (js "resultados-container") p) in
  ∃ a' s' c',
    Buscar.document p' !! js "alerta-busqueda" = Some a'
    ∧ Buscar.document p' !! js "resultados-section" = Some s'
    ∧ Buscar.document p' !! js "resultados-container" = Some c'
    ∧ markup a' = Text (js "Error de comunicación con el servidor.")
    ∧ classes a' = [js "alert"; js "alert-danger"]
    ∧ shows_nothing c'
    ∧ hidden s' = true
    ∧ Buscar.console p' = Buscar.console p ++ [e].
Proof.
  intros Ha Hs Hc alerta p'. subst alerta p'.
  destruct (Buscar_en_espera_lookup _ p s c eq_refl Hs Hc) as (Hs' & Hc' & Ha' & Hl).
  destruct (Ha' ltac:(by eexists)) as [a0 Ha0].
  rewrite (Buscar_getElementById_Some (js "alerta-busqueda") p) in * by by eexists.
  unfold Buscar.on_catch.
  set (q := Buscar.console_error e _).
  destruct (Buscar_mostrarAlerta_lookup (js "alerta-busqueda")
              (js "Error de comunicación con el servidor.") (js "danger") q a0 Ha0)
    as (a' & Hla & Hma & Hca).
  exists a', (classList_add (js "d-none") s), (set_innerHTML [] c).
  split_and!.
  - exact Hla.
  - rewrite Buscar_mostrarAlerta_other; [exact Hs'|]. ids_differ.
  - rewrite Buscar_mostrarAlerta_other; [exact Hc'|]. ids_differ.
  - exact Hma.
  - rewrite Hca. reflexivity.
  - split; [by left | done].
  - apply has_class_add.
  - subst q. done.
Qed.

Lemma Elastic_outcome_not_ok (host : Host) (w : World Elastic.Buscador)
    (b : Elastic.Buscador) (resp : Response) :
  str_truthy (trim (value (Elastic.input b))) = true →
  net w (Elastic.peticion (trim (value (Elastic.input b)))) = Resolves resp →
  ok resp = false →
  outcome w 0 (task (Elastic.submit host b))
  = (Elastic.mostrarAlerta
       (js "Error al comunicarse con el servidor (HTTP "
        ++ decimal (status resp) ++ js ").")
       (js "danger") (meanwhile w 0 (Elastic.en_espera b)), None).
Proof.
  intros H Hnet Hok. rewrite (Elastic_outcome_submit host w b H), Hnet.
  unfold Elastic.con_respuesta. by rewrite Hok.
Qed.

(** C5, as the scripts have it: for a response that is not 2xx the handler
    of [/buscar-elastic] shows a danger alert naming the HTTP status code;
    the handler of [/buscar] shows the generic communication-error danger
    alert, without the code (on a page that has its alert element). Neither
    renders results. *)
Theorem non_2xx_alert (host : Host)
    (b : Elastic.Buscador) (server : Request -> FetchResult) (resp : Response)
    (p : Buscar.Page) (inputTexto a s c : Element)
    (server' : Request -> FetchResult) (resp' : Response) :
  str_truthy (trim (value (Elastic.input b))) = true →
  server (Elastic.peticion (trim (value (Elastic.input b)))) = Resolves resp →
  ok resp = false →
  Buscar.document p !! js "texto_busqueda" = Some inputTexto →
  str_truthy (trim (value inputTexto)) = true →
  Buscar.document p !! js "alerta-busqueda" = Some a →
  Buscar.document p !! js "resultados-section" = Some s →
  Buscar.document p !! js "resultados-container" = Some c →
  server' (Buscar.peticion (trim (value inputTexto))) = Resolves resp' →
  ok resp' = false →
  (∃ b', outcome (undisturbed server) 0 (task (Elastic.submit host b)) = (b', None)
     ∧ markup (Elastic.alerta b')
       = Text (js "Error al comunicarse con el servidor (HTTP "
               ++ decimal (status resp) ++ js ").")
     ∧ includes (decimal (status resp))
         (js "Error al comunicarse con el servidor (HTTP "
          ++ decimal (status resp) ++ js ").") = true
     ∧ classes (Elastic.alerta b') = [js "alert"; js "alert-danger"; js "mx-auto"]
     ∧ shows_nothing (Elastic.resultadosContainer b')
     ∧ hidden (Elastic.resultadosSection b') = true)
  ∧ (∃ p' a' s' c',
       outcome (undisturbed server') 0 (task (Buscar.submit host p)) = (p', None)
       ∧ Buscar.document p' !! js "alerta-busqueda" = Some a'
       ∧ Buscar.document p' !! js "resultados-section" = Some s'
       ∧ Buscar.document p' !! js "resultados-container" = Some c'
       ∧ markup a' = Text (js "Error de comunicación con el servidor.")
       ∧ classes a' = [js "alert"; js "alert-danger"]
       ∧ shows_nothing c'
       ∧ hidden s' = true).
Proof.
  intros H Hnet Hok Hi Hq Ha Hs Hc Hnet' Hok'. split.
  - rewrite (Elastic_outcome_not_ok host (undisturbed server) b resp H Hnet Hok).
    destruct (Elastic_en_espera_resultados b) as (Hc0 & Hh0 & _).
    eexists. split; [reflexivity|].
    split_and!.
    + reflexivity.
    + apply includes_app.
    + reflexivity.
    + exact Hc0.
    + exact Hh0.
  - rewrite (Buscar_outcome_submit host server' p inputTexto Hi Hq)
      by by eexists.
    cbv zeta. rewrite Hnet'. unfold Buscar.con_respuesta. rewrite Hok'.
    destruct (Buscar_catch_page (Error (js "Respuesta no válida del servidor"))
                p a s c Ha Hs Hc)
      as (a' & s' & c' & H1 & H2 & H3 & H4 & H5 & H6 & H7 & _).
    eexists. exists a', s', c'. split; [reflexivity|]. by split_and!.
Qed.

Lemma non_2xx_alert_witness :
  markup (Elastic.alerta
            (outcome (undisturbed (Samples.responde 503 JNull)) 0
               (task (Elastic.submit Samples.host (Samples.buscador (js "gas"))))).1)
  = Text (js "Error al comunicarse con el servidor (HTTP 503).").
Proof.
  destruct (non_2xx_alert Samples.host
              (Samples.buscador (js "gas")) (Samples.responde 503 JNull)
              {| status := 503; payload := Ok JNull |}
              (Samples.pagina (js "gas"))
              (Samples.elemento (js "gas") (js "form-control"))
              (Samples.elemento [] (js "alert d-none"))
              (Samples.elemento [] (js "d-none"))
              (Samples.elemento [] (js "list-group"))
              (Samples.responde 404 JNull)
              {| status := 404; payload := Ok JNull |}
              eq_refl eq_refl eq_refl eq_refl eq_refl eq_refl eq_refl eq_refl
              eq_refl eq_refl)
    as [(b' & Hout & Hm & _) _].
  rewrite Hout. exact Hm.
Defined.

(** The claim as stated fails on the page of [/buscar]: for a 500 response
    the alert is the generic one and does not contain the status code. *)
Lemma non_2xx_alert_counterexample :
  let fin := (outcome (undisturbed (Samples.responde 500 JNull)) 0
                (task (Buscar.submit Samples.host (Samples.pagina (js "gas"))))).1 in
  ok {| status := 500; payload := Ok JNull |} = false
  ∧ (markup <$> Buscar.document fin !! js "alerta-busqueda")
    = Some (Text (js "Error de comunicación con el servidor."))
  ∧ includes (decimal 500) (js "Error de comunicación con el servidor.") = false.
Proof. vm_compute. split_and!; done. Qed.

(** ** Exceptions *)

(** C6, as the scripts have it: an exception thrown by the network call or
    by the JSON parsing of the response is caught, the request is not
    repeated, and the generic communication-error danger alert is shown: by
    the handler of [/buscar-elastic] always, by the handler of [/buscar] on
    a page that has its alert element. *)
Theorem exception_alert (host : Host)
    (b : Elastic.Buscador) (w : World Elastic.Buscador) (e : Exn)
    (p : Buscar.Page) (inputTexto a s c : Element)
    (server' : Request -> FetchResult) (e' : Exn) :
  str_truthy (trim (value (Elastic.input b))) = true →
  falla (net w (Elastic.peticion (trim (value (Elastic.input b))))) e →
  Buscar.document p !! js "texto_busqueda" = Some inputTexto →
  str_truthy (trim (value inputTexto)) = true →
  Buscar.document p !! js "alerta-busqueda" = Some a →
  Buscar.document p !! js "resultados-section" = Some s →
  Buscar.document p !! js "resultados-container" = Some c →
  falla (server' (Buscar.peticion (trim (value inputTexto)))) e' →
  (∃ b', outcome w 0 (task (Elastic.submit host b)) = (b', None)
     ∧ markup (Elastic.alerta b') = Text (js "Error de comunicación con el servidor.")
     ∧ classes (Elastic.alerta b') = [js "alert"; js "alert-danger"; js "mx-auto"]
     ∧ requests w 0 (task (Elastic.submit host b))
       = [Elastic.peticion (trim (value (Elastic.input b)))])
  ∧ (∃ p' a',
       outcome (undisturbed server') 0 (task (Buscar.submit host p)) = (p', None)
       ∧ Buscar.document p' !! js "alerta-busqueda" = Some a'
       ∧ markup a' = Text (js "Error de comunicación con el servidor.")
       ∧ classes a' = [js "alert"; js "alert-danger"]
       ∧ Buscar.console p' = Buscar.console p ++ [e']
       ∧ requests (undisturbed server') 0 (task (Buscar.submit host p))
         = [Buscar.peticion (trim (value inputTexto))]).
Proof.
  intros H Hf Hi Hq Ha Hs Hc Hf'. split.
  - destruct (Elastic_outcome_falla host w b e H Hf) as [b2 Hout].
    eexists. split; [exact Hout|].
    split_and!; try done.
    by apply Elastic_requests_submit.
  - destruct (Buscar_catch_page e' p a s c Ha Hs Hc)
      as (a' & s' & c' & H1 & _ & _ & H4 & H5 & _ & _ & H8).
    eexists. exists a'.
    split_and!; [|exact H1|exact H4|exact H5|exact H8|].
    + rewrite (Buscar_outcome_submit host server' p inputTexto Hi Hq)
        by by eexists.
      cbv zeta. unfold Buscar.con_respuesta.
      destruct Hf' as [-> | (resp & -> & Hok & Hp)].
      * reflexivity.
      * rewrite Hok. cbn [negb outcome payload]. by rewrite Hp.
    + apply (Buscar_requests_submit host _ p inputTexto Hi Hq); by eexists.
Qed.

Lemma exception_alert_witness :
  markup (Elastic.alerta
            (outcome (undisturbed Samples.no_responde) 0
               (task (Elastic.submit Samples.host (Samples.buscador (js "gas"))))).1)
  = Text (js "Error de comunicación con el servidor.")
  ∧ (markup <$>
       Buscar.document
         (outcome (undisturbed (λ _, Resolves {| status := 200;
                                                 payload := Throw SyntaxError |})) 0
            (task (Buscar.submit Samples.host (Samples.pagina (js "gas"))))).1
       !! js "alerta-busqueda")
    = Some (Text (js "Error de comunicación con el servidor.")).
Proof.
  destruct (exception_alert Samples.host
              (Samples.buscador (js "gas")) (undisturbed Samples.no_responde)
              NetworkFailure
              (Samples.pagina (js "gas"))
              (Samples.elemento (js "gas") (js "form-control"))
              (Samples.elemento [] (js "alert d-none"))
              (Samples.elemento [] (js "d-none"))
              (Samples.elemento [] (js "list-group"))
              (λ _, Resolves {| status := 200; payload := Throw SyntaxError |})
              SyntaxError
              eq_refl (or_introl eq_refl) eq_refl eq_refl eq_refl eq_refl eq_refl
              (or_intror (ex_intro _ _ (conj eq_refl (conj eq_refl eq_refl)))))
    as [(b' & Hout & Hm & _) (p' & a' & Hout' & Hl & Hm' & _)].
  rewrite Hout, Hout'. split; [exact Hm|].
  simpl. rewrite Hl. simpl. by rewrite Hm'.
Defined.

(** The claim as stated fails on the page of [/buscar] without the alert
    element: the exception is caught and logged, and the page shows
    nothing. *)
Lemma exception_alert_counterexample :
  let p := Samples.pagina_sin_alerta (js "gas") in
  Samples.no_responde (Buscar.peticion (js "gas")) = Rejects NetworkFailure
  ∧ requests (undisturbed Samples.no_responde) 0 (task (Buscar.submit Samples.host p))
    = [Buscar.peticion (js "gas")]
  ∧ outcome (undisturbed Samples.no_responde) 0 (task (Buscar.submit Samples.host p))
    = ({| Buscar.document := Buscar.document p;
          Buscar.console := [NetworkFailure] |}, None)
  ∧ map_Forall (λ _ el, markup el = Html [] ∧ appended el = []) (Buscar.document p).
Proof.
  split_and!; try (vm_compute; reflexivity).
  intros id el Hl. unfold Samples.pagina_sin_alerta, Samples.pagina in Hl. simpl in Hl.
  rewrite lookup_delete_Some in Hl. destruct Hl as [_ Hl].
  repeat (apply lookup_insert_Some in Hl as [[_ <-]|[_ Hl]]; [done|]).
  by rewrite lookup_empty in Hl.
Qed.

(** ** Rendered hits *)

Lemma orElse_Ok_Ok (a b : JsVal) :
  Elastic.orElse (Ok a) (Ok b) = Ok (js_or a b).
Proof. unfold Elastic.orElse, js_or. simpl. by destruct (truthy a). Qed.

Lemma js_or_not_nullish (a b : JsVal) :
  b ≠ JUndefined → b ≠ JNull → js_or a b ≠ JUndefined ∧ js_or a b ≠ JNull.
Proof.
  intros Hu Hn. unfold js_or. destruct (truthy a) eqn:Ht; [|done].
  by apply truthy_not_nullish.
Qed.

Lemma js_or_text (a b : JsVal) (t : jstring) :
  Elastic.is_text a = true → b = JStr t →
  js_or a b = JStr (str_or (Elastic.text_of a) t).
Proof. intros Ha ->. destruct a as [| | | |[|c s]| |]; done. Qed.

Lemma str_or_assoc (a b c : jstring) : str_or (str_or a b) c = str_or a (str_or b c).
Proof. by destruct a. Qed.

Lemma first_text_default (source : JsVal) (keys : list jstring) (d : jstring) :
  Elastic.first_text source keys d = str_or (Elastic.first_text source keys []) d.
Proof.
  induction keys as [|k keys IH]; simpl; [done|].
  by rewrite IH, str_or_assoc.
Qed.

Lemma truncar_text (host : Host) (t : jstring) :
  Elastic.truncar host (JStr t)
  = Ok (JStr (if bool_decide (260 < length t) then take 260 t ++ js "…" else t)).
Proof.
  unfold Elastic.truncar. cbn [Elastic.length_exceeds_260 mbind Result_bind rbind].
  by destruct (bool_decide (260 < length t)).
Qed.

(** The callback on a hit that is not [null] or [undefined], step by
    step: the property reads cannot fail; cutting the snippet, the string
    conversions of the template and the look-up of the detail button can. *)
Lemma render_hit_steps (host : Host) (hit : JsVal) (index : nat) :
  hit ≠ JUndefined → hit ≠ JNull →
  let source := Resultados.source_of hit in
  Elastic.render_hit host hit index
  = (snippet ← Elastic.truncar host (Resultados.snippet_value source);
     titulo' ← ToString host (Resultados.titulo_of source);
     anio' ← Elastic.shown_if_truthy host (Resultados.anio_of source);
     tipo' ← Elastic.shown_if_truthy host (Resultados.tipo_of source);
     entidad' ← Elastic.shown_if_truthy host (Resultados.entidad_of source);
     snippet' ← ToString host snippet;
     let item := {| hit_titulo := titulo';
                    hit_anio := anio';
                    hit_tipo := tipo';
                    hit_entidad := entidad';
                    hit_score := (λ x, Number_toFixed host x 4)
                                 <$> as_number (Elastic.get hit (js "_score"));
                    hit_position := index + 1;
                    hit_snippet := snippet';
                    hit_detalle := source |} in
     if has_btn_detalle host item then Ok item else Throw TypeError).
Proof.
  intros Hu Hn source.
  destruct (js_or_not_nullish (Elastic.get hit (js "source")) hit Hu Hn) as [Hu1 Hn1].
  destruct (js_or_not_nullish (Elastic.get hit (js "_source")) _ Hu1 Hn1) as [Hu2 Hn2].
  fold (Resultados.source_of hit) in Hu2, Hn2. fold source in Hu2, Hn2.
  unfold Elastic.render_hit.
  rewrite !(field_get hit) by done.
  rewrite !orElse_Ok_Ok. fold (Resultados.source_of hit). fold source.
  cbn [mbind Result_bind rbind].
  rewrite !(field_get source) by done.
  rewrite !orElse_Ok_Ok.
  cbn [mbind Result_bind rbind].
  reflexivity.
Qed.

(** What a rendered hit was made from. *)
Lemma render_hit_ok (host : Host) (hit : JsVal) (index : nat) (item : HitItem) :
  Elastic.render_hit host hit index = Ok item →
  let source := Resultados.source_of hit in
  hit ≠ JUndefined ∧ hit ≠ JNull
  ∧ hit_detalle item = source
  ∧ hit_position item = index + 1
  ∧ ToString host (Resultados.titulo_of source) = Ok (hit_titulo item)
  ∧ (∃ snippet, Elastic.truncar host (Resultados.snippet_value source) = Ok snippet
       ∧ ToString host snippet = Ok (hit_snippet item))
  ∧ has_btn_detalle host item = true.
Proof.
  intros H source.
  assert (Hhit : hit ≠ JUndefined ∧ hit ≠ JNull) by (by destruct hit).
  destruct Hhit as [Hu Hn].
  rewrite (render_hit_steps host hit index Hu Hn) in H. fold source in H.
  destruct (Elastic.truncar host _) as [snippet|e] eqn:Ht;
    cbn [mbind Result_bind rbind] in H; [|discriminate H].
  destruct (ToString host (Resultados.titulo_of source)) as [t|e] eqn:Hti;
    cbn [mbind Result_bind rbind] in H; [|discriminate H].
  destruct (Elastic.shown_if_truthy host (Resultados.anio_of source)) as [a|e];
    cbn [mbind Result_bind rbind] in H; [|discriminate H].
  destruct (Elastic.shown_if_truthy host (Resultados.tipo_of source)) as [ti|e];
    cbn [mbind Result_bind rbind] in H; [|discriminate H].
  destruct (Elastic.shown_if_truthy host (Resultados.entidad_of source)) as [en|e];
    cbn [mbind Result_bind rbind] in H; [|discriminate H].
  destruct (ToString host snippet) as [sn|e] eqn:Hsn;
    cbn [mbind Result_bind rbind] in H; [|discriminate H].
  cbv zeta in H.
  destruct (has_btn_detalle host _) eqn:Hbtn; [|discriminate H].
  injection H as <-. cbn [hit_detalle hit_position hit_snippet hit_titulo].
  split_and!; try done. by exists snippet.
Qed.

(** The snippet of one rendered hit whose text fields are strings. *)
Lemma render_hit_snippet (host : Host) (hit : JsVal) (index : nat) (item : HitItem) :
  Elastic.render_hit host hit index = Ok item →
  (∀ k, k ∈ Elastic.long_text_fields ++ Elastic.title_fields →
        Elastic.is_text (Elastic.get (hit_detalle item) k) = true) →
  hit_snippet item = Elastic.snippet_spec (hit_detalle item)
  ∧ length (hit_snippet item) ≤ 261.
Proof.
  intros H Htext.
  destruct (render_hit_ok host hit index item H)
    as (_ & _ & Hsrc & _ & _ & (snippet & Ht & Hs) & _).
  rewrite <- Hsrc in Ht.
  set (source := hit_detalle item) in *.
  assert (Hk : ∀ k, k ∈ Elastic.long_text_fields ++ Elastic.title_fields →
                    Elastic.is_text (Elastic.get source k) = true) by exact Htext.
  assert (Htitulo : Resultados.titulo_of source = JStr (Elastic.title_spec source)).
  { unfold Resultados.titulo_of.
    erewrite (js_or_text (Elastic.get source (js "titulo")));
      [reflexivity | apply Hk; set_solver |].
    erewrite js_or_text; [reflexivity | apply Hk; set_solver | reflexivity]. }
  assert (Hlargo :
    js_or (Elastic.get source (js "resumen"))
      (js_or (Elastic.get source (js "extracto"))
         (js_or (Elastic.get source (js "texto"))
            (js_or (Elastic.get source (js "contenido")) (JStr []))))
    = JStr (Elastic.first_text source Elastic.long_text_fields [])).
  { erewrite (js_or_text (Elastic.get source (js "resumen")));
      [reflexivity | apply Hk; set_solver |].
    erewrite (js_or_text (Elastic.get source (js "extracto")));
      [reflexivity | apply Hk; set_solver |].
    erewrite (js_or_text (Elastic.get source (js "texto")));
      [reflexivity | apply Hk; set_solver |].
    erewrite js_or_text; [reflexivity | apply Hk; set_solver | reflexivity]. }
  unfold Resultados.snippet_value in Ht.
  rewrite Htitulo, Hlargo in Ht.
  rewrite (js_or_text (JStr _) _ (Elastic.title_spec source) eq_refl eq_refl) in Ht.
  cbn [Elastic.text_of] in Ht.
  rewrite <- first_text_default, truncar_text in Ht.
  injection Ht as <-. cbn [ToString] in Hs. injection Hs as Hs. symmetry in Hs.
  split; [exact Hs|].
  rewrite Hs.
  destruct (bool_decide (260 < length _)) eqn:Hlong.
  - rewrite length_app, length_take. change (length (js "…")) with 1. lia.
  - apply bool_decide_eq_false in Hlong. lia.
Qed.

(** Every item the loop of [renderResultados] leaves in the container was
    there before or was rendered from one of the hits. *)
Lemma forEach_hit_appended (host : Host) (hits : list JsVal) (index : nat)
    (b : Elastic.Buscador) (c : Child) :
  c ∈ appended (Elastic.resultadosContainer (Elastic.forEach_hit host hits index b).1) →
  c ∈ appended (Elastic.resultadosContainer b)
  ∨ ∃ hit i item, hit ∈ hits ∧ Elastic.render_hit host hit i = Ok item
                  ∧ c = ChildHit item.
Proof.
  revert index b. induction hits as [|hit rest IH]; intros index b Hc; simpl in Hc.
  - by left.
  - destruct (Elastic.render_hit host hit index) as [item|e] eqn:Hr; simpl in Hc.
    + apply IH in Hc as [Hc | (h & i & it & Hh & Hit & ->)].
      * simpl in Hc. apply elem_of_app in Hc as [Hc|Hc]; [by left|].
        apply list_elem_of_singleton in Hc as ->. right.
        exists hit, index, item. split_and!; [apply elem_of_cons; by left | done | done].
      * right. exists h, i, it. split_and!; [apply elem_of_cons; by right | done | done].
    + by left.
Qed.

(** The hits [renderResultados] loops over. *)
Lemma extraerHits_hits_spec (data : JsVal) :
  data ≠ JUndefined → data ≠ JNull →
  Elastic.extraerHits data = Ok (Elastic.hits_spec data).
Proof.
  intros Hu Hn. unfold Elastic.extraerHits, Elastic.hits_spec.
  rewrite !(field_get data) by done. cbn [mbind Result_bind rbind].
  destruct (as_array (Elastic.get data (js "hits"))) as [l|]; [done|].
  destruct (truthy (Elastic.get data (js "hits"))) eqn:Ht.
  - destruct (truthy_not_nullish _ Ht) as [Hu' Hn'].
    rewrite (field_get _ _ Hu' Hn'). cbn [mbind Result_bind rbind].
    destruct (as_array (Elastic.get (Elastic.get data (js "hits")) (js "hits")));
      [done|].
    by destruct (as_array (Elastic.get data (js "resultados"))).
  - rewrite (get_falsy _ (js "hits") Ht). cbn [mbind Result_bind rbind as_array].
    by destruct (as_array (Elastic.get data (js "resultados"))).
Qed.

(** [renderResultados] empties the container first, so what it holds
    afterwards was rendered from the extracted hits. *)
Lemma renderResultados_children (host : Host) (data : JsVal) (b : Elastic.Buscador)
    (c : Child) :
  data ≠ JUndefined → data ≠ JNull →
  c ∈ appended (Elastic.resultadosContainer (Elastic.renderResultados host data b).1) →
  ∃ hit i item, hit ∈ Elastic.hits_spec data
                ∧ Elastic.render_hit host hit i = Ok item
                ∧ c = ChildHit item.
Proof.
  intros Hu Hn. unfold Elastic.renderResultados.
  rewrite (extraerHits_hits_spec data Hu Hn).
  destruct (extraerTotal_ok data (Elastic.hits_spec data) Hu Hn) as [total ->].
  destruct (Elastic.hits_spec data) as [|hit rest] eqn:Hhits.
  - simpl. intros Hc. by apply elem_of_nil in Hc.
  - set (b0 := Elastic.with_total _ _).
    intros Hc.
    assert (Hc' : c ∈ appended (Elastic.resultadosContainer
                                  (Elastic.forEach_hit host (hit :: rest) 0 b0).1)).
    { destruct (Elastic.forEach_hit host (hit :: rest) 0 b0) as [b1 [[]|e]];
        exact Hc. }
    apply forEach_hit_appended in Hc' as [Hc'|Hc']; [|exact Hc'].
    subst b0. simpl in Hc'. by apply elem_of_nil in Hc'.
Qed.

(** C10, as the script has it: every hit that [renderResultados] leaves in
    the results container was rendered from one of the extracted hits, with
    source [hit._source || hit.source || hit]; when the text fields of that
    source are strings (or absent), its snippet is the long text of the
    source (the first non-empty of [resumen], [extracto], [texto],
    [contenido]; the title when all are empty), cut to its first 260
    characters followed by an ellipsis when it is longer; so no such snippet
    is longer than 261 characters. *)
Theorem snippet_truncated (host : Host) (data : JsVal) (b : Elastic.Buscador)
    (c : Child) :
  data ≠ JUndefined → data ≠ JNull →
  c ∈ appended (Elastic.resultadosContainer (Elastic.renderResultados host data b).1) →
  ∃ hit index item,
    c = ChildHit item
    ∧ hit ∈ Elastic.hits_spec data
    ∧ Elastic.render_hit host hit index = Ok item
    ∧ hit_detalle item
      = js_or (Elastic.get hit (js "_source")) (js_or (Elastic.get hit (js "source")) hit)
    ∧ ((∀ k, k ∈ Elastic.long_text_fields ++ Elastic.title_fields →
             Elastic.is_text (Elastic.get (hit_detalle item) k) = true) →
       hit_snippet item = Elastic.snippet_spec (hit_detalle item)
       ∧ length (hit_snippet item) ≤ 261).
Proof.
  intros Hu Hn Hc.
  destruct (renderResultados_children host data b c Hu Hn Hc)
    as (hit & i & item & Hhit & Hr & ->).
  exists hit, i, item. split_and!; try done.
  - by destruct (render_hit_ok host hit i item Hr) as (_ & _ & Hsrc & _).
  - intros Htext. by apply (render_hit_snippet host hit i item).
Qed.

Lemma snippet_truncated_witness :
  let source := Samples.objeto [(js "titulo", JStr (js "Decreto 1073 de 2015"));
                                (js "resumen", JStr []);
                                (js "texto", JStr (replicate 300 97%N))] in
  let data := Samples.objeto
                [(js "hits", JArr [Samples.objeto [(js "_source", source)]])] in
  let item := {| hit_titulo := js "Decreto 1073 de 2015";
                 hit_anio := None; hit_tipo := None; hit_entidad := None;
                 hit_score := None; hit_position := 1;
                 hit_snippet := replicate 260 97%N ++ js "…";
                 hit_detalle := source |} in
  appended (Elastic.resultadosContainer
              (Elastic.renderResultados Samples.host data (Samples.buscador [])).1)
  = [ChildHit item]
  ∧ hit_snippet item = Elastic.snippet_spec source
  ∧ length (hit_snippet item) ≤ 261.
Proof.
  intros source data item.
  assert (Hc : appended (Elastic.resultadosContainer
                 (Elastic.renderResultados Samples.host data (Samples.buscador [])).1)
               = [ChildHit item]) by (vm_compute; reflexivity).
  split; [exact Hc|].
  destruct (snippet_truncated Samples.host data (Samples.buscador []) (ChildHit item))
    as (hit & index & item' & Heq & _ & _ & _ & Hs).
  - discriminate.
  - discriminate.
  - rewrite Hc. by apply list_elem_of_singleton.
  - injection Heq as <-. apply Hs.
    intros k Hk.
    repeat (apply elem_of_cons in Hk as [->|Hk]; [by vm_compute|]).
    by apply elem_of_nil in Hk.
Defined.

(** The claim as stated fails for a hit whose [resumen] is an array: its
    [length] counts elements, so a single long element is not cut, and the
    snippet shown is the 300 characters of that element. *)
Lemma snippet_truncated_counterexample :
  let source := Samples.objeto [(js "titulo", JStr (js "Decreto 1073 de 2015"));
                                (js "resumen", JArr [JStr (replicate 300 97%N)])] in
  let data := Samples.objeto
                [(js "hits", JArr [Samples.objeto [(js "_source", source)]])] in
  ∃ item,
    appended (Elastic.resultadosContainer
                (Elastic.renderResultados Samples.host data (Samples.buscador [])).1)
    = [ChildHit item]
    ∧ hit_detalle item = source
    ∧ hit_snippet item = replicate 300 97%N
    ∧ length (hit_snippet item) = 300.
Proof.
  eexists. split; [vm_compute; reflexivity|].
  split_and!; vm_compute; reflexivity.
Qed.

(** * More properties of the scripts *)

(** ** The extractors *)

Lemma nullish_spec (v : JsVal) :
  Resultados.nullish v = false ↔ v ≠ JUndefined ∧ v ≠ JNull.
Proof. destruct v; simpl; split; (done || by intros []). Qed.

(** X1: for a response that is not [null] or [undefined], [extraerTotal]
    returns [data.total] when it is a number; otherwise [data.hits.total]
    when that is a number; otherwise [data.hits.total.value] when that is a
    number; otherwise the number of hits. *)
Theorem extraerTotal_fallback (data : JsVal) (hits : list JsVal) :
  data ≠ JUndefined → data ≠ JNull →
  Elastic.extraerTotal data hits = Ok (Resultados.total_spec data hits).
Proof.
  intros Hu Hn. unfold Elastic.extraerTotal, Resultados.total_spec.
  rewrite !(field_get data) by done. simpl.
  destruct (as_number (Elastic.get data (js "total"))); [done|].
  destruct (truthy (Elastic.get data (js "hits"))) eqn:Ht.
  - destruct (truthy_not_nullish _ Ht) as [Hu' Hn'].
    rewrite (field_get _ _ Hu' Hn'). simpl.
    destruct (as_number (Elastic.get (Elastic.get data (js "hits")) (js "total")));
      [done|].
    destruct (truthy (Elastic.get (Elastic.get data (js "hits")) (js "total")))
      eqn:Ht'.
    + destruct (truthy_not_nullish _ Ht') as [Hu'' Hn''].
      rewrite (field_get _ _ Hu'' Hn''). simpl.
      by destruct (as_number _).
    + by rewrite (get_falsy _ (js "value") Ht').
  - by rewrite (get_falsy _ (js "total") Ht).
Qed.

Lemma extraerTotal_fallback_witness :
  Elastic.extraerTotal Ejemplos.dos_hits [JNull; JNull] = Ok 2%float
  ∧ Elastic.extraerTotal (Samples.objeto [(js "total", JStr (js "7"))]) [JNull; JNull; JNull]
    = Ok 3%float.
Proof.
  split.
  - rewrite extraerTotal_fallback by discriminate. reflexivity.
  - rewrite extraerTotal_fallback by discriminate. reflexivity.
Defined.

Lemma extraerHits_ok (data : JsVal) :
  data ≠ JUndefined → data ≠ JNull → ∃ hits, Elastic.extraerHits data = Ok hits.
Proof.
  intros Hu Hn. unfold Elastic.extraerHits.
  rewrite !(field_get data) by done. simpl.
  destruct (as_array (Elastic.get data (js "hits"))); [by eexists|].
  destruct (truthy (Elastic.get data (js "hits"))) eqn:Ht.
  - destruct (truthy_not_nullish _ Ht) as [Hu' Hn'].
    rewrite (field_get _ _ Hu' Hn'). simpl.
    destruct (as_array _); [by eexists|].
    destruct (as_array _); by eexists.
  - simpl. destruct (as_array _); by eexists.
Qed.

(** X2: [extraerHits] and [extraerTotal] throw exactly on a response that is
    [null] or [undefined], and what they throw is a [TypeError]; on every
    other JSON value, of whatever shape, they return. *)
Theorem extractors_throw (data : JsVal) (hits : list JsVal) (e : Exn) :
  (Elastic.extraerHits data = Throw e
   ↔ Resultados.nullish data = true ∧ e = TypeError)
  ∧ (Elastic.extraerTotal data hits = Throw e
     ↔ Resultados.nullish data = true ∧ e = TypeError).
Proof.
  destruct (Resultados.nullish data) eqn:Hnull.
  - assert (H1 : Elastic.extraerHits data = Throw TypeError) by (by destruct data).
    assert (H2 : Elastic.extraerTotal data hits = Throw TypeError)
      by (by destruct data).
    rewrite H1, H2. split; (split; [intros [= <-] | intros [_ ->]]; done).
  - apply nullish_spec in Hnull as [Hu Hn].
    destruct (extraerHits_ok data Hu Hn) as [l Hl].
    destruct (extraerTotal_ok data hits Hu Hn) as [t Ht].
    rewrite Hl, Ht. split; (split; [done | by intros [? _]]).
Qed.

(** ** One hit *)

Lemma js_or_truthy (a b : JsVal) : truthy b = true → truthy (js_or a b) = true.
Proof. intros Hb. unfold js_or. by destruct (truthy a) eqn:Ha. Qed.

Lemma titulo_of_truthy (source : JsVal) : truthy (Resultados.titulo_of source) = true.
Proof. unfold Resultados.titulo_of. by do 2 apply js_or_truthy. Qed.

Lemma snippet_value_truthy (source : JsVal) :
  truthy (Resultados.snippet_value source) = true.
Proof. apply js_or_truthy, titulo_of_truthy. Qed.

Lemma source_of_not_nullish (hit : JsVal) :
  Resultados.nullish hit = false →
  Resultados.source_of hit ≠ JUndefined ∧ Resultados.source_of hit ≠ JNull.
Proof.
  intros H. apply nullish_spec in H as [Hu Hn]. unfold Resultados.source_of.
  apply js_or_not_nullish; by apply js_or_not_nullish.
Qed.

Lemma nullish_throws (hit : JsVal) (host : Host) (index : nat) :
  Resultados.nullish hit = true →
  Elastic.render_hit host hit index = Throw TypeError.
Proof. by destruct hit. Qed.

Lemma ToNumber_TypeError (host : Host) (v : JsVal) (e : Exn) :
  ToNumber host v = Throw e → e = TypeError.
Proof.
  destruct v as [| | [|] | x | s | l | m]; try done; unfold ToNumber;
    (destruct (ToString host _) as [s|e'] eqn:Hs; [done|]);
    intros [= <-]; by apply ToString_throws in Hs as [-> _].
Qed.

(** Cutting the snippet throws nothing but a [TypeError]. *)
Lemma truncar_TypeError (host : Host) (v : JsVal) (e : Exn) :
  Elastic.truncar host v = Throw e → e = TypeError.
Proof.
  unfold Elastic.truncar.
  destruct (Elastic.length_exceeds_260 host v) as [[|]|e'] eqn:Hl;
    cbn [mbind Result_bind rbind]; [| done |].
  - destruct (Elastic.slice_260 v) as [cut|e'] eqn:Hc; cbn [mbind Result_bind rbind].
    + destruct (ToString host cut) as [s|e'] eqn:Hs; [done|].
      intros [= <-]. by apply ToString_throws in Hs as [-> _].
    + intros [= <-]. destruct v; cbn [Elastic.slice_260] in Hc; congruence.
  - intros [= <-]. destruct v as [| | b | x | s | l | m];
      cbn [Elastic.length_exceeds_260] in Hl; try congruence.
    destruct (ToNumber host _) as [n|e0] eqn:Hn; [done|].
    injection Hl as <-. by apply ToNumber_TypeError in Hn.
Qed.

Lemma shown_if_truthy_TypeError (host : Host) (v : JsVal) (e : Exn) :
  Elastic.shown_if_truthy host v = Throw e → e = TypeError.
Proof.
  unfold Elastic.shown_if_truthy. destruct (truthy v); [|done].
  destruct (ToString host v) as [s|e'] eqn:Hs; [done|].
  intros [= <-]. by apply ToString_throws in Hs as [-> _].
Qed.

(** A truthy value that cannot be converted is not shown. *)
Lemma shown_if_truthy_Ok (host : Host) (v : JsVal) (o : option jstring) :
  Elastic.shown_if_truthy host v = Ok o → stringable v = true.
Proof.
  unfold Elastic.shown_if_truthy. destruct (truthy v) eqn:Ht.
  - destruct (ToString host v) as [s|e'] eqn:Hs; [|done].
    intros _. by apply ToString_Ok_stringable in Hs.
  - intros _. by destruct v.
Qed.

Lemma js_or_scalar (a b : JsVal) :
  scalar a = true → scalar b = true → scalar (js_or a b) = true.
Proof. intros Ha Hb. unfold js_or. by destruct (truthy a). Qed.

Lemma scalar_ToString (host : Host) (v : JsVal) :
  scalar v = true → ∃ s, ToString host v = Ok s.
Proof. intros H. by apply ToString_ok, scalar_stringable. Qed.

Lemma scalar_shown_if_truthy (host : Host) (v : JsVal) :
  scalar v = true → ∃ o, Elastic.shown_if_truthy host v = Ok o.
Proof.
  intros H. unfold Elastic.shown_if_truthy. destruct (truthy v); [|by eexists].
  destruct (scalar_ToString host v H) as [s ->]. by eexists.
Qed.

(** A snippet value that is a string, a number or a boolean is cut, or
    left as it is, without an exception. *)
Lemma scalar_truncar (host : Host) (v : JsVal) :
  scalar v = true → truthy v = true →
  ∃ snippet, Elastic.truncar host v = Ok snippet ∧ scalar snippet = true.
Proof.
  intros Hs Ht. destruct v as [| | b | x | s | l | m]; try done.
  - by eexists.
  - by eexists.
  - rewrite truncar_text. by eexists.
Qed.

(** X3: rendering one hit throws nothing but a [TypeError]. It does throw
    on a hit that is [null] or [undefined], and on a hit whose title, year,
    type or entity cannot be converted to a string (an object with a
    [toString] of its own, or an array holding one). A hit whose source
    fields are strings, numbers, booleans or absent is rendered whenever the
    markup built from it, once parsed, has its detail button; when the
    texts of the hit break that markup, the look-up of the button gives
    [null] and the callback throws. *)
Theorem render_hit_throws (host : Host) (hit : JsVal) (index : nat) :
  (∀ e, Elastic.render_hit host hit index = Throw e → e = TypeError)
  ∧ (Resultados.nullish hit = true →
     Elastic.render_hit host hit index = Throw TypeError)
  ∧ (Resultados.nullish hit = false →
     stringable (Resultados.titulo_of (Resultados.source_of hit)) = false
     ∨ stringable (Resultados.anio_of (Resultados.source_of hit)) = false
     ∨ stringable (Resultados.tipo_of (Resultados.source_of hit)) = false
     ∨ stringable (Resultados.entidad_of (Resultados.source_of hit)) = false →
     Elastic.render_hit host hit index = Throw TypeError)
  ∧ (Resultados.nullish hit = false →
     (∀ k, k ∈ Resultados.source_fields →
           scalar (Elastic.get (Resultados.source_of hit) k) = true) →
     ∃ item,
       hit_detalle item = Resultados.source_of hit
       ∧ hit_position item = index + 1
       ∧ ToString host (Resultados.titulo_of (Resultados.source_of hit))
         = Ok (hit_titulo item)
       ∧ Elastic.render_hit host hit index
         = if has_btn_detalle host item then Ok item else Throw TypeError).
Proof.
  assert (Honly : ∀ e, Elastic.render_hit host hit index = Throw e → e = TypeError).
  { intros e. destruct (Resultados.nullish hit) eqn:Hnull.
    - rewrite (nullish_throws hit host index Hnull). by intros [= <-].
    - apply nullish_spec in Hnull as [Hu Hn].
      rewrite (render_hit_steps host hit index Hu Hn). cbv zeta.
      destruct (Elastic.truncar host _) as [snippet|e0] eqn:Ht;
        cbn [mbind Result_bind rbind];
        [|intros [= <-]; by apply truncar_TypeError in Ht].
      destruct (ToString host (Resultados.titulo_of _)) as [t|e0] eqn:Hti;
        cbn [mbind Result_bind rbind];
        [|intros [= <-]; by apply ToString_throws in Hti as [-> _]].
      destruct (Elastic.shown_if_truthy host (Resultados.anio_of _)) as [a|e0] eqn:Ha;
        cbn [mbind Result_bind rbind];
        [|intros [= <-]; by apply shown_if_truthy_TypeError in Ha].
      destruct (Elastic.shown_if_truthy host (Resultados.tipo_of _)) as [ti|e0] eqn:Hti';
        cbn [mbind Result_bind rbind];
        [|intros [= <-]; by apply shown_if_truthy_TypeError in Hti'].
      destruct (Elastic.shown_if_truthy host (Resultados.entidad_of _)) as [en|e0] eqn:Hen;
        cbn [mbind Result_bind rbind];
        [|intros [= <-]; by apply shown_if_truthy_TypeError in Hen].
      destruct (ToString host snippet) as [sn|e0] eqn:Hsn;
        cbn [mbind Result_bind rbind];
        [|intros [= <-]; by apply ToString_throws in Hsn as [-> _]].
      destruct (has_btn_detalle host _); [done | by intros [= <-]]. }
  split_and!.
  - exact Honly.
  - apply nullish_throws.
  - intros Hnull Hbad.
    destruct (Elastic.render_hit host hit index) as [item|e] eqn:Hr;
      [|by rewrite (Honly e eq_refl)].
    exfalso.
    apply nullish_spec in Hnull as [Hu Hn].
    rewrite (render_hit_steps host hit index Hu Hn) in Hr. cbv zeta in Hr.
    destruct (Elastic.truncar host _) as [snippet|e0];
      cbn [mbind Result_bind rbind] in Hr; [|done].
    destruct (ToString host (Resultados.titulo_of _)) as [t|e0] eqn:Hti;
      cbn [mbind Result_bind rbind] in Hr; [|done].
    destruct (Elastic.shown_if_truthy host (Resultados.anio_of _)) as [a|e0] eqn:Ha;
      cbn [mbind Result_bind rbind] in Hr; [|done].
    destruct (Elastic.shown_if_truthy host (Resultados.tipo_of _)) as [ti|e0] eqn:Hti';
      cbn [mbind Result_bind rbind] in Hr; [|done].
    destruct (Elastic.shown_if_truthy host (Resultados.entidad_of _)) as [en|e0] eqn:Hen;
      cbn [mbind Result_bind rbind] in Hr; [|done].
    apply ToString_Ok_stringable in Hti.
    apply shown_if_truthy_Ok in Ha, Hti', Hen.
    destruct Hbad as [Hb | [Hb | [Hb | Hb]]]; congruence.
  - intros Hnull Hsc.
    apply nullish_spec in Hnull as [Hu Hn].
    rewrite (render_hit_steps host hit index Hu Hn). cbv zeta.
    set (source := Resultados.source_of hit) in *.
    assert (Hti : scalar (Resultados.titulo_of source) = true).
    { unfold Resultados.titulo_of.
      repeat (apply js_or_scalar; [apply Hsc; set_solver|]). done. }
    assert (Ha : scalar (Resultados.anio_of source) = true).
    { unfold Resultados.anio_of.
      repeat (apply js_or_scalar; [apply Hsc; set_solver|]). done. }
    assert (Htp : scalar (Resultados.tipo_of source) = true).
    { unfold Resultados.tipo_of.
      repeat (apply js_or_scalar; [apply Hsc; set_solver|]). done. }
    assert (Hen : scalar (Resultados.entidad_of source) = true).
    { unfold Resultados.entidad_of.
      repeat (apply js_or_scalar; [apply Hsc; set_solver|]). done. }
    assert (Hsv : scalar (Resultados.snippet_value source) = true).
    { unfold Resultados.snippet_value.
      apply js_or_scalar; [|exact Hti].
      repeat (apply js_or_scalar; [apply Hsc; set_solver|]). done. }
    destruct (scalar_truncar host _ Hsv (snippet_value_truthy source))
      as (snippet & -> & Hsn).
    cbn [mbind Result_bind rbind].
    destruct (scalar_ToString host _ Hti) as [t Ht]. rewrite Ht.
    destruct (scalar_shown_if_truthy host _ Ha) as [a ->].
    destruct (scalar_shown_if_truthy host _ Htp) as [tp ->].
    destruct (scalar_shown_if_truthy host _ Hen) as [en ->].
    destruct (scalar_ToString host _ Hsn) as [sn ->].
    cbn [mbind Result_bind rbind].
    eexists. split_and!; [| | | reflexivity]; reflexivity.
Qed.

(** A text that opens a comment swallows the detail button; an object with
    a [toString] of its own cannot be shown at all. *)
Lemma render_hit_throws_witness :
  Elastic.render_hit Samples.host
    (Samples.objeto [(js "titulo", JStr (js "<!--"))]) 0 = Throw TypeError
  ∧ Elastic.render_hit Samples.host
      (Samples.objeto [(js "titulo", Ejemplos.sin_texto)]) 0 = Throw TypeError
  ∧ ∃ item, Elastic.render_hit Samples.host
              (Samples.objeto [(js "titulo", JStr (js "Ley 142"));
                               (js "anio", JNum 1994)]) 4 = Ok item
            ∧ hit_position item = 5.
Proof.
  split_and!.
  - destruct (render_hit_throws Samples.host
                (Samples.objeto [(js "titulo", JStr (js "<!--"))]) 0)
      as (_ & _ & _ & H).
    destruct (H eq_refl) as (item & _ & _ & Ht & ->).
    { intros k Hk.
      repeat (apply elem_of_cons in Hk as [->|Hk]; [by vm_compute|]).
      by apply elem_of_nil in Hk. }
    change (Ok (js "<!--") = Ok (hit_titulo item)) in Ht. injection Ht as Ht.
    cbn [has_btn_detalle Samples.host]. rewrite <- Ht. reflexivity.
  - destruct (render_hit_throws Samples.host
                (Samples.objeto [(js "titulo", Ejemplos.sin_texto)]) 0)
      as (_ & _ & H & _).
    apply H; [reflexivity|]. left. reflexivity.
  - destruct (render_hit_throws Samples.host
                (Samples.objeto [(js "titulo", JStr (js "Ley 142"));
                                 (js "anio", JNum 1994)]) 4)
      as (_ & _ & _ & H).
    destruct (H eq_refl) as (item & _ & Hp & _ & Hr).
    { intros k Hk.
      repeat (apply elem_of_cons in Hk as [->|Hk]; [by vm_compute|]).
      by apply elem_of_nil in Hk. }
    exists item. split; [|exact Hp].
    rewrite Hr.
    assert (Hb : has_btn_detalle Samples.host item = true).
    { destruct (Elastic.render_hit Samples.host _ 4) as [it|e] eqn:Hit;
        [|by vm_compute in Hit].
      destruct (has_btn_detalle Samples.host item); [done | discriminate Hr]. }
    by rewrite Hb.
Defined.

(** X4: the title of a rendered hit whose [titulo] and [nombre_archivo] are
    strings (or absent) is [titulo] when that is not empty, otherwise
    [nombre_archivo] when that is not empty, otherwise [Documento sin
    título]; it is never empty. *)
Theorem title_never_empty (host : Host) (hit : JsVal) (index : nat) (item : HitItem) :
  Elastic.render_hit host hit index = Ok item →
  Elastic.is_text (Elastic.get (hit_detalle item) (js "titulo")) = true →
  Elastic.is_text (Elastic.get (hit_detalle item) (js "nombre_archivo")) = true →
  hit_titulo item = Elastic.title_spec (hit_detalle item)
  ∧ hit_titulo item ≠ [].
Proof.
  intros H Ht Hn.
  destruct (render_hit_ok host hit index item H) as (_ & _ & Hd & _ & Hti & _).
  rewrite <- Hd in Hti.
  unfold Resultados.titulo_of in Hti.
  erewrite (js_or_text (Elastic.get (hit_detalle item) (js "titulo"))) in Hti;
    [| exact Ht |].
  2: { erewrite js_or_text; [reflexivity | exact Hn | reflexivity]. }
  cbn [ToString] in Hti. injection Hti as <-.
  unfold Elastic.title_spec, Elastic.title_fields. cbn [Elastic.first_text].
  split; [reflexivity|].
  destruct (Elastic.text_of (Elastic.get (hit_detalle item) (js "titulo")));
    [|done].
  destruct (Elastic.text_of (Elastic.get (hit_detalle item) (js "nombre_archivo")));
    [|done].
  by vm_compute.
Qed.

Lemma title_never_empty_witness :
  let hit := Samples.objeto [(js "titulo", JStr []);
                             (js "nombre_archivo", JStr (js "res_40.pdf"))] in
  ∃ item, Elastic.render_hit Samples.host hit 0 = Ok item
          ∧ hit_titulo item = js "res_40.pdf".
Proof.
  intros hit.
  destruct (Elastic.render_hit Samples.host hit 0) as [item|e] eqn:Hr;
    [|by vm_compute in Hr].
  exists item. split; [reflexivity|].
  assert (Hd : hit_detalle item = hit).
  { vm_compute in Hr. injection Hr as <-. vm_compute. reflexivity. }
  destruct (title_never_empty Samples.host hit 0 item Hr) as [Ht _].
  - rewrite Hd. reflexivity.
  - rewrite Hd. reflexivity.
  - rewrite Ht, Hd. reflexivity.
Defined.

(** ** The list of hits *)

Lemma elem_of_classList_add (t t' : jstring) (e : Element) :
  t' ∈ classes (classList_add t e) ↔ t' = t ∨ t' ∈ classes e.
Proof.
  unfold classList_add; simpl. case_bool_decide as Hin.
  - rewrite elem_of_token_set in *. split; [auto | intros [->|?]; done].
  - rewrite elem_of_app, elem_of_token_set, list_elem_of_singleton. tauto.
Qed.

Lemma elem_of_classList_remove (t t' : jstring) (e : Element) :
  t' ∈ classes (classList_remove t e) ↔ t' ≠ t ∧ t' ∈ classes e.
Proof.
  unfold classList_remove; simpl.
  by rewrite list_elem_of_filter, elem_of_token_set.
Qed.

(** The container after [appendChild] of each item in turn. *)
Lemma appended_foldl (items : list HitItem) (c : Element) :
  appended (foldl (λ c it, appendChild (ChildHit it) c) c items)
  = appended c ++ (ChildHit <$> items)
  ∧ markup (foldl (λ c it, appendChild (ChildHit it) c) c items) = markup c.
Proof.
  revert c. induction items as [|it items IH]; intros c; simpl.
  - by rewrite app_nil_r.
  - destruct (IH (appendChild (ChildHit it) c)) as [-> ->]. simpl.
    by rewrite <- app_assoc.
Qed.

Lemma forEach_hit_rendered (host : Host) (hits : list JsVal) (items : list HitItem)
    (i : nat) (b : Elastic.Buscador) :
  Resultados.rendered host i hits items →
  Elastic.forEach_hit host hits i b
  = (Elastic.with_container
       (λ c, foldl (λ c it, appendChild (ChildHit it) c) c items) b, Ok ()).
Proof.
  intros Hr. revert b. induction Hr as [i|i hit rest item items Hhit _ IH]; intros b.
  - by destruct b.
  - simpl. rewrite Hhit, IH. by destruct b.
Qed.

(** A hit that throws stops the loop; the items before it stay. *)
Lemma forEach_hit_partial (host : Host) (pre post : list JsVal) (bad : JsVal)
    (items : list HitItem) (i : nat) (e : Exn) (b : Elastic.Buscador) :
  Resultados.rendered host i pre items →
  Elastic.render_hit host bad (i + length pre) = Throw e →
  Elastic.forEach_hit host (pre ++ bad :: post) i b
  = (Elastic.with_container
       (λ c, foldl (λ c it, appendChild (ChildHit it) c) c items) b, Throw e).
Proof.
  intros Hr. revert b. induction Hr as [i|i hit rest item items Hhit _ IH];
    intros b Hbad; simpl in *.
  - rewrite Nat.add_0_r in Hbad. rewrite Hbad. by destruct b.
  - rewrite Hhit, IH; [by destruct b|].
    rewrite <- Hbad. f_equal. lia.
Qed.

Lemma rendered_positions (host : Host) (hits : list JsVal) (items : list HitItem)
    (i : nat) :
  Resultados.rendered host i hits items →
  hit_position <$> items = seq (i + 1) (length hits).
Proof.
  induction 1 as [i|i hit rest item items Hhit _ IH]; [done|].
  destruct (render_hit_ok host hit i item Hhit) as (_ & _ & _ & Hpos & _).
  rewrite fmap_cons, IH, Hpos. reflexivity.
Qed.

(** What the handler leaves when every hit of a successful response
    renders. *)
Lemma con_datos_rendered (host : Host) (data : JsVal) (hits : list JsVal)
    (items : list HitItem) (b : Elastic.Buscador) :
  field data (js "success") ≠ Ok (JBool false) →
  Elastic.extraerHits data = Ok hits →
  hits ≠ [] →
  Resultados.rendered host 0 hits items →
  ∃ total, Elastic.extraerTotal data hits = Ok total
    ∧ Elastic.con_datos host data b
      = Elastic.with_section (classList_remove (js "d-none"))
          (Elastic.with_container
             (λ c, foldl (λ c it, appendChild (ChildHit it) c) c items)
             (Elastic.with_total (set_textContent (Number_toString host total))
                (Elastic.with_container (set_innerHTML [])
                   (Elastic.set_ultimaBusqueda hits (Elastic.ocultarAlerta b))))).
Proof.
  intros Hs Hh Hne Hr.
  destruct (extraerHits_not_nullish _ _ Hh) as [Hu Hn].
  destruct (extraerTotal_ok data hits Hu Hn) as [total Ht].
  exists total. split; [exact Ht|].
  assert (Hren : ∀ b0, Elastic.renderResultados host data b0
    = (Elastic.with_section (classList_remove (js "d-none"))
         (Elastic.with_container
            (λ c, foldl (λ c it, appendChild (ChildHit it) c) c items)
            (Elastic.with_total (set_textContent (Number_toString host total))
               (Elastic.with_container (set_innerHTML [])
                  (Elastic.set_ultimaBusqueda hits b0)))), Ok ())).
  { intros b0. unfold Elastic.renderResultados. rewrite Hh, Ht.
    destruct hits as [|h0 rest]; [done|].
    by rewrite (forEach_hit_rendered host _ items 0 _ Hr). }
  unfold Elastic.con_datos. rewrite (field_get data) in * by done.
  destruct (Elastic.get data (js "success")) as [| |[|]| | | |];
    try (by rewrite Hren).
  done.
Qed.

(** X5: when the response is successful and every extracted hit renders,
    the results container holds exactly one item per hit, in the order of the
    hits and numbered from 1; the results section is visible, the counter
    shows the extracted total, [ultimaBusqueda] is the hit list, and the
    alert is emptied and hidden. This holds whatever else happened on the
    page while the request was outstanding. *)
Theorem search_renders_hits (host : Host) (b : Elastic.Buscador)
    (w : World Elastic.Buscador) (resp : Response) (data : JsVal)
    (hits : list JsVal) (items : list HitItem) :
  str_truthy (trim (value (Elastic.input b))) = true →
  net w (Elastic.peticion (trim (value (Elastic.input b)))) = Resolves resp →
  ok resp = true →
  payload resp = Ok data →
  field data (js "success") ≠ Ok (JBool false) →
  Elastic.extraerHits data = Ok hits →
  hits ≠ [] →
  Resultados.rendered host 0 hits items →
  ∃ b' total,
    outcome w 0 (task (Elastic.submit host b)) = (b', None)
    ∧ Elastic.extraerTotal data hits = Ok total
    ∧ markup (Elastic.resultadosContainer b') = Html []
    ∧ appended (Elastic.resultadosContainer b') = ChildHit <$> items
    ∧ length items = length hits
    ∧ hit_position <$> items = seq 1 (length hits)
    ∧ hidden (Elastic.resultadosSection b') = false
    ∧ markup (Elastic.totalResultadosSpan b') = Text (Number_toString host total)
    ∧ Elastic.ultimaBusqueda b' = hits
    ∧ markup (Elastic.alerta b') = Text []
    ∧ hidden (Elastic.alerta b') = true.
Proof.
  intros H Hnet Hok Hdata Hs Hh Hne Hr.
  rewrite (Elastic_outcome_datos host w b resp data H Hnet Hok Hdata).
  destruct (con_datos_rendered host data hits items
              (meanwhile w 1 (meanwhile w 0 (Elastic.en_espera b))) Hs Hh Hne Hr)
    as (total & Ht & ->).
  eexists _, total. split; [reflexivity|].
  pose proof (rendered_positions host hits items 0 Hr) as Hpos.
  split_and!; try done.
  - cbn [Elastic.resultadosContainer Elastic.with_section Elastic.with_container].
    by destruct (appended_foldl items
                   (set_innerHTML []
                      (Elastic.resultadosContainer
                         (Elastic.set_ultimaBusqueda hits
                            (Elastic.ocultarAlerta
                               (meanwhile w 1 (meanwhile w 0 (Elastic.en_espera b)))))))).
  - cbn [Elastic.resultadosContainer Elastic.with_section Elastic.with_container].
    by destruct (appended_foldl items
                   (set_innerHTML []
                      (Elastic.resultadosContainer
                         (Elastic.set_ultimaBusqueda hits
                            (Elastic.ocultarAlerta
                               (meanwhile w 1 (meanwhile w 0 (Elastic.en_espera b)))))))).
  - apply (f_equal length) in Hpos.
    by rewrite length_fmap, length_seq in Hpos.
  - apply has_class_remove.
Qed.

Lemma search_renders_hits_witness :
  let fin := (outcome (undisturbed (Samples.responde 200 Ejemplos.dos_hits)) 0
                (task (Elastic.submit Samples.host (Samples.buscador (js "decreto"))))).1 in
  (∃ i1 i2, appended (Elastic.resultadosContainer fin) = [ChildHit i1; ChildHit i2]
            ∧ hit_titulo i1 = js "Decreto 1073" ∧ hit_titulo i2 = js "res_40.pdf")
  ∧ hidden (Elastic.resultadosSection fin) = false.
Proof.
  intros fin.
  assert (Hr : ∃ i1 i2,
    Resultados.rendered Samples.host 0 (Elastic.hits_spec Ejemplos.dos_hits) [i1; i2]
    ∧ hit_titulo i1 = js "Decreto 1073" ∧ hit_titulo i2 = js "res_40.pdf").
  { eexists _, _. split.
    - apply Resultados.rendered_cons; [vm_compute; reflexivity|].
      apply Resultados.rendered_cons; [vm_compute; reflexivity|].
      apply Resultados.rendered_nil.
    - split; reflexivity. }
  destruct Hr as (i1 & i2 & Hr & H1 & H2).
  destruct (search_renders_hits Samples.host (Samples.buscador (js "decreto"))
              (undisturbed (Samples.responde 200 Ejemplos.dos_hits))
              {| status := 200; payload := Ok Ejemplos.dos_hits |}
              Ejemplos.dos_hits (Elastic.hits_spec Ejemplos.dos_hits) [i1; i2]
              eq_refl eq_refl eq_refl eq_refl
              ltac:(vm_compute; discriminate) eq_refl
              ltac:(vm_compute; discriminate) Hr)
    as (b' & total & Hout & _ & _ & Happ & _ & _ & Hvis & _).
  subst fin. rewrite Hout. cbn [fst]. split; [|exact Hvis].
  exists i1, i2. by rewrite Happ.
Defined.

(** X6: when a hit of a successful response throws while it is rendered
    (a [null] in the list, a hit whose title cannot be converted to a
    string, a hit whose texts swallow the detail button of its item), the
    loop stops there: the items of the hits
    before it stay in the container, none of the later hits is rendered, the
    results section stays hidden, [ultimaBusqueda] already is the new hit
    list, and the [catch] block logs the exception and shows the
    communication-error alert. *)
Theorem search_stops_at_bad_hit (host : Host) (b : Elastic.Buscador)
    (server : Request -> FetchResult) (resp : Response) (data : JsVal)
    (pre post : list JsVal) (bad : JsVal) (items : list HitItem) (e : Exn) :
  str_truthy (trim (value (Elastic.input b))) = true →
  server (Elastic.peticion (trim (value (Elastic.input b)))) = Resolves resp →
  ok resp = true →
  payload resp = Ok data →
  field data (js "success") ≠ Ok (JBool false) →
  Elastic.extraerHits data = Ok (pre ++ bad :: post) →
  Resultados.rendered host 0 pre items →
  Elastic.render_hit host bad (length pre) = Throw e →
  ∃ b',
    outcome (undisturbed server) 0 (task (Elastic.submit host b)) = (b', None)
    ∧ appended (Elastic.resultadosContainer b') = ChildHit <$> items
    ∧ hidden (Elastic.resultadosSection b') = true
    ∧ Elastic.ultimaBusqueda b' = pre ++ bad :: post
    ∧ markup (Elastic.alerta b') = Text (js "Error de comunicación con el servidor.")
    ∧ classes (Elastic.alerta b') = [js "alert"; js "alert-danger"; js "mx-auto"]
    ∧ Elastic.console b' = Elastic.console b ++ [e].
Proof.
  intros H Hnet Hok Hdata Hs Hh Hr Hbad.
  rewrite (Elastic_outcome_datos host (undisturbed server) b resp data H Hnet Hok Hdata).
  destruct (extraerHits_not_nullish _ _ Hh) as [Hu Hn].
  destruct (extraerTotal_ok data (pre ++ bad :: post) Hu Hn) as [total Ht].
  cbn [meanwhile undisturbed].
  assert (Hren : ∀ b0, Elastic.renderResultados host data b0
    = (Elastic.with_container
         (λ c, foldl (λ c it, appendChild (ChildHit it) c) c items)
         (Elastic.with_total (set_textContent (Number_toString host total))
            (Elastic.with_container (set_innerHTML [])
               (Elastic.set_ultimaBusqueda (pre ++ bad :: post) b0))), Throw e)).
  { intros b0. unfold Elastic.renderResultados. rewrite Hh, Ht.
    rewrite (forEach_hit_partial host pre post bad items 0 e _ Hr Hbad).
    by destruct pre. }
  assert (Hcon : Elastic.con_datos host data (Elastic.en_espera b)
    = Elastic.on_catch e
        (Elastic.with_container
           (λ c, foldl (λ c it, appendChild (ChildHit it) c) c items)
           (Elastic.with_total (set_textContent (Number_toString host total))
              (Elastic.with_container (set_innerHTML [])
                 (Elastic.set_ultimaBusqueda (pre ++ bad :: post)
                    (Elastic.ocultarAlerta (Elastic.en_espera b))))))).
  { unfold Elastic.con_datos. rewrite (field_get data) in * by done.
    destruct (Elastic.get data (js "success")) as [| |[|]| | | |];
      try (by rewrite Hren).
    done. }
  rewrite Hcon. eexists. split; [reflexivity|].
  split_and!; try done.
  - cbn [Elastic.resultadosContainer Elastic.on_catch Elastic.mostrarAlerta
         Elastic.with_alerta Elastic.console_error Elastic.with_container].
    by destruct (appended_foldl items
                   (set_innerHTML []
                      (Elastic.resultadosContainer
                         (Elastic.set_ultimaBusqueda (pre ++ bad :: post)
                            (Elastic.ocultarAlerta (Elastic.en_espera b)))))).
  - apply has_class_add.
Qed.

Lemma search_stops_at_bad_hit_witness :
  let fin d := (outcome (undisturbed (Samples.responde 200 d)) 0
                  (task (Elastic.submit Samples.host (Samples.buscador (js "decreto"))))).1 in
  (length (appended (Elastic.resultadosContainer (fin Ejemplos.hit_y_null))) = 1
   ∧ hidden (Elastic.resultadosSection (fin Ejemplos.hit_y_null)) = true
   ∧ Elastic.console (fin Ejemplos.hit_y_null) = [TypeError])
  ∧ (length (appended (Elastic.resultadosContainer (fin Ejemplos.hit_sin_texto))) = 1
     ∧ hidden (Elastic.resultadosSection (fin Ejemplos.hit_sin_texto)) = true
     ∧ Elastic.console (fin Ejemplos.hit_sin_texto) = [TypeError])
  ∧ (length (appended (Elastic.resultadosContainer (fin Ejemplos.hit_comentario))) = 1
     ∧ hidden (Elastic.resultadosSection (fin Ejemplos.hit_comentario)) = true
     ∧ Elastic.console (fin Ejemplos.hit_comentario) = [TypeError]).
Proof.
  intros fin.
  assert (Hr : ∃ i1,
    Resultados.rendered Samples.host 0
      [Samples.objeto [(js "titulo", JStr (js "Decreto 1073"))]] [i1]).
  { destruct (Elastic.render_hit Samples.host
                (Samples.objeto [(js "titulo", JStr (js "Decreto 1073"))]) 0)
      as [i1|e] eqn:H1; [|by vm_compute in H1].
    exists i1.
    apply Resultados.rendered_cons; [exact H1 | apply Resultados.rendered_nil]. }
  destruct Hr as (i1 & Hr).
  split; [|split].
  - destruct (search_stops_at_bad_hit Samples.host (Samples.buscador (js "decreto"))
                (Samples.responde 200 Ejemplos.hit_y_null)
                {| status := 200; payload := Ok Ejemplos.hit_y_null |}
                Ejemplos.hit_y_null
                [Samples.objeto [(js "titulo", JStr (js "Decreto 1073"))]]
                [Samples.objeto [(js "titulo", JStr (js "Ley 142"))]]
                JNull [i1] TypeError
                eq_refl eq_refl eq_refl eq_refl
                ltac:(vm_compute; discriminate) eq_refl Hr eq_refl)
      as (b' & Hout & Happ & Hhid & _ & _ & _ & Hcon).
    subst fin. cbv beta. rewrite Hout. cbn [fst]. rewrite Happ.
    split_and!; [reflexivity | exact Hhid | exact Hcon].
  - destruct (search_stops_at_bad_hit Samples.host (Samples.buscador (js "decreto"))
                (Samples.responde 200 Ejemplos.hit_sin_texto)
                {| status := 200; payload := Ok Ejemplos.hit_sin_texto |}
                Ejemplos.hit_sin_texto
                [Samples.objeto [(js "titulo", JStr (js "Decreto 1073"))]]
                [Samples.objeto [(js "titulo", JStr (js "Ley 142"))]]
                (Samples.objeto [(js "titulo", Ejemplos.sin_texto)]) [i1] TypeError
                eq_refl eq_refl eq_refl eq_refl
                ltac:(vm_compute; discriminate) eq_refl Hr eq_refl)
      as (b' & Hout & Happ & Hhid & _ & _ & _ & Hcon).
    subst fin. cbv beta. rewrite Hout. cbn [fst]. rewrite Happ.
    split_and!; [reflexivity | exact Hhid | exact Hcon].
  - destruct (search_stops_at_bad_hit Samples.host (Samples.buscador (js "decreto"))
                (Samples.responde 200 Ejemplos.hit_comentario)
                {| status := 200; payload := Ok Ejemplos.hit_comentario |}
                Ejemplos.hit_comentario
                [Samples.objeto [(js "titulo", JStr (js "Decreto 1073"))]]
                []
                (Samples.objeto [(js "titulo", JStr (js "<!--"))]) [i1] TypeError
                eq_refl eq_refl eq_refl eq_refl
                ltac:(vm_compute; discriminate) eq_refl Hr eq_refl)
      as (b' & Hout & Happ & Hhid & _ & _ & _ & Hcon).
    subst fin. cbv beta. rewrite Hout. cbn [fst]. rewrite Happ.
    split_and!; [reflexivity | exact Hhid | exact Hcon].
Defined.

(** ** Two searches at once *)

Lemma forEach_hit_input (host : Host) (hits : list JsVal) (i : nat)
    (b : Elastic.Buscador) :
  Elastic.input (Elastic.forEach_hit host hits i b).1 = Elastic.input b.
Proof.
  revert i b. induction hits as [|hit rest IH]; intros i b; simpl; [done|].
  destruct (Elastic.render_hit host hit i); [|done]. by rewrite IH.
Qed.

Lemma con_datos_input (host : Host) (data : JsVal) (b : Elastic.Buscador) :
  Elastic.input (Elastic.con_datos host data b) = Elastic.input b.
Proof.
  assert (Hren : ∀ b0, Elastic.input (Elastic.renderResultados host data b0).1
                       = Elastic.input b0).
  { intros b0. unfold Elastic.renderResultados.
    destruct (Elastic.extraerHits data) as [hits|]; [|done].
    destruct (Elastic.extraerTotal data hits); [|done].
    destruct hits as [|h0 rest]; [done|].
    set (b1 := Elastic.with_total _ _).
    pose proof (forEach_hit_input host (h0 :: rest) 0 b1) as Hin.
    by destruct (Elastic.forEach_hit host (h0 :: rest) 0 b1) as [b2 [[]|]]. }
  unfold Elastic.con_datos.
  destruct (field data (js "success")) as [[| |[|]| | | |]|]; try done;
    try (specialize (Hren (Elastic.ocultarAlerta b));
         by destruct (Elastic.renderResultados host data (Elastic.ocultarAlerta b))
           as [b2 [[]|]]).
  destruct (field data (js "error")); [|done].
  by destruct (ToString host _).
Qed.

(** The handler never touches the input. *)
Lemma Elastic_submit_input (host : Host) (server : Request -> FetchResult)
    (b : Elastic.Buscador) :
  Elastic.input (outcome (undisturbed server) 0 (task (Elastic.submit host b))).1
  = Elastic.input b.
Proof.
  unfold Elastic.submit. rewrite str_or_nil.
  destruct (str_truthy (trim (value (Elastic.input b)))); [|done].
  cbn [negb task outcome net meanwhile undisturbed].
  destruct (server _) as [resp|e]; [|done].
  unfold Elastic.con_respuesta. destruct (ok resp); [|done].
  cbn [negb outcome meanwhile undisturbed].
  destruct (payload resp) as [data|e]; [|done].
  cbn [outcome fst]. by rewrite con_datos_input.
Qed.

(** X7: nothing cancels a search that is still waiting. When a second
    search, for another text, is started and finished while the first waits
    for its response, the late response of the first search still replaces
    what the page shows: the container holds the items of the first search
    and [ultimaBusqueda] its hits, while the input holds the text of the
    second. *)
Theorem stale_response_overwrites (host : Host) (b : Elastic.Buscador)
    (serverA serverB : Request -> FetchResult) (vB : jstring)
    (resp : Response) (data : JsVal) (hits : list JsVal) (items : list HitItem) :
  let w := {| net := serverA;
              meanwhile := λ n, match n with
                                | 0 => Resultados.otra_busqueda host serverB vB
                                | S _ => λ s, s
                                end |} in
  str_truthy (trim (value (Elastic.input b))) = true →
  serverA (Elastic.peticion (trim (value (Elastic.input b)))) = Resolves resp →
  ok resp = true →
  payload resp = Ok data →
  field data (js "success") ≠ Ok (JBool false) →
  Elastic.extraerHits data = Ok hits →
  hits ≠ [] →
  Resultados.rendered host 0 hits items →
  ∃ b',
    outcome w 0 (task (Elastic.submit host b)) = (b', None)
    ∧ value (Elastic.input b') = vB
    ∧ appended (Elastic.resultadosContainer b') = ChildHit <$> items
    ∧ Elastic.ultimaBusqueda b' = hits
    ∧ hidden (Elastic.resultadosSection b') = false.
Proof.
  intros w H Hnet Hok Hdata Hs Hh Hne Hr.
  rewrite (Elastic_outcome_datos host w b resp data H Hnet Hok Hdata).
  destruct (con_datos_rendered host data hits items
              (meanwhile w 1 (meanwhile w 0 (Elastic.en_espera b))) Hs Hh Hne Hr)
    as (total & Ht & Hcon).
  eexists. split; [reflexivity|].
  split_and!.
  - rewrite con_datos_input. subst w. cbn [meanwhile].
    unfold Resultados.otra_busqueda. by rewrite Elastic_submit_input.
  - rewrite Hcon.
    cbn [Elastic.resultadosContainer Elastic.with_section Elastic.with_container].
    by destruct (appended_foldl items
                   (set_innerHTML []
                      (Elastic.resultadosContainer
                         (Elastic.set_ultimaBusqueda hits
                            (Elastic.ocultarAlerta
                               (meanwhile w 1 (meanwhile w 0 (Elastic.en_espera b)))))))).
  - by rewrite Hcon.
  - rewrite Hcon. apply has_class_remove.
Qed.

Lemma stale_response_overwrites_witness :
  let w := {| net := Samples.responde 200 Ejemplos.dos_hits;
              meanwhile := λ n, match n with
                                | 0 => Resultados.otra_busqueda Samples.host
                                         (Samples.responde 200 (Samples.objeto []))
                                         (js "ley 142")
                                | S _ => λ s, s
                                end |} in
  let fin := (outcome w 0
                (task (Elastic.submit Samples.host (Samples.buscador (js "decreto"))))).1 in
  value (Elastic.input fin) = js "ley 142"
  ∧ length (appended (Elastic.resultadosContainer fin)) = 2
  ∧ Elastic.ultimaBusqueda fin = Elastic.hits_spec Ejemplos.dos_hits.
Proof.
  intros w fin.
  assert (Hr : ∃ i1 i2,
    Resultados.rendered Samples.host 0 (Elastic.hits_spec Ejemplos.dos_hits) [i1; i2]).
  { eexists _, _.
    apply Resultados.rendered_cons; [vm_compute; reflexivity|].
    apply Resultados.rendered_cons; [vm_compute; reflexivity|].
    apply Resultados.rendered_nil. }
  destruct Hr as (i1 & i2 & Hr).
  destruct (stale_response_overwrites Samples.host (Samples.buscador (js "decreto"))
              (Samples.responde 200 Ejemplos.dos_hits)
              (Samples.responde 200 (Samples.objeto [])) (js "ley 142")
              {| status := 200; payload := Ok Ejemplos.dos_hits |}
              Ejemplos.dos_hits (Elastic.hits_spec Ejemplos.dos_hits) [i1; i2]
              eq_refl eq_refl eq_refl eq_refl
              ltac:(vm_compute; discriminate) eq_refl
              ltac:(vm_compute; discriminate) Hr)
    as (b' & Hout & Hin & Happ & Hult & _).
  subst fin w. rewrite Hout. cbn [fst]. rewrite Happ.
  split_and!; [exact Hin | reflexivity | exact Hult].
Defined.

(** ** The detail pane *)

Lemma Detalle_click_hidden (it : Detalle.Item) :
  hidden (Detalle.detalleDiv (Detalle.click it))
  = negb (hidden (Detalle.detalleDiv it)).
Proof.
  unfold Detalle.click, hidden.
  destruct (has_class (js "d-none") (Detalle.detalleDiv it)) eqn:Hh;
    cbn [Detalle.detalleDiv negb].
  - apply has_class_remove.
  - apply has_class_add.
Qed.

Lemma Detalle_click_label (it : Detalle.Item) :
  markup (Detalle.btnDetalle (Detalle.click it))
  = Text (if hidden (Detalle.detalleDiv (Detalle.click it))
          then js "Ver detalle" else js "Ocultar detalle").
Proof.
  rewrite Detalle_click_hidden. unfold Detalle.click, hidden.
  by destruct (has_class (js "d-none") (Detalle.detalleDiv it)).
Qed.

Lemma Detalle_click_classes (it : Detalle.Item) (t : jstring) :
  t ≠ js "d-none" →
  t ∈ classes (Detalle.detalleDiv (Detalle.click it))
  ↔ t ∈ classes (Detalle.detalleDiv it).
Proof.
  intros Ht. unfold Detalle.click.
  destruct (has_class (js "d-none") (Detalle.detalleDiv it));
    cbn [Detalle.detalleDiv].
  - rewrite elem_of_classList_remove. tauto.
  - rewrite elem_of_classList_add. tauto.
Qed.

(** X8: each click on [Ver detalle] flips the detail pane: after [n] clicks
    it is hidden exactly when it was hidden at first and [n] is even, or
    visible at first and [n] is odd; from the first click on the button reads
    [Ver detalle] when the pane is hidden and [Ocultar detalle] when it is
    shown; and no other class of the pane changes. *)
Theorem detalle_toggle (it : Detalle.Item) (n : nat) :
  hidden (Detalle.detalleDiv (Detalle.clicks n it))
  = xorb (Nat.odd n) (hidden (Detalle.detalleDiv it))
  ∧ (0 < n →
     markup (Detalle.btnDetalle (Detalle.clicks n it))
     = Text (if hidden (Detalle.detalleDiv (Detalle.clicks n it))
             then js "Ver detalle" else js "Ocultar detalle"))
  ∧ (∀ t, t ≠ js "d-none" →
          t ∈ classes (Detalle.detalleDiv (Detalle.clicks n it))
          ↔ t ∈ classes (Detalle.detalleDiv it)).
Proof.
  induction n as [|n (IHh & _ & IHc)].
  - split_and!; [done | lia | done].
  - change (Detalle.clicks (S n) it) with (Detalle.click (Detalle.clicks n it)).
    split_and!.
    + rewrite Detalle_click_hidden, IHh, Nat.odd_succ, <- Nat.negb_odd.
      by destruct (Nat.odd n), (hidden (Detalle.detalleDiv it)).
    + intros _. apply Detalle_click_label.
    + intros t Ht. rewrite Detalle_click_classes by done. by apply IHc.
Qed.

Lemma detalle_toggle_witness :
  hidden (Detalle.detalleDiv (Detalle.clicks 3 Ejemplos.detalle)) = false
  ∧ markup (Detalle.btnDetalle (Detalle.clicks 3 Ejemplos.detalle))
    = Text (js "Ocultar detalle")
  ∧ hidden (Detalle.detalleDiv (Detalle.clicks 4 Ejemplos.detalle)) = true.
Proof.
  destruct (detalle_toggle Ejemplos.detalle 3) as (H3 & L3 & _).
  destruct (detalle_toggle Ejemplos.detalle 4) as (H4 & _ & _).
  split_and!.
  - rewrite H3. reflexivity.
  - rewrite (L3 ltac:(lia)), H3. reflexivity.
  - rewrite H4. reflexivity.
Defined.

(** ** The documents of [/buscar] *)

(** The callback of [/buscar] on a document that is not [null] or
    [undefined]: the property reads cannot fail, the five conversions
    can. *)
Lemma render_doc_steps (host : Host) (doc : JsVal) :
  Resultados.nullish doc = false →
  Buscar.render_doc host doc
  = (href ← ToString host (js_or (Elastic.get doc (js "url")) (JStr (js "#")));
     titulo ← ToString host (js_or (Elastic.get doc (js "titulo"))
                               (JStr (js "Documento sin título")));
     fecha ← ToString host (js_or (Elastic.get doc (js "fecha")) (JStr []));
     resumen ← ToString host (js_or (Elastic.get doc (js "resumen")) (JStr []));
     fuente ← ToString host (js_or (Elastic.get doc (js "fuente")) (JStr []));
     Ok {| doc_href := usv href;
           doc_target := if truthy (Elastic.get doc (js "url"))
                         then js "_blank" else js "_self";
           doc_titulo := titulo;
           doc_fecha := fecha;
           doc_resumen := resumen;
           doc_fuente := fuente |}).
Proof.
  intros H. apply nullish_spec in H as [Hu Hn]. unfold Buscar.render_doc.
  rewrite !(field_get doc) by done. reflexivity.
Qed.

(** One shown field: the conversion of [v || d] returns exactly when [v]
    is stringable. *)
Lemma shown_field (host : Host) (v : JsVal) (d : jstring) :
  if stringable v then ∃ s, ToString host (js_or v (JStr d)) = Ok s
  else ToString host (js_or v (JStr d)) = Throw TypeError.
Proof.
  pose proof (ToString_stringable host (js_or v (JStr d))) as H.
  by rewrite (js_or_stringable v (JStr d) eq_refl) in H.
Qed.

(** A document is rendered, or one of its shown fields cannot be
    converted. *)
Lemma render_doc_cases (host : Host) (doc : JsVal) :
  Resultados.nullish doc = false →
  (∃ k, k ∈ Enlaces.doc_fields ∧ stringable (Elastic.get doc k) = false
        ∧ Buscar.render_doc host doc = Throw TypeError)
  ∨ ((∀ k, k ∈ Enlaces.doc_fields → stringable (Elastic.get doc k) = true)
     ∧ ∃ l href, Buscar.render_doc host doc = Ok l
         ∧ ToString host (js_or (Elastic.get doc (js "url")) (JStr (js "#")))
           = Ok href
         ∧ doc_href l = usv href
         ∧ doc_target l = (if truthy (Elastic.get doc (js "url"))
                           then js "_blank" else js "_self")
         ∧ ToString host (js_or (Elastic.get doc (js "titulo"))
                            (JStr (js "Documento sin título")))
           = Ok (doc_titulo l)).
Proof.
  intros Hnull. rewrite (render_doc_steps host doc Hnull).
  pose proof (shown_field host (Elastic.get doc (js "url")) (js "#")) as H1.
  pose proof (shown_field host (Elastic.get doc (js "titulo"))
                (js "Documento sin título")) as H2.
  pose proof (shown_field host (Elastic.get doc (js "fecha")) []) as H3.
  pose proof (shown_field host (Elastic.get doc (js "resumen")) []) as H4.
  pose proof (shown_field host (Elastic.get doc (js "fuente")) []) as H5.
  destruct (stringable (Elastic.get doc (js "url"))) eqn:S1.
  2: { left. exists (js "url"). rewrite H1. split_and!; [set_solver | done | done]. }
  destruct H1 as [s1 H1]. rewrite H1. cbn [mbind Result_bind rbind].
  destruct (stringable (Elastic.get doc (js "titulo"))) eqn:S2.
  2: { left. exists (js "titulo"). rewrite H2. split_and!; [set_solver | done | done]. }
  destruct H2 as [s2 H2]. rewrite H2. cbn [mbind Result_bind rbind].
  destruct (stringable (Elastic.get doc (js "fecha"))) eqn:S3.
  2: { left. exists (js "fecha"). rewrite H3. split_and!; [set_solver | done | done]. }
  destruct H3 as [s3 H3]. rewrite H3. cbn [mbind Result_bind rbind].
  destruct (stringable (Elastic.get doc (js "resumen"))) eqn:S4.
  2: { left. exists (js "resumen"). rewrite H4. split_and!; [set_solver | done | done]. }
  destruct H4 as [s4 H4]. rewrite H4. cbn [mbind Result_bind rbind].
  destruct (stringable (Elastic.get doc (js "fuente"))) eqn:S5.
  2: { left. exists (js "fuente"). rewrite H5. split_and!; [set_solver | done | done]. }
  destruct H5 as [s5 H5]. rewrite H5. cbn [mbind Result_bind rbind].
  right. split.
  - intros k Hk.
    repeat (apply elem_of_cons in Hk as [->|Hk]; [done|]).
    by apply elem_of_nil in Hk.
  - eexists _, _. split; [reflexivity|]. done.
Qed.

(** The [href] setter leaves a text without surrogates as it is. *)
Lemma usv_plain (s : jstring) :
  Forall (λ c, is_high_surrogate c = false ∧ is_low_surrogate c = false) s →
  usv s = s.
Proof.
  induction 1 as [|c s [Hh Hl] _ IH]; [done|].
  cbn [usv]. by rewrite Hh, Hl, IH.
Qed.

(** X9: [render_doc] throws nothing but a [TypeError], and it throws
    exactly on a document that is [null] or [undefined] and on one whose
    [url], [titulo], [fecha], [resumen] or [fuente] cannot be converted to a
    string (an object with a [toString] of its own, or an array holding
    one). Of any other document it makes a link: to [#] in the same tab when
    [url] is missing or empty, to the [url] in a new tab when it is a string
    that is not empty (as the [href] setter converts it: as it is when it
    holds no surrogate); and a missing or empty [titulo] reads [Documento
    sin título]. *)
Theorem render_doc_link (host : Host) (doc : JsVal) :
  (∀ e, Buscar.render_doc host doc = Throw e
        ↔ e = TypeError
          ∧ (Resultados.nullish doc = true
             ∨ ∃ k, k ∈ Enlaces.doc_fields
                    ∧ stringable (Elastic.get doc k) = false))
  ∧ (Resultados.nullish doc = false →
     (∀ k, k ∈ Enlaces.doc_fields → stringable (Elastic.get doc k) = true) →
     ∃ l, Buscar.render_doc host doc = Ok l)
  ∧ (∀ l, Buscar.render_doc host doc = Ok l →
       (truthy (Elastic.get doc (js "url")) = false →
        doc_href l = js "#" ∧ doc_target l = js "_self")
       ∧ (∀ s, Elastic.get doc (js "url") = JStr s → s ≠ [] →
               doc_href l = usv s
               ∧ (Forall (λ c, is_high_surrogate c = false
                               ∧ is_low_surrogate c = false) s →
                  doc_href l = s)
               ∧ doc_target l = js "_blank")
       ∧ (truthy (Elastic.get doc (js "titulo")) = false →
          doc_titulo l = js "Documento sin título")
       ∧ (∀ s, Elastic.get doc (js "titulo") = JStr s → s ≠ [] → doc_titulo l = s)).
Proof.
  destruct (Resultados.nullish doc) eqn:Hnull.
  - assert (H : Buscar.render_doc host doc = Throw TypeError) by (by destruct doc).
    rewrite H. split_and!.
    + intros e. split; [intros [= <-]; auto | by intros [-> _]].
    + done.
    + done.
  - destruct (render_doc_cases host doc Hnull)
      as [(k & Hk & Hbad & Hr) | (Hall & l & href & Hr & Hh & Hhref & Ht & Hti)];
      rewrite Hr.
    + split_and!.
      * intros e. split; [intros [= <-]; eauto | by intros [-> _]].
      * intros _ Hall. specialize (Hall k Hk). congruence.
      * done.
    + split_and!.
      * intros e. split; [done|].
        intros [_ [? | (k & Hk & Hbad)]]; [done|].
        specialize (Hall k Hk). congruence.
      * intros _ _. by exists l.
      * intros l' [= <-]. unfold js_or in Hh, Hti. split_and!.
        -- intros Hu. rewrite Hu in Hh, Ht. injection Hh as <-.
           split; [exact Hhref | exact Ht].
        -- intros s Hs Hne. rewrite Hs in Hh, Ht.
           destruct s as [|c s]; [done|]. injection Hh as <-.
           split_and!; [exact Hhref | | exact Ht].
           intros Hplain. by rewrite Hhref, usv_plain.
        -- intros Hu. rewrite Hu in Hti. by injection Hti as <-.
        -- intros s Hs Hne. rewrite Hs in Hti.
           destruct s; [done|]. by injection Hti as <-.
Qed.

Lemma render_doc_link_witness :
  (∃ l, Buscar.render_doc Samples.host
          (Samples.objeto [(js "titulo", JStr (js "Ley 142"))]) = Ok l
        ∧ doc_href l = js "#" ∧ doc_target l = js "_self")
  ∧ (∃ l, Buscar.render_doc Samples.host
            (Samples.objeto [(js "url", JStr (js "/docs/ley142.pdf"))]) = Ok l
          ∧ doc_href l = js "/docs/ley142.pdf" ∧ doc_target l = js "_blank")
  ∧ Buscar.render_doc Samples.host
      (Samples.objeto [(js "titulo", Ejemplos.sin_texto)]) = Throw TypeError.
Proof.
  destruct (render_doc_link Samples.host
              (Samples.objeto [(js "titulo", JStr (js "Ley 142"))]))
    as (_ & E1 & H1).
  destruct (render_doc_link Samples.host
              (Samples.objeto [(js "url", JStr (js "/docs/ley142.pdf"))]))
    as (_ & E2 & H2).
  destruct (render_doc_link Samples.host
              (Samples.objeto [(js "titulo", Ejemplos.sin_texto)]))
    as (H3 & _ & _).
  split_and!.
  - destruct (E1 eq_refl) as [l1 Hr1].
    { intros k Hk.
      repeat (apply elem_of_cons in Hk as [->|Hk]; [by vm_compute|]).
      by apply elem_of_nil in Hk. }
    destruct (H1 l1 Hr1) as (Hno & _).
    exists l1. split; [exact Hr1 | exact (Hno eq_refl)].
  - destruct (E2 eq_refl) as [l2 Hr2].
    { intros k Hk.
      repeat (apply elem_of_cons in Hk as [->|Hk]; [by vm_compute|]).
      by apply elem_of_nil in Hk. }
    destruct (H2 l2 Hr2) as (_ & Hurl & _).
    exists l2. split; [exact Hr2|].
    destruct (Hurl (js "/docs/ley142.pdf") eq_refl ltac:(discriminate))
      as (Hhref & _ & Htarget).
    split; [exact Hhref | exact Htarget].
  - apply H3. split; [reflexivity|]. right.
    exists (js "titulo"). split; [|reflexivity].
    apply elem_of_cons; right. apply elem_of_cons; by left.
Defined.

Lemma appended_foldl_docs (links : list DocLink) (c : Element) :
  appended (foldl (λ c l, appendChild (ChildDoc l) c) c links)
  = appended c ++ (ChildDoc <$> links)
  ∧ markup (foldl (λ c l, appendChild (ChildDoc l) c) c links) = markup c
  ∧ classes (foldl (λ c l, appendChild (ChildDoc l) c) c links) = classes c.
Proof.
  revert c. induction links as [|l links IH]; intros c; simpl.
  - by rewrite app_nil_r.
  - destruct (IH (appendChild (ChildDoc l) c)) as (-> & -> & ->).
    simpl. by rewrite <- app_assoc.
Qed.

(** The loop over documents that all render. *)
Lemma forEach_doc_ok (host : Host) (docs : list JsVal) (links : list DocLink)
    (c : jstring) (p : Buscar.Page) :
  Enlaces.enlazados host docs links →
  let r := Buscar.forEach_doc host docs c p in
  r.2 = Ok ()
  ∧ Buscar.document r.1 !! c
    = (λ e, foldl (λ e l, appendChild (ChildDoc l) e) e links)
      <$> Buscar.document p !! c
  ∧ (∀ id, id ≠ c → Buscar.document r.1 !! id = Buscar.document p !! id)
  ∧ Buscar.console r.1 = Buscar.console p.
Proof.
  intros Hall. revert p. induction Hall as [|d l docs links Hd _ IH]; intros p; simpl.
  - split_and!; try done. by destruct (Buscar.document p !! c).
  - rewrite Hd.
    destruct (IH (Buscar.with_document (alter (appendChild (ChildDoc l)) c) p))
      as (H1 & H2 & H3 & H4).
    split_and!.
    + exact H1.
    + rewrite H2. simpl. rewrite lookup_alter_eq.
      by destruct (Buscar.document p !! c).
    + intros id Hid. rewrite (H3 id Hid). simpl. by rewrite lookup_alter_ne.
    + by rewrite H4.
Qed.

(** The loop stopped by a document that throws. *)
Lemma forEach_doc_partial (host : Host) (pre post : list JsVal) (bad : JsVal)
    (links : list DocLink) (e : Exn) (c : jstring) (p : Buscar.Page) :
  Enlaces.enlazados host pre links →
  Buscar.render_doc host bad = Throw e →
  let r := Buscar.forEach_doc host (pre ++ bad :: post) c p in
  r.2 = Throw e
  ∧ Buscar.document r.1 !! c
    = (λ e, foldl (λ e l, appendChild (ChildDoc l) e) e links)
      <$> Buscar.document p !! c
  ∧ (∀ id, id ≠ c → Buscar.document r.1 !! id = Buscar.document p !! id)
  ∧ Buscar.console r.1 = Buscar.console p.
Proof.
  intros Hall Hbad. revert p. induction Hall as [|d l docs links Hd _ IH]; intros p; simpl.
  - rewrite Hbad. simpl. split_and!; try done. by destruct (Buscar.document p !! c).
  - rewrite Hd.
    destruct (IH (Buscar.with_document (alter (appendChild (ChildDoc l)) c) p))
      as (H1 & H2 & H3 & H4).
    split_and!.
    + exact H1.
    + rewrite H2. simpl. rewrite lookup_alter_eq.
      by destruct (Buscar.document p !! c).
    + intros id Hid. rewrite (H3 id Hid). simpl. by rewrite lookup_alter_ne.
    + by rewrite H4.
Qed.

(** The outcome of a search of [/buscar] whose response is 2xx JSON. *)
Lemma Buscar_outcome_datos (host : Host) (server : Request -> FetchResult)
    (p : Buscar.Page) (q : jstring) (resp : Response) (data : JsVal) :
  Enlaces.lista p q →
  server (Buscar.peticion q) = Resolves resp →
  ok resp = true →
  payload resp = Ok data →
  let alerta := Buscar.getElementById (js "alerta-busqueda") p in
  outcome (undisturbed server) 0 (task (Buscar.submit host p))
  = (Buscar.con_datos host alerta (js "resultados-section") (js "resultados-container")
       data
       (Buscar.en_espera alerta (js "resultados-section")
          (js "resultados-container") p), None).
Proof.
  intros ((i & Hi & <- & Hq) & Hs & Hc) Hnet Hok Hdata.
  rewrite (Buscar_outcome_submit host server p i Hi Hq Hs Hc).
  cbv zeta. rewrite Hnet. unfold Buscar.con_respuesta. rewrite Hok.
  cbn [negb outcome meanwhile undisturbed]. by rewrite Hdata.
Qed.

(** X10: when the response of [/buscar] is 2xx JSON without a [resultados]
    array, or with an empty one, the alert shows the warning [No se
    encontraron documentos para esa búsqueda.], the results section stays
    hidden and the container stays empty. *)
Theorem buscar_no_documents (host : Host) (server : Request -> FetchResult)
    (p : Buscar.Page) (q : jstring) (a : Element) (resp : Response) (data : JsVal) :
  Enlaces.lista p q →
  Buscar.document p !! js "alerta-busqueda" = Some a →
  server (Buscar.peticion q) = Resolves resp →
  ok resp = true →
  payload resp = Ok data →
  Resultados.nullish data = false →
  as_array (Elastic.get data (js "resultados")) = None
  ∨ as_array (Elastic.get data (js "resultados")) = Some [] →
  ∃ p' a' s' c',
    outcome (undisturbed server) 0 (task (Buscar.submit host p)) = (p', None)
    ∧ Buscar.document p' !! js "alerta-busqueda" = Some a'
    ∧ Buscar.document p' !! js "resultados-section" = Some s'
    ∧ Buscar.document p' !! js "resultados-container" = Some c'
    ∧ markup a' = Text (js "No se encontraron documentos para esa búsqueda.")
    ∧ classes a' = [js "alert"; js "alert-warning"]
    ∧ hidden s' = true
    ∧ shows_nothing c'.
Proof.
  intros Hl Ha Hnet Hok Hdata Hnull Hres.
  rewrite (Buscar_outcome_datos host server p q resp data Hl Hnet Hok Hdata).
  destruct Hl as (_ & [s Hs] & [c Hc]).
  destruct (Buscar_en_espera_lookup _ p s c eq_refl Hs Hc) as (Hs' & Hc' & Ha' & _).
  destruct (Ha' ltac:(by eexists)) as [a0 Ha0].
  rewrite (Buscar_getElementById_Some (js "alerta-busqueda") p) in * by by eexists.
  apply nullish_spec in Hnull as [Hu Hn].
  set (q0 := Buscar.en_espera _ _ _ p) in *.
  assert (Hcon : Buscar.con_datos host (Some (js "alerta-busqueda"))
                   (js "resultados-section") (js "resultados-container") data q0
                 = Buscar.mostrarAlerta (Some (js "alerta-busqueda"))
                     (js "No se encontraron documentos para esa búsqueda.")
                     (js "warning") q0).
  { unfold Buscar.con_datos. rewrite (field_get data) by done.
    by destruct Hres as [-> | ->]. }
  rewrite Hcon.
  destruct (Buscar_mostrarAlerta_lookup (js "alerta-busqueda")
              (js "No se encontraron documentos para esa búsqueda.") (js "warning")
              q0 a0 Ha0) as (a' & Hla & Hma & Hca).
  eexists. exists a', (classList_add (js "d-none") s), (set_innerHTML [] c).
  split; [reflexivity|]. split_and!.
  - exact Hla.
  - rewrite Buscar_mostrarAlerta_other; [exact Hs'|]. ids_differ.
  - rewrite Buscar_mostrarAlerta_other; [exact Hc'|]. ids_differ.
  - exact Hma.
  - rewrite Hca. reflexivity.
  - apply has_class_add.
  - split; [by left | done].
Qed.

Lemma buscar_no_documents_witness :
  let fin := (outcome (undisturbed (Samples.responde 200 (Samples.objeto []))) 0
                (task (Buscar.submit Samples.host (Samples.pagina (js "ley 142"))))).1 in
  (markup <$> Buscar.document fin !! js "alerta-busqueda")
  = Some (Text (js "No se encontraron documentos para esa búsqueda.")).
Proof.
  intros fin.
  destruct (buscar_no_documents Samples.host
              (Samples.responde 200 (Samples.objeto []))
              (Samples.pagina (js "ley 142")) (js "ley 142")
              (Samples.elemento [] (js "alert d-none"))
              {| status := 200; payload := Ok (Samples.objeto []) |}
              (Samples.objeto []))
    as (p' & a' & s' & c' & Hout & Hla & _ & _ & Hm & _).
  - split; [|split; eexists; reflexivity].
    eexists. split; [reflexivity|]. split; reflexivity.
  - reflexivity.
  - reflexivity.
  - reflexivity.
  - reflexivity.
  - reflexivity.
  - left. reflexivity.
  - subst fin. rewrite Hout. cbn [fst]. rewrite Hla. cbn. by rewrite Hm.
Defined.

(** The page of [/buscar] after the loop over the documents, seen through
    its three elements. *)
Lemma Buscar_con_datos_docs (host : Host) (p : Buscar.Page) (a s c : Element)
    (data : JsVal) (docs : list JsVal) (shown : list DocLink) (r : Result unit) :
  Buscar.document p !! js "alerta-busqueda" = Some a →
  Buscar.document p !! js "resultados-section" = Some s →
  Buscar.document p !! js "resultados-container" = Some c →
  as_array (Elastic.get data (js "resultados")) = Some docs →
  docs ≠ [] →
  (∀ p0 : Buscar.Page,
     let l := Buscar.forEach_doc host docs (js "resultados-container") p0 in
     l.2 = r
     ∧ Buscar.document l.1 !! js "resultados-container"
       = (λ e, foldl (λ e l, appendChild (ChildDoc l) e) e shown)
         <$> Buscar.document p0 !! js "resultados-container"
     ∧ (∀ id, id ≠ js "resultados-container" →
              Buscar.document l.1 !! id = Buscar.document p0 !! id)
     ∧ Buscar.console l.1 = Buscar.console p0) →
  let alerta := Buscar.getElementById (js "alerta-busqueda") p in
  let p' := Buscar.con_datos host alerta (js "resultados-section")
              (js "resultados-container") data
              (Buscar.en_espera alerta (js "resultados-section")
                 (js "resultados-container") p) in
  ∃ a' s' c',
    Buscar.document p' !! js "alerta-busqueda" = Some a'
    ∧ Buscar.document p' !! js "resultados-section" = Some s'
    ∧ Buscar.document p' !! js "resultados-container" = Some c'
    ∧ markup c' = Html []
    ∧ appended c' = ChildDoc <$> shown
    ∧ match r with
      | Ok _ =>
          hidden s' = false
          ∧ markup a' = Text (js "Se encontraron " ++ decimal (N.of_nat (length docs))
                              ++ js " documentos.")
          ∧ classes a' = [js "alert"; js "alert-success"]
          ∧ Buscar.console p' = Buscar.console p
      | Throw e =>
          hidden s' = true
          ∧ markup a' = Text (js "Error de comunicación con el servidor.")
          ∧ classes a' = [js "alert"; js "alert-danger"]
          ∧ Buscar.console p' = Buscar.console p ++ [e]
      end.
Proof.
  intros Ha Hs Hc Hres Hne Hloop alerta p'. subst alerta p'.
  destruct (Buscar_en_espera_lookup _ p s c eq_refl Hs Hc) as (Hs' & Hc' & Ha' & Hl').
  destruct (Ha' ltac:(by eexists)) as [a0 Ha0].
  rewrite (Buscar_getElementById_Some (js "alerta-busqueda") p) in * by by eexists.
  set (q0 := Buscar.en_espera _ _ _ p) in *.
  assert (Hdata : data ≠ JUndefined ∧ data ≠ JNull) by (by destruct data).
  destruct Hdata as [Hu Hn].
  unfold Buscar.con_datos. rewrite (field_get data) by done. rewrite Hres.
  destruct docs as [|d0 rest]; [done|].
  set (q1 := Buscar.with_document _ q0).
  destruct (Hloop q1) as (Hr & Hlc & Hlo & Hlcon).
  destruct (Buscar.forEach_doc host (d0 :: rest) (js "resultados-container") q1)
    as [q2 r2] eqn:Hfe.
  cbn [fst snd] in *. subst r2.
  assert (Hq2a : Buscar.document q2 !! js "alerta-busqueda" = Some a0).
  { rewrite Hlo by ids_differ. subst q1. cbn [Buscar.document Buscar.with_document].
    by rewrite lookup_alter_ne by ids_differ. }
  assert (Hq2s : Buscar.document q2 !! js "resultados-section"
                 = Some (classList_add (js "d-none") s)).
  { rewrite Hlo by ids_differ. subst q1. cbn [Buscar.document Buscar.with_document].
    by rewrite lookup_alter_ne by ids_differ. }
  assert (Hq2c : Buscar.document q2 !! js "resultados-container"
                 = Some (foldl (λ e l, appendChild (ChildDoc l) e)
                           (set_innerHTML [] (set_innerHTML [] c)) shown)).
  { rewrite Hlc. subst q1. cbn [Buscar.document Buscar.with_document].
    by rewrite lookup_alter_eq, Hc'. }
  destruct (appended_foldl_docs shown (set_innerHTML [] (set_innerHTML [] c)))
    as (Happ & Hmk & _).
  destruct r as [[]|e].
  - set (q3 := Buscar.with_document _ q2).
    assert (Hq3a : Buscar.document q3 !! js "alerta-busqueda" = Some a0).
    { subst q3. cbn [Buscar.document Buscar.with_document].
      by rewrite lookup_alter_ne by ids_differ. }
    destruct (Buscar_mostrarAlerta_lookup (js "alerta-busqueda")
                (js "Se encontraron "
                 ++ decimal (N.of_nat (length (d0 :: rest))) ++ js " documentos.")
                (js "success") q3 a0 Hq3a) as (a' & Hla & Hma & Hca).
    eexists a', _, _. split_and!.
    + exact Hla.
    + rewrite Buscar_mostrarAlerta_other by ids_differ.
      subst q3. cbn [Buscar.document Buscar.with_document].
      rewrite lookup_alter_eq, Hq2s. reflexivity.
    + rewrite Buscar_mostrarAlerta_other by ids_differ.
      subst q3. cbn [Buscar.document Buscar.with_document].
      rewrite lookup_alter_ne by ids_differ. exact Hq2c.
    + exact Hmk.
    + exact Happ.
    + apply has_class_remove.
    + exact Hma.
    + rewrite Hca. reflexivity.
    + cbn. by rewrite Hlcon, <- Hl'.
  - unfold Buscar.on_catch.
    set (q3 := Buscar.console_error e q2).
    destruct (Buscar_mostrarAlerta_lookup (js "alerta-busqueda")
                (js "Error de comunicación con el servidor.") (js "danger")
                q3 a0 Hq2a) as (a' & Hla & Hma & Hca).
    eexists a', _, _. split_and!.
    + exact Hla.
    + rewrite Buscar_mostrarAlerta_other by ids_differ. exact Hq2s.
    + rewrite Buscar_mostrarAlerta_other by ids_differ. exact Hq2c.
    + exact Hmk.
    + exact Happ.
    + apply has_class_add.
    + exact Hma.
    + rewrite Hca. reflexivity.
    + cbn. by rewrite Hlcon, <- Hl'.
Qed.

(** X11: when the response of [/buscar] is 2xx JSON with a [resultados]
    array that is not empty and every document of it renders (X9 says which
    do), the container holds exactly one link per document, in order; the
    results section is visible and the alert reads [Se encontraron N
    documentos.] with N the number of documents, as a success alert. *)
Theorem buscar_renders_documents (host : Host) (server : Request -> FetchResult)
    (p : Buscar.Page) (q : jstring) (a : Element) (resp : Response)
    (data : JsVal) (docs : list JsVal) (links : list DocLink) :
  Enlaces.lista p q →
  Buscar.document p !! js "alerta-busqueda" = Some a →
  server (Buscar.peticion q) = Resolves resp →
  ok resp = true →
  payload resp = Ok data →
  as_array (Elastic.get data (js "resultados")) = Some docs →
  docs ≠ [] →
  Enlaces.enlazados host docs links →
  ∃ p' a' s' c',
    outcome (undisturbed server) 0 (task (Buscar.submit host p)) = (p', None)
    ∧ Buscar.document p' !! js "alerta-busqueda" = Some a'
    ∧ Buscar.document p' !! js "resultados-section" = Some s'
    ∧ Buscar.document p' !! js "resultados-container" = Some c'
    ∧ markup c' = Html []
    ∧ appended c' = ChildDoc <$> links
    ∧ length links = length docs
    ∧ hidden s' = false
    ∧ markup a' = Text (js "Se encontraron " ++ decimal (N.of_nat (length docs))
                        ++ js " documentos.")
    ∧ classes a' = [js "alert"; js "alert-success"]
    ∧ Buscar.console p' = Buscar.console p.
Proof.
  intros Hl Ha Hnet Hok Hdata Hres Hne Hall.
  rewrite (Buscar_outcome_datos host server p q resp data Hl Hnet Hok Hdata).
  destruct Hl as (_ & [s Hs] & [c Hc]).
  destruct (Buscar_con_datos_docs host p a s c data docs links (Ok ())
              Ha Hs Hc Hres Hne)
    as (a' & s' & c' & H1 & H2 & H3 & H4 & H5 & H6 & H7 & H8 & H9).
  { intros p0. by apply forEach_doc_ok. }
  eexists. exists a', s', c'. split; [reflexivity|]. split_and!; try done.
  symmetry. exact (Forall2_length _ _ _ Hall).
Qed.

Lemma buscar_renders_documents_witness :
  let fin := (outcome (undisturbed (Samples.responde 200 Ejemplos.dos_docs)) 0
                (task (Buscar.submit Samples.host (Samples.pagina (js "ley"))))).1 in
  (markup <$> Buscar.document fin !! js "alerta-busqueda")
  = Some (Text (js "Se encontraron 2 documentos."))
  ∧ (length ∘ appended <$> Buscar.document fin !! js "resultados-container") = Some 2.
Proof.
  intros fin.
  assert (Hr : ∃ l1 l2,
    Enlaces.enlazados Samples.host
      [Samples.objeto [(js "titulo", JStr (js "Ley 142"));
                       (js "url", JStr (js "/docs/ley142.pdf"))];
       Samples.objeto [(js "titulo", JStr (js "Decreto 1073"))]] [l1; l2]).
  { eexists _, _. repeat constructor; vm_compute; reflexivity. }
  destruct Hr as (l1 & l2 & Hr).
  destruct (buscar_renders_documents Samples.host
              (Samples.responde 200 Ejemplos.dos_docs)
              (Samples.pagina (js "ley")) (js "ley")
              (Samples.elemento [] (js "alert d-none"))
              {| status := 200; payload := Ok Ejemplos.dos_docs |}
              Ejemplos.dos_docs
              [Samples.objeto [(js "titulo", JStr (js "Ley 142"));
                               (js "url", JStr (js "/docs/ley142.pdf"))];
               Samples.objeto [(js "titulo", JStr (js "Decreto 1073"))]]
              [l1; l2])
    as (p' & a' & s' & c' & Hout & Hla & _ & Hlc & _ & Happ & _ & _ & Hm & _).
  - split; [|split; eexists; reflexivity].
    eexists. split; [reflexivity|]. split; reflexivity.
  - reflexivity.
  - reflexivity.
  - reflexivity.
  - reflexivity.
  - reflexivity.
  - discriminate.
  - exact Hr.
  - subst fin. rewrite Hout. cbn [fst]. rewrite Hla, Hlc. cbn.
    rewrite Hm, Happ. split; reflexivity.
Defined.

(** X12: a document that throws while it is rendered (a [null] in the
    list, or a document whose title cannot be converted to a string) stops
    the loop of [/buscar]: the links of the documents before it stay in the
    container, none of the later documents is rendered, the results section
    stays hidden, and the [catch] block logs the exception and shows the
    communication-error alert. *)
Theorem buscar_stops_at_bad_document (host : Host) (server : Request -> FetchResult)
    (p : Buscar.Page) (q : jstring) (a : Element) (resp : Response)
    (data : JsVal) (pre post : list JsVal) (bad : JsVal)
    (links : list DocLink) (e : Exn) :
  Enlaces.lista p q →
  Buscar.document p !! js "alerta-busqueda" = Some a →
  server (Buscar.peticion q) = Resolves resp →
  ok resp = true →
  payload resp = Ok data →
  as_array (Elastic.get data (js "resultados")) = Some (pre ++ bad :: post) →
  Enlaces.enlazados host pre links →
  Buscar.render_doc host bad = Throw e →
  ∃ p' a' s' c',
    outcome (undisturbed server) 0 (task (Buscar.submit host p)) = (p', None)
    ∧ Buscar.document p' !! js "alerta-busqueda" = Some a'
    ∧ Buscar.document p' !! js "resultados-section" = Some s'
    ∧ Buscar.document p' !! js "resultados-container" = Some c'
    ∧ appended c' = ChildDoc <$> links
    ∧ length links = length pre
    ∧ hidden s' = true
    ∧ markup a' = Text (js "Error de comunicación con el servidor.")
    ∧ classes a' = [js "alert"; js "alert-danger"]
    ∧ Buscar.console p' = Buscar.console p ++ [e].
Proof.
  intros Hl Ha Hnet Hok Hdata Hres Hall Hbad.
  rewrite (Buscar_outcome_datos host server p q resp data Hl Hnet Hok Hdata).
  destruct Hl as (_ & [s Hs] & [c Hc]).
  destruct (Buscar_con_datos_docs host p a s c data (pre ++ bad :: post) links
              (Throw e) Ha Hs Hc Hres)
    as (a' & s' & c' & H1 & H2 & H3 & H4 & H5 & H6 & H7 & H8 & H9).
  { by destruct pre. }
  { intros p0. by apply forEach_doc_partial. }
  eexists. exists a', s', c'. split; [reflexivity|]. split_and!; try done.
  symmetry. exact (Forall2_length _ _ _ Hall).
Qed.

Lemma buscar_stops_at_bad_document_witness :
  let fin d := (outcome (undisturbed (Samples.responde 200 d)) 0
                  (task (Buscar.submit Samples.host (Samples.pagina (js "ley"))))).1 in
  ((hidden <$> Buscar.document (fin Ejemplos.doc_y_null) !! js "resultados-section")
   = Some true
   ∧ (length ∘ appended
        <$> Buscar.document (fin Ejemplos.doc_y_null) !! js "resultados-container")
     = Some 1
   ∧ Buscar.console (fin Ejemplos.doc_y_null) = [TypeError])
  ∧ ((hidden <$> Buscar.document (fin Ejemplos.doc_sin_texto) !! js "resultados-section")
     = Some true
     ∧ (length ∘ appended
          <$> Buscar.document (fin Ejemplos.doc_sin_texto) !! js "resultados-container")
       = Some 1
     ∧ Buscar.console (fin Ejemplos.doc_sin_texto) = [TypeError]).
Proof.
  intros fin.
  assert (Hr : ∃ l1,
    Enlaces.enlazados Samples.host
      [Samples.objeto [(js "titulo", JStr (js "Ley 142"))]] [l1]).
  { eexists. repeat constructor; vm_compute; reflexivity. }
  destruct Hr as (l1 & Hr).
  split.
  - destruct (buscar_stops_at_bad_document Samples.host
                (Samples.responde 200 Ejemplos.doc_y_null)
                (Samples.pagina (js "ley")) (js "ley")
                (Samples.elemento [] (js "alert d-none"))
                {| status := 200; payload := Ok Ejemplos.doc_y_null |}
                Ejemplos.doc_y_null
                [Samples.objeto [(js "titulo", JStr (js "Ley 142"))]] [] JNull
                [l1] TypeError)
      as (p' & a' & s' & c' & Hout & _ & Hls & Hlc & Happ & _ & Hh & _ & _ & Hcon).
    + split; [|split; eexists; reflexivity].
      eexists. split; [reflexivity|]. split; reflexivity.
    + reflexivity.
    + reflexivity.
    + reflexivity.
    + reflexivity.
    + reflexivity.
    + exact Hr.
    + reflexivity.
    + subst fin. cbv beta. rewrite Hout. cbn [fst]. rewrite Hls, Hlc. cbn.
      rewrite Hh, Happ, Hcon. split_and!; reflexivity.
  - destruct (buscar_stops_at_bad_document Samples.host
                (Samples.responde 200 Ejemplos.doc_sin_texto)
                (Samples.pagina (js "ley")) (js "ley")
                (Samples.elemento [] (js "alert d-none"))
                {| status := 200; payload := Ok Ejemplos.doc_sin_texto |}
                Ejemplos.doc_sin_texto
                [Samples.objeto [(js "titulo", JStr (js "Ley 142"))]]
                [Samples.objeto [(js "titulo", JStr (js "Decreto 1073"))]]
                (Samples.objeto [(js "titulo", Ejemplos.sin_texto)])
                [l1] TypeError)
      as (p' & a' & s' & c' & Hout & _ & Hls & Hlc & Happ & _ & Hh & _ & _ & Hcon).
    + split; [|split; eexists; reflexivity].
      eexists. split; [reflexivity|]. split; reflexivity.
    + reflexivity.
    + reflexivity.
    + reflexivity.
    + reflexivity.
    + reflexivity.
    + exact Hr.
    + reflexivity.
    + subst fin. cbv beta. rewrite Hout. cbn [fst]. rewrite Hls, Hlc. cbn.
      rewrite Hh, Happ, Hcon. split_and!; reflexivity.
Defined.

(** X13: without a query the handler of [/buscar] does nothing on the
    network: when the page has no input, or the trimmed text of the input is
    empty, the default submission is blocked, no request is issued, no
    exception leaves the handler, and every element other than the alert is
    left as it was (the results of an earlier search stay on the page). With
    no input the page is not touched at all; with an empty text and an alert
    element the alert shows the warning [Debes escribir un texto de
    búsqueda.]. *)
Theorem buscar_no_query (host : Host) (p : Buscar.Page) (w : World Buscar.Page) :
  Buscar.document p !! js "texto_busqueda" = None
  ∨ (∃ i, Buscar.document p !! js "texto_busqueda" = Some i ∧ trim (value i) = []) →
  prevented (Buscar.submit host p) = true
  ∧ requests w 0 (task (Buscar.submit host p)) = []
  ∧ ∃ p',
      outcome w 0 (task (Buscar.submit host p)) = (p', None)
      ∧ Buscar.console p' = Buscar.console p
      ∧ (∀ id, id ≠ js "alerta-busqueda" →
               Buscar.document p' !! id = Buscar.document p !! id)
      ∧ (Buscar.document p !! js "texto_busqueda" = None → p' = p)
      ∧ (∀ i a, Buscar.document p !! js "texto_busqueda" = Some i →
                Buscar.document p !! js "alerta-busqueda" = Some a →
                ∃ a', Buscar.document p' !! js "alerta-busqueda" = Some a'
                  ∧ markup a' = Text (js "Debes escribir un texto de búsqueda.")
                  ∧ classes a' = [js "alert"; js "alert-warning"]).
Proof.
  intros [Hno | (i & Hi & Hq)]; unfold Buscar.submit; cbn [prevented task].
  - rewrite Hno. cbn [requests outcome]. split_and!; try done.
    exists p. split_and!; try done; intros; congruence.
  - rewrite Hi, Hq. cbn [str_truthy negb requests outcome]. split_and!; try done.
    eexists. split; [reflexivity|]. split_and!.
    + by destruct (Buscar.getElementById (js "alerta-busqueda") p).
    + intros id Hid. apply Buscar_mostrarAlerta_other.
      unfold Buscar.getElementById.
      destruct (Buscar.document p !! js "alerta-busqueda"); simpl; congruence.
    + congruence.
    + intros i' a _ Ha.
      rewrite (Buscar_getElementById_Some (js "alerta-busqueda") p) by by eexists.
      destruct (Buscar_mostrarAlerta_lookup (js "alerta-busqueda")
                  (js "Debes escribir un texto de búsqueda.") (js "warning") p a Ha)
        as (a' & Hla & Hma & Hca).
      exists a'. split_and!; [exact Hla | exact Hma |]. rewrite Hca. reflexivity.
Qed.

Lemma buscar_no_query_witness :
  requests (undisturbed Samples.no_responde) 0
    (task (Buscar.submit Samples.host (Samples.pagina (js "   ")))) = []
  ∧ requests (undisturbed Samples.no_responde) 0
      (task (Buscar.submit Samples.host
               (Buscar.with_document (delete (js "texto_busqueda"))
                  (Samples.pagina (js "ley"))))) = [].
Proof.
  split.
  - apply (buscar_no_query Samples.host (Samples.pagina (js "   "))).
    right. eexists. split; reflexivity.
  - apply (buscar_no_query Samples.host
             (Buscar.with_document (delete (js "texto_busqueda"))
                (Samples.pagina (js "ley")))).
    left. reflexivity.
Defined.

(** ** The landing page: repeated submits *)

Lemma enviar_value (f : Landing.Formulario) :
  value (Landing.input (Envios.enviar f)) = value (Landing.input f).
Proof.
  unfold Envios.enviar, Landing.submit.
  destruct (str_truthy (trim (value (Landing.input f)))); simpl; [done|].
  by destruct (Landing.feedback f).
Qed.

Lemma iter_enviar_value (n : nat) (f : Landing.Formulario) :
  value (Landing.input (Nat.iter n Envios.enviar f)) = value (Landing.input f).
Proof. induction n as [|n IH]; [done|]. simpl. by rewrite enviar_value. Qed.

Lemma enviar_nonempty (f : Landing.Formulario) :
  str_truthy (trim (value (Landing.input f))) = true →
  Envios.texto_original f ≠ [] →
  let f' := Envios.enviar f in
  Landing.originalText (Landing.btn f') = Some (Envios.texto_original f)
  ∧ Envios.texto_original f' = Envios.texto_original f
  ∧ Landing.disabled (Landing.btn f') = true
  ∧ Landing.textContent (Landing.btn f') = js "Buscando..."
  ∧ Landing.innerHTML (Landing.btn f') = Landing.spinner
  ∧ has_class (js "is-invalid") (Landing.input f') = false
  ∧ Landing.feedback f' = Landing.feedback f
  ∧ Landing.after_input f' = Landing.after_input f.
Proof.
  intros Hq Ht. unfold Envios.enviar, Landing.submit. rewrite Hq. simpl.
  fold (Envios.texto_original f).
  split_and!; try done.
  - unfold Envios.texto_original at 1. simpl. fold (Envios.texto_original f).
    by destruct (Envios.texto_original f).
  - apply has_class_remove.
Qed.

(** X14: a submit of the landing form with a query is not blocked and calls
    nothing on the network; it disables the button, puts the spinner in it
    and clears the invalid mark. However often the form is submitted, the
    text kept in [data-original-text] is the one the button showed before the
    first submit (when that text is not empty), never [Buscando...]. *)
Theorem boton_keeps_original_text (f : Landing.Formulario) (n : nat)
    (w : World Landing.Formulario) :
  str_truthy (trim (value (Landing.input f))) = true →
  Envios.texto_original f ≠ [] →
  0 < n →
  let f' := Nat.iter n Envios.enviar f in
  prevented (Landing.submit f) = false
  ∧ requests w 0 (task (Landing.submit f)) = []
  ∧ Landing.originalText (Landing.btn f') = Some (Envios.texto_original f)
  ∧ Landing.disabled (Landing.btn f') = true
  ∧ Landing.textContent (Landing.btn f') = js "Buscando..."
  ∧ Landing.innerHTML (Landing.btn f') = Landing.spinner
  ∧ has_class (js "is-invalid") (Landing.input f') = false
  ∧ Landing.after_input f' = Landing.after_input f.
Proof.
  intros Hq Ht Hn f'. subst f'.
  split; [unfold Landing.submit; by rewrite Hq|].
  split; [unfold Landing.submit; by rewrite Hq|].
  destruct n as [|n]; [lia|]. clear Hn.
  induction n as [|n IH].
  - destruct (enviar_nonempty f Hq Ht) as (H1 & _ & H3 & H4 & H5 & H6 & _ & H8).
    by split_and!.
  - destruct IH as (I1 & _ & _ & _ & _ & I6).
    set (g := Nat.iter (S n) Envios.enviar f) in *.
    change (Nat.iter (S (S n)) Envios.enviar f) with (Envios.enviar g).
    assert (Hg : str_truthy (trim (value (Landing.input g))) = true).
    { subst g. by rewrite iter_enviar_value. }
    assert (Hgt : Envios.texto_original g = Envios.texto_original f).
    { unfold Envios.texto_original at 1. rewrite I1.
      by destruct (Envios.texto_original f). }
    destruct (enviar_nonempty g Hg) as (H1 & _ & H3 & H4 & H5 & H6 & _ & H8).
    { by rewrite Hgt. }
    rewrite Hgt in H1. rewrite I6 in H8. by split_and!.
Qed.

Lemma boton_keeps_original_text_witness :
  let f := {| Landing.input := Samples.elemento (js "gas") (js "form-control is-invalid");
              Landing.btn := Ejemplos.boton (js "Buscar");
              Landing.feedback := None; Landing.input_in_form := true;
              Landing.after_input := [] |} in
  Landing.originalText (Landing.btn (Nat.iter 3 Envios.enviar f)) = Some (js "Buscar")
  ∧ Landing.disabled (Landing.btn (Nat.iter 3 Envios.enviar f)) = true.
Proof.
  intros f.
  destruct (boton_keeps_original_text f 3 (undisturbed Samples.no_responde)
              eq_refl ltac:(discriminate) ltac:(lia))
    as (_ & _ & H1 & H2 & _).
  split; [exact H1 | exact H2].
Defined.

Lemma enviar_empty (f : Landing.Formulario) :
  trim (value (Landing.input f)) = [] →
  let f' := Envios.enviar f in
  has_class (js "is-invalid") (Landing.input f') = true
  ∧ Landing.input_in_form f' = Landing.input_in_form f
  ∧ Landing.btn f' = Landing.btn f
  ∧ match Landing.feedback f with
    | Some fb => Landing.feedback f' = Some fb
                 ∧ Landing.after_input f' = Landing.after_input f
    | None => Landing.feedback f'
              = (if Landing.input_in_form f then Some Landing.nuevo_feedback else None)
              ∧ Landing.after_input f' = Landing.nuevo_feedback :: Landing.after_input f
    end.
Proof.
  intros Hq. unfold Envios.enviar, Landing.submit. rewrite Hq. simpl.
  destruct (Landing.feedback f); simpl; split_and!; try done; apply has_class_add.
Qed.

Lemma enviar_feedback_Some (f : Landing.Formulario) (fb : Element) :
  Landing.feedback f = Some fb → Landing.feedback (Envios.enviar f) = Some fb.
Proof.
  intros H. unfold Envios.enviar, Landing.submit.
  destruct (str_truthy _); simpl; [done|]. by rewrite H.
Qed.

Lemma enviar_in_form (f : Landing.Formulario) :
  Landing.input_in_form (Envios.enviar f) = Landing.input_in_form f.
Proof.
  unfold Envios.enviar, Landing.submit.
  destruct (str_truthy _); simpl; [done|]. by destruct (Landing.feedback f).
Qed.

(** X15: submitting the landing form empty again and again marks the input
    invalid and never touches the button. When the form already has an
    [invalid-feedback] element nothing is inserted; when it has none and the
    input is inside the form, exactly one is inserted, by the first submit;
    when the input is outside the form the element inserted after it is never
    found again, and every submit inserts another. *)
Theorem feedback_inserted_once (f : Landing.Formulario) (n : nat) :
  trim (value (Landing.input f)) = [] →
  0 < n →
  let f' := Nat.iter n Envios.enviar f in
  has_class (js "is-invalid") (Landing.input f') = true
  ∧ Landing.btn f' = Landing.btn f
  ∧ (is_Some (Landing.feedback f) →
     Landing.after_input f' = Landing.after_input f)
  ∧ (Landing.feedback f = None → Landing.input_in_form f = true →
     Landing.feedback f' = Some Landing.nuevo_feedback
     ∧ Landing.after_input f' = Landing.nuevo_feedback :: Landing.after_input f)
  ∧ (Landing.feedback f = None → Landing.input_in_form f = false →
     Landing.feedback f' = None
     ∧ Landing.after_input f'
       = replicate n Landing.nuevo_feedback ++ Landing.after_input f).
Proof.
  intros Hq Hn f'. subst f'.
  destruct n as [|n]; [lia|]. clear Hn.
  induction n as [|n IH].
  - destruct (enviar_empty f Hq) as (H1 & H2 & H3 & H4).
    cbn [Nat.iter nat_rect] in *. split_and!; try done.
    + intros [fb Hfb]. rewrite Hfb in H4. by destruct H4.
    + intros Hfb Hin. rewrite Hfb, Hin in H4. exact H4.
    + intros Hfb Hin. rewrite Hfb, Hin in H4. exact H4.
  - destruct IH as (_ & I2 & I3 & I4 & I5).
    set (g := Nat.iter (S n) Envios.enviar f) in *.
    change (Nat.iter (S (S n)) Envios.enviar f) with (Envios.enviar g).
    assert (Hg : trim (value (Landing.input g)) = []).
    { subst g. by rewrite iter_enviar_value. }
    assert (Hin : Landing.input_in_form g = Landing.input_in_form f).
    { subst g. clear. induction (S n) as [|k IHk]; [done|].
      cbn [Nat.iter nat_rect]. by rewrite enviar_in_form. }
    destruct (enviar_empty g Hg) as (H1 & _ & H3 & H4).
    split_and!.
    + exact H1.
    + by rewrite H3.
    + intros Hfb. specialize (I3 Hfb).
      destruct (Landing.feedback g) as [fb|] eqn:Hgf.
      * destruct H4 as [_ ->]. exact I3.
      * exfalso. destruct Hfb as [fb Hfb].
        assert (Hkeep : ∀ k, Landing.feedback (Nat.iter k Envios.enviar f) = Some fb).
        { induction k as [|k IHk]; [done|]. cbn [Nat.iter nat_rect].
          by apply enviar_feedback_Some. }
        subst g. by rewrite Hkeep in Hgf.
    + intros Hfb Hinf. destruct (I4 Hfb Hinf) as [Hgf Hga].
      rewrite Hgf in H4. destruct H4 as [-> ->]. by rewrite Hga.
    + intros Hfb Hinf. destruct (I5 Hfb Hinf) as [Hgf Hga].
      rewrite Hgf, Hin, Hinf in H4. destruct H4 as [-> ->]. by rewrite Hga.
Qed.

Lemma feedback_inserted_once_witness :
  length (Landing.after_input (Nat.iter 3 Envios.enviar (Samples.formulario (js " ")))) = 1
  ∧ is_Some (Landing.feedback (Nat.iter 3 Envios.enviar (Samples.formulario (js " ")))).
Proof.
  destruct (feedback_inserted_once (Samples.formulario (js " ")) 3 eq_refl ltac:(lia))
    as (_ & _ & _ & H & _).
  destruct (H eq_refl eq_refl) as [-> ->]. split; [reflexivity | by eexists].
Defined.

(** ** The back-to-top button *)

Lemma toggleVisibility_show (v : VolverArriba.Ventana) (e0 : Element) :
  VolverArriba.btn v = Some e0 →
  ∃ e, VolverArriba.btn (VolverArriba.toggleVisibility v) = Some e
    ∧ has_class (js "show") e = PrimFloat.ltb 200 (VolverArriba.scrollY v)
    ∧ (∀ t, t ≠ js "show" → t ∈ classes e ↔ t ∈ classes e0)
    ∧ value e = value e0 ∧ markup e = markup e0.
Proof.
  intros Hb. unfold VolverArriba.toggleVisibility. simpl. rewrite Hb. simpl.
  destruct (PrimFloat.ltb 200 (VolverArriba.scrollY v)).
  - eexists. split; [reflexivity|]. split_and!; try done.
    + apply has_class_add.
    + intros t Ht. rewrite elem_of_classList_add. tauto.
  - eexists. split; [reflexivity|]. split_and!; try done.
    + apply has_class_remove.
    + intros t Ht. rewrite elem_of_classList_remove. tauto.
Qed.

Lemma handle_show (ev : VolverArriba.Evento) (u : VolverArriba.Ventana)
    (e e0 : Element) :
  VolverArriba.listening u = true →
  VolverArriba.btn u = Some e →
  (∀ t, t ≠ js "show" → t ∈ classes e ↔ t ∈ classes e0) →
  has_class (js "show") e = PrimFloat.ltb 200 (VolverArriba.scrollY u) →
  ∃ e',
    VolverArriba.btn (VolverArriba.handle ev u) = Some e'
    ∧ (∀ t, t ≠ js "show" → t ∈ classes e' ↔ t ∈ classes e0)
    ∧ has_class (js "show") e'
      = PrimFloat.ltb 200 (VolverArriba.scrollY (VolverArriba.handle ev u))
    ∧ VolverArriba.scrollTo_top (VolverArriba.handle ev u)
      = VolverArriba.scrollTo_top u + (if VolverArriba.is_click ev then 1 else 0)
    ∧ VolverArriba.listening (VolverArriba.handle ev u) = true.
Proof.
  intros Hl He Hc Hs.
  destruct ev as [y|]; unfold VolverArriba.handle; cbn [VolverArriba.listening];
    rewrite Hl.
  - destruct (toggleVisibility_show
                {| VolverArriba.btn := VolverArriba.btn u;
                   VolverArriba.scrollY := y;
                   VolverArriba.scrollTo_top := VolverArriba.scrollTo_top u;
                   VolverArriba.listening := true |} e He)
      as (e' & He' & Hs' & Hc' & _).
    exists e'. split_and!.
    + exact He'.
    + intros t Ht. rewrite (Hc' t Ht). by apply Hc.
    + exact Hs'.
    + simpl. lia.
    + reflexivity.
  - exists e. split_and!.
    + exact He.
    + exact Hc.
    + exact Hs.
    + simpl. lia.
    + reflexivity.
Qed.

Lemma events_show (evs : list VolverArriba.Evento) (u : VolverArriba.Ventana)
    (e e0 : Element) :
  VolverArriba.listening u = true →
  VolverArriba.btn u = Some e →
  (∀ t, t ≠ js "show" → t ∈ classes e ↔ t ∈ classes e0) →
  has_class (js "show") e = PrimFloat.ltb 200 (VolverArriba.scrollY u) →
  let u' := foldl (λ v ev, VolverArriba.handle ev v) u evs in
  ∃ e',
    VolverArriba.btn u' = Some e'
    ∧ (∀ t, t ≠ js "show" → t ∈ classes e' ↔ t ∈ classes e0)
    ∧ has_class (js "show") e' = PrimFloat.ltb 200 (VolverArriba.scrollY u')
    ∧ VolverArriba.scrollTo_top u'
      = VolverArriba.scrollTo_top u
        + length (filter (λ ev, VolverArriba.is_click ev = true) evs).
Proof.
  revert u e. induction evs as [|ev evs IH]; intros u e Hl He Hc Hs; cbn zeta.
  - exists e. split_and!; try done; simpl; lia.
  - destruct (handle_show ev u e e0 Hl He Hc Hs) as (e1 & He1 & Hc1 & Hs1 & Hn1 & Hl1).
    destruct (IH _ e1 Hl1 He1 Hc1 Hs1) as (e' & H1 & H2 & H3 & H4).
    exists e'. cbn [foldl]. split_and!; try done.
    rewrite H4, Hn1, filter_cons.
    destruct (VolverArriba.is_click ev) eqn:Hev.
    + rewrite decide_True by done. simpl. lia.
    + rewrite decide_False by done. lia.
Qed.

(** X16: on a page with the back-to-top button, after [initBackToTop] and
    after every later scroll or click, the button has the class [show]
    exactly when the window is scrolled more than 200 pixels down; its other
    classes never change; and [scrollTo] has been called once per click. *)
Theorem back_to_top_shown (v : VolverArriba.Ventana) (e0 : Element)
    (evs : list VolverArriba.Evento) :
  VolverArriba.btn v = Some e0 →
  let v' := VolverArriba.session evs v in
  ∃ e, VolverArriba.btn v' = Some e
    ∧ has_class (js "show") e = PrimFloat.ltb 200 (VolverArriba.scrollY v')
    ∧ (∀ t, t ≠ js "show" → t ∈ classes e ↔ t ∈ classes e0)
    ∧ VolverArriba.scrollTo_top v'
      = VolverArriba.scrollTo_top v
        + length (filter (λ ev, VolverArriba.is_click ev = true) evs).
Proof.
  intros Hb v'. subst v'. unfold VolverArriba.session, VolverArriba.initBackToTop.
  rewrite Hb.
  destruct (toggleVisibility_show
              {| VolverArriba.btn := Some e0;
                 VolverArriba.scrollY := VolverArriba.scrollY v;
                 VolverArriba.scrollTo_top := VolverArriba.scrollTo_top v;
                 VolverArriba.listening := true |} e0 eq_refl)
    as (e & He & Hs & Hc & _).
  set (u := VolverArriba.toggleVisibility _) in *.
  destruct (events_show evs u e e0 eq_refl He Hc Hs) as (e' & H1 & H2 & H3 & H4).
  exists e'. by split_and!.
Qed.

Lemma back_to_top_shown_witness :
  let v := VolverArriba.session
             [VolverArriba.Scroll 350; VolverArriba.Click; VolverArriba.Scroll 120;
              VolverArriba.Scroll 200.5]
             (Ejemplos.ventana 0) in
  (has_class (js "show") <$> VolverArriba.btn v) = Some true
  ∧ VolverArriba.scrollTo_top v = 1.
Proof.
  intros v.
  destruct (back_to_top_shown (Ejemplos.ventana 0)
              (Samples.elemento [] (js "btn btn-sm"))
              [VolverArriba.Scroll 350; VolverArriba.Click; VolverArriba.Scroll 120;
               VolverArriba.Scroll 200.5] eq_refl)
    as (e & He & Hs & _ & Hn).
  subst v. rewrite He, Hn. cbn. rewrite Hs. split; reflexivity.
Defined.

(** ** Alerts that close themselves *)

Lemma programar_target (i : nat) (a : Alertas.Alerta) :
  Alertas.target <$> Alertas.programar i a
  = if bool_decide (Alertas.autoclose a = Some (js "false")) then [] else [i].
Proof. unfold Alertas.programar. by case_bool_decide. Qed.

Lemma forEach_alert_targets (alerts : list Alertas.Alerta) (i0 i : nat) :
  i ∈ Alertas.target <$> Alertas.forEach_alert i0 alerts
  ↔ ∃ k a, i = i0 + k ∧ alerts !! k = Some a
           ∧ Alertas.autoclose a ≠ Some (js "false").
Proof.
  revert i0. induction alerts as [|a rest IH]; intros i0; simpl.
  - rewrite elem_of_nil. split; [done | by intros (k & a & _ & ? & _)].
  - rewrite fmap_app, elem_of_app, programar_target, IH. split.
    + intros [Hi | (k & a' & -> & Hk & Ha)].
      * case_bool_decide as Hf; [by apply elem_of_nil in Hi|].
        apply list_elem_of_singleton in Hi as ->.
        exists 0, a. split_and!; [lia | done | done].
      * exists (S k), a'. split_and!; [lia | done | done].
    + intros ([|k] & a' & -> & Hk & Ha); simpl in Hk.
      * injection Hk as <-. left. rewrite bool_decide_eq_false_2 by done.
        apply list_elem_of_singleton. lia.
      * right. exists k, a'. split_and!; [lia | done | done].
Qed.

Lemma forEach_alert_NoDup (alerts : list Alertas.Alerta) (i0 : nat) :
  NoDup (Alertas.target <$> Alertas.forEach_alert i0 alerts).
Proof.
  revert i0. induction alerts as [|a rest IH]; intros i0; simpl; [constructor|].
  rewrite fmap_app, programar_target. case_bool_decide; [apply IH|].
  simpl. constructor; [|apply IH].
  rewrite forEach_alert_targets. intros (k & a' & Hk & _). lia.
Qed.

(** X17: [initAutoHideAlerts] sets no timer at all when Bootstrap is not
    loaded. With Bootstrap it sets exactly one timer for every alert of the
    page whose [data-autoclose] is not the string [false], and none for the
    others. *)
Theorem autohide_targets (alerts : list Alertas.Alerta) :
  Alertas.initAutoHideAlerts false alerts = []
  ∧ NoDup (Alertas.target <$> Alertas.initAutoHideAlerts true alerts)
  ∧ ∀ i, i ∈ Alertas.target <$> Alertas.initAutoHideAlerts true alerts
         ↔ ∃ a, alerts !! i = Some a ∧ Alertas.autoclose a ≠ Some (js "false").
Proof.
  unfold Alertas.initAutoHideAlerts. split_and!.
  - by rewrite orb_true_r.
  - rewrite orb_false_r. case_bool_decide; simpl; [apply forEach_alert_NoDup|].
    constructor.
  - intros i. rewrite orb_false_r. case_bool_decide as Hne; simpl.
    + rewrite forEach_alert_targets. split.
      * intros (k & a & -> & Hk & Ha). by exists a.
      * intros (a & Hi & Ha). by exists i, a.
    + assert (alerts = []) as -> by (by destruct alerts).
      rewrite elem_of_nil. split; [done | by intros (a & ? & _)].
Qed.

(** Reading back a decimal numeral. *)
Lemma leading_digits_acc (d : Decimal.uint) (p : positive) :
  Alertas.leading_digits (Some (N.pos p)) (uint_chars d)
  = Some (N.pos (Pos.of_uint_acc d p)).
Proof.
  revert p. induction d; intros p; cbn [uint_chars Alertas.leading_digits];
    [done | ..];
    (change (Alertas.digit_value _) with (Some 0%N)
     || change (Alertas.digit_value _) with (Some 1%N)
     || change (Alertas.digit_value _) with (Some 2%N)
     || change (Alertas.digit_value _) with (Some 3%N)
     || change (Alertas.digit_value _) with (Some 4%N)
     || change (Alertas.digit_value _) with (Some 5%N)
     || change (Alertas.digit_value _) with (Some 6%N)
     || change (Alertas.digit_value _) with (Some 7%N)
     || change (Alertas.digit_value _) with (Some 8%N)
     || change (Alertas.digit_value _) with (Some 9%N));
    cbn [default from_option id Pos.of_uint_acc];
    rewrite <- IHd; do 2 f_equal; lia.
Qed.

Lemma leading_digits_zero (d : Decimal.uint) :
  Alertas.leading_digits (Some 0%N) (uint_chars d) = Some (N.of_uint d).
Proof.
  induction d; cbn [uint_chars Alertas.leading_digits]; [done | ..];
    (change (Alertas.digit_value _) with (Some 0%N)
     || change (Alertas.digit_value _) with (Some 1%N)
     || change (Alertas.digit_value _) with (Some 2%N)
     || change (Alertas.digit_value _) with (Some 3%N)
     || change (Alertas.digit_value _) with (Some 4%N)
     || change (Alertas.digit_value _) with (Some 5%N)
     || change (Alertas.digit_value _) with (Some 6%N)
     || change (Alertas.digit_value _) with (Some 7%N)
     || change (Alertas.digit_value _) with (Some 8%N)
     || change (Alertas.digit_value _) with (Some 9%N));
    cbn [default from_option id];
    [exact IHd | ..]; apply (leading_digits_acc d).
Qed.

Lemma parseInt10_decimal (n : N) :
  Alertas.parseInt10 (decimal n) = Some (Z.of_N n)
  ∧ str_truthy (decimal n) = true.
Proof.
  unfold decimal.
  assert (Hnil : N.to_uint n ≠ Decimal.Nil).
  { destruct n; [done | apply DecimalPos.Unsigned.to_uint_nonnil]. }
  rewrite <- (DecimalN.Unsigned.of_to n) at 2.
  destruct (N.to_uint n) as [|d|d|d|d|d|d|d|d|d|d]; [done | ..];
    (split; [|done]);
    unfold Alertas.parseInt10; cbn [uint_chars];
    match goal with
    | |- context [trim_start (?c :: ?r)] =>
        change (trim_start (c :: r)) with (c :: r)
    end;
    cbv iota beta;
    match goal with
    | |- context [Alertas.leading_digits None (?c :: uint_chars ?r)] =>
        change (Alertas.leading_digits None (c :: uint_chars r))
          with (Alertas.leading_digits (Some 0%N) (c :: uint_chars r))
    end.
  all: match goal with
       | |- context [Alertas.leading_digits (Some 0%N) (?c :: uint_chars ?r)] =>
           first
             [ change (c :: uint_chars r) with (uint_chars (Decimal.D0 r))
             | change (c :: uint_chars r) with (uint_chars (Decimal.D1 r))
             | change (c :: uint_chars r) with (uint_chars (Decimal.D2 r))
             | change (c :: uint_chars r) with (uint_chars (Decimal.D3 r))
             | change (c :: uint_chars r) with (uint_chars (Decimal.D4 r))
             | change (c :: uint_chars r) with (uint_chars (Decimal.D5 r))
             | change (c :: uint_chars r) with (uint_chars (Decimal.D6 r))
             | change (c :: uint_chars r) with (uint_chars (Decimal.D7 r))
             | change (c :: uint_chars r) with (uint_chars (Decimal.D8 r))
             | change (c :: uint_chars r) with (uint_chars (Decimal.D9 r)) ]
       end.
  all: by rewrite leading_digits_zero.
Qed.

(** X18: the timer of an alert gets 5000 ms when the alert has no
    [data-autoclose-delay] or an empty one; the number written there when it
    is a decimal numeral; and, for any other text, what [parseInt] reads from
    it, [NaN] included. *)
Theorem autohide_delay (alerts : list Alertas.Alerta) (i : nat) (a : Alertas.Alerta) :
  alerts !! i = Some a →
  Alertas.autoclose a ≠ Some (js "false") →
  ∃ d, {| Alertas.target := i; Alertas.delay := d |}
       ∈ Alertas.initAutoHideAlerts true alerts
    ∧ (Alertas.autoclose_delay a = None ∨ Alertas.autoclose_delay a = Some []
       → d = Some 5000%Z)
    ∧ (∀ n, Alertas.autoclose_delay a = Some (decimal n) → d = Some (Z.of_N n))
    ∧ (∀ s, Alertas.autoclose_delay a = Some s → s ≠ [] → d = Alertas.parseInt10 s).
Proof.
  intros Hi Ha.
  assert (Hfe : ∀ alerts i0 k, alerts !! k = Some a →
            Alertas.programar (i0 + k) a ⊆ Alertas.forEach_alert i0 alerts).
  { clear. intros alerts. induction alerts as [|a' rest IH]; intros i0 k Hk; [done|].
    destruct k as [|k]; simpl in *.
    - injection Hk as ->. rewrite Nat.add_0_r. intros t Ht.
      apply elem_of_app. by left.
    - intros t Ht. apply elem_of_app. right.
      apply (IH (S i0) k Hk). by rewrite Nat.add_succ_comm. }
  assert (Hne : alerts ≠ []) by (by destruct alerts).
  unfold Alertas.initAutoHideAlerts. rewrite bool_decide_eq_true_2 by done. simpl.
  specialize (Hfe alerts 0 i Hi). simpl in Hfe.
  unfold Alertas.programar in Hfe.
  rewrite bool_decide_eq_false_2 in Hfe by done. simpl in Hfe.
  eexists. split; [apply Hfe; by left|].
  split_and!.
  - by intros [-> | ->].
  - intros n ->. destruct (parseInt10_decimal n) as [-> ->]. done.
  - intros s -> Hs. by destruct s.
Qed.

Lemma autohide_delay_witness :
  let alerts := [ {| Alertas.autoclose := Some (js "false");
                     Alertas.autoclose_delay := None |};
                  {| Alertas.autoclose := None;
                     Alertas.autoclose_delay := Some (js "8000") |} ] in
  {| Alertas.target := 1; Alertas.delay := Some 8000%Z |}
  ∈ Alertas.initAutoHideAlerts true alerts.
Proof.
  intros alerts.
  destruct (autohide_delay alerts 1
              {| Alertas.autoclose := None;
                 Alertas.autoclose_delay := Some (js "8000") |}
              eq_refl ltac:(discriminate))
    as (d & Hd & _ & Hn & _).
  by rewrite (Hn 8000%N eq_refl) in Hd.
Defined.
